(** * SubCellPortable: the batch-inference driver [process.py]

    A shallow embedding of [process.py] and the properties its specification
    states about it.  The script is a straight-line program over a file
    system, a logger, the network and an external inference module.  It is
    modelled as a state-and-exception monad over an explicit [World]; the
    external collaborators ([requests.get], [imread], [inference.run_model],
    the YAML loader, ...) are the fields of an environment record [Env], and
    each of them may inspect the current world.

    Probability values are finite doubles.  A finite double is a rational
    number and the comparisons the script applies to them ([>] inside [max],
    [==] inside [list.index], [<] inside [sorted]) are exact, so they are
    modelled by [Q] with [Qle_bool] and [Qeq_bool].  Strings are sequences of
    code points below 256; paths are compared as strings. *)

From Stdlib Require Import QArith Ascii String DecimalString.
From stdpp Require Import gmap strings list sorting.

Open Scope string_scope.
Open Scope list_scope.

(** ** Exceptions *)

(** A Python call either returns or raises; an exception is represented by
    the text [str(e)] that the top-level handler logs. *)
Inductive res (A : Type) : Type :=
| Ok (a : A)
| Raise (e : string).
Arguments Ok {A} a.
Arguments Raise {A} e.

(** ** Comparisons of probability values *)

Definition Qgt_bool (x y : Q) : bool := negb (Qle_bool x y).
Definition Qlt_bool (x y : Q) : bool := negb (Qle_bool y x).

(** ** Python built-ins used by the script *)

Module Py.

(** [max(l)]: keeps the first item and replaces it by a later one only when
    that one is strictly greater. *)
Definition max_from (m : Q) (l : list Q) : Q :=
  fold_left (fun maxitem item => if Qgt_bool item maxitem then item else maxitem) l m.

Definition max (l : list Q) : res Q :=
  match l with
  | [] => Raise "max() arg is an empty sequence"
  | x :: xs => Ok (max_from x xs)
  end.

(** [l.index(x)]: position of the first item equal to [x]. *)
Fixpoint index_from (x : Q) (l : list Q) (i : nat) : res nat :=
  match l with
  | [] => Raise "x is not in list"
  | y :: ys => if Qeq_bool y x then Ok i else index_from x ys (S i)
  end.

Definition index (l : list Q) (x : Q) : res nat := index_from x l 0.

(** [sorted(l, key=key)]: a stable ascending sort that compares keys with
    [<] only.  An item moves behind another one only when its key is
    strictly greater, so items with equal keys keep their order. *)
Fixpoint insert_by {A} (key : A -> Q) (x : A) (l : list A) : list A :=
  match l with
  | [] => [x]
  | y :: ys => if Qlt_bool (key y) (key x) then y :: insert_by key x ys else x :: y :: ys
  end.

Fixpoint sorted {A} (l : list A) (key : A -> Q) : list A :=
  match l with
  | [] => []
  | x :: xs => insert_by key x (sorted xs key)
  end.

(** [range(n)]. *)
Definition range (n : nat) : list nat := seq 0 n.

(** The slice [l[-n:]]: the last [n] items, the whole list when it is
    shorter. *)
Definition last_n {A} (n : nat) (l : list A) : list A := drop (length l - n) l.

(** [l[i]] on a list, for [i >= 0]. *)
Definition getitem {A} (l : list A) (i : nat) : res A :=
  match l !! i with
  | Some x => Ok x
  | None => Raise "list index out of range"
  end.

(** [str(n)] for a non-negative integer. *)
Definition str (n : nat) : string := NilZero.string_of_uint (Nat.to_uint n).

(** ["%0<width>d" % (n,)]: decimal, padded with zeros on the left. *)
Fixpoint zeros (n : nat) : string :=
  match n with
  | O => ""
  | S n' => String "0" (zeros n')
  end.

Definition format_0d (width n : nat) : string :=
  let s := str n in zeros (width - String.length s) +:+ s.

(** [sep.join(l)]. *)
Fixpoint join (sep : string) (l : list string) : string :=
  match l with
  | [] => ""
  | [x] => x
  | x :: xs => x +:+ sep +:+ join sep xs
  end.

(** A text is the sequence of its code points, here those below 256.
    [c.isspace()], which decides what [str.strip()] removes: among these
    code points the white space is U+0009 to U+000D, U+001C to U+0020,
    U+0085 and U+00A0. *)
Definition isspace (c : ascii) : bool :=
  let n := nat_of_ascii c in
  ((9 <=? n)%nat && (n <=? 13)%nat) || ((28 <=? n)%nat && (n <=? 32)%nat)
  || (n =? 133)%nat || (n =? 160)%nat.

Fixpoint lstrip (s : string) : string :=
  match s with
  | "" => ""
  | String c s' => if isspace c then lstrip s' else s
  end.

Fixpoint rstrip (s : string) : string :=
  match s with
  | "" => ""
  | String c s' =>
      match rstrip s' with
      | "" => if isspace c then "" else String c ""
      | r => String c r
      end
  end.

(** [s.strip()] *)
Definition strip (s : string) : string := lstrip (rstrip s).

(** [s.startswith(p)] *)
Definition startswith (s p : string) : bool := String.prefix p s.

(** [s.endswith("/")], as [os.path.join] asks. *)
Fixpoint endswith_sep (s : string) : bool :=
  match s with
  | "" => false
  | String c "" => Ascii.eqb c "/"
  | String _ s' => endswith_sep s'
  end.

(** [needle in hay] on strings: substring test. *)
Definition contains (needle hay : string) : bool :=
  match String.index 0 needle hay with
  | Some _ => true
  | None => false
  end.

(** [s.split(sep)] for a one-character separator: never empty. *)
Fixpoint split (sep : ascii) (s : string) : list string :=
  match s with
  | "" => [""]
  | String c s' =>
      if Ascii.eqb c sep then "" :: split sep s'
      else match split sep s' with
           | x :: xs => String c x :: xs
           | [] => [String c ""]
           end
  end.

(** Iterating over a file opened with [open(path, 'r')]: the lines, each
    with its newline.  The file is read with universal newlines: a line ends
    at LF, at CR or at CR LF, and each of them is handed over as LF. *)
Fixpoint file_lines (s : string) : list string :=
  match s with
  | "" => []
  | String c s' =>
      if Ascii.eqb c "010" then String "010" "" :: file_lines s'
      else if Ascii.eqb c "013" then
        match s' with
        | String c' s'' =>
            if Ascii.eqb c' "010" then String "010" "" :: file_lines s''
            else String "010" "" :: file_lines s'
        | "" => [String "010" ""]
        end
      else match file_lines s' with
           | l :: ls => String c l :: ls
           | [] => [String c ""]
           end
  end.

(** [os.path.join(a, *p)] on a POSIX system. *)
Definition join2 (path b : string) : string :=
  if startswith b "/" then b
  else if String.eqb path "" || endswith_sep path then path +:+ b
  else path +:+ "/" +:+ b.

Definition path_join (a : string) (p : list string) : string := fold_left join2 p a.

End Py.

(** ** Top-1 and top-3 classes (lines 121-127) *)

(** [curr_probs_l[sub]] for [sub] in [range(len(curr_probs_l))]. *)
Definition prob_at (curr_probs_l : list Q) (sub : nat) : Q := nth sub curr_probs_l 0%Q.

(** [curr_probs_l.index(max(curr_probs_l))] *)
Definition max_location_class (curr_probs_l : list Q) : res nat :=
  match Py.max curr_probs_l with
  | Ok m => Py.index curr_probs_l m
  | Raise e => Raise e
  end.

(** [sorted(range(len(curr_probs_l)), key=lambda sub: curr_probs_l[sub])[-3:]] *)
Definition max_3_location_classes (curr_probs_l : list Q) : list nat :=
  Py.last_n 3 (Py.sorted (Py.range (length curr_probs_l)) (prob_at curr_probs_l)).

(** The top-3 indices read from the most to the least probable, the order in
    which line 125 reads them to build [max_3_location_names]. *)
Definition top_3_descending (curr_probs_l : list Q) : list nat :=
  rev (max_3_location_classes curr_probs_l).

(** ** Configuration values and the settings mapping *)

(** What a key of [config] can hold: the logger handle, a string, a boolean,
    or any other YAML value, of which the script only ever uses the type name
    (in a [TypeError]) and the truth value. *)
Inductive value : Type :=
| VLogger
| VStr (s : string)
| VBool (b : bool)
| VOther (tyname : string) (truth : bool).

Global Instance value_eq_dec : EqDecision value.
Proof. solve_decision. Defined.

(** Truth value, as [if v:] and [... or v] take it. *)
Definition truthy (v : value) : bool :=
  match v with
  | VLogger => true
  | VStr s => negb (String.eqb s "")
  | VBool b => b
  | VOther _ t => t
  end.

Definition type_name (v : value) : string :=
  match v with
  | VLogger => "Logger"
  | VStr _ => "str"
  | VBool _ => "bool"
  | VOther n _ => n
  end.

(** Lines 22-28: the built-in defaults. *)
Definition default_config : gmap string value :=
  <["create_csv" := VBool false]>
  (<["update_model" := VBool false]>
  (<["model_type" := VStr "mae_contrast_supcon_model"]>
  (<["model_channels" := VStr "rybg"]>
  (<["log" := VLogger]> ∅)))).

(** [a | b] on dictionaries: the keys of [b] win. *)
Definition dict_or (a b : gmap string value) : gmap string value := b ∪ a.

(** ** Command line (lines 31-38) *)

(** The four options declared with [add_argument]. *)
Inductive dest : Type := model_channels | model_type | update_model | create_csv.

Global Instance dest_eq_dec : EqDecision dest.
Proof. solve_decision. Defined.

Definition dest_name (d : dest) : string :=
  match d with
  | model_channels => "model_channels"
  | model_type => "model_type"
  | update_model => "update_model"
  | create_csv => "create_csv"
  end.

(** The option strings of each declaration. *)
Definition dest_of_flag (flag : string) : option dest :=
  if String.eqb flag "-c" || String.eqb flag "--model_channels" then Some model_channels
  else if String.eqb flag "-t" || String.eqb flag "--model_type" then Some model_type
  else if String.eqb flag "-u" || String.eqb flag "--update_model" then Some update_model
  else if String.eqb flag "-csv" || String.eqb flag "--create_csv" then Some create_csv
  else None.

(** The [default=] of each declaration. *)
Definition arg_default (d : dest) : value :=
  match d with
  | model_channels => VStr "rybg"
  | model_type => VStr "mae_contrast_supcon_model"
  | update_model => VBool false
  | create_csv => VBool false
  end.

(** The [type=] of each declaration applied to the string given on the
    command line: [str] keeps it, [bool] is the truth value of the string. *)
Definition arg_type (d : dest) (s : string) : value :=
  match d with
  | model_channels | model_type => VStr s
  | update_model | create_csv => VBool (negb (String.eqb s ""))
  end.

(** What [parse_args] reads from a command line in the plain spelling
    [option value option value ...]: the options passed, each with its
    string, in order.  [None] is a command line that is not in this
    spelling. *)
Fixpoint passed (args : list string) : option (list (dest * string)) :=
  match args with
  | [] => Some []
  | flag :: v :: rest =>
      match dest_of_flag flag with
      | Some d =>
          if Py.startswith v "-" then None
          else match passed rest with
               | Some ps => Some ((d, v) :: ps)
               | None => None
               end
      | None => None
      end
  | [_] => None
  end.

(** The string an option receives: the one of its last occurrence. *)
Definition last_passed (d : dest) (ps : list (dest * string)) : option string :=
  snd <$> last (filter (fun p => p.1 = d) ps).

(** The attribute of [args] for an option: the converted string when the
    option is passed, the default otherwise. *)
Definition arg_value (d : dest) (ps : list (dest * string)) : value :=
  match last_passed d ps with
  | Some s => arg_type d s
  | None => arg_default d
  end.

(** [args.__dict__] *)
Definition namespace (ps : list (dest * string)) : gmap string value :=
  <["model_channels" := arg_value model_channels ps]>
  (<["model_type" := arg_value model_type ps]>
  (<["update_model" := arg_value update_model ps]>
  (<["create_csv" := arg_value create_csv ps]> ∅))).

(** ** The world *)

Inductive level : Type := INFO | WARNING | ERROR.

Global Instance level_eq_dec : EqDecision level.
Proof. solve_decision. Defined.

(** What is handed to the logger: a string, or the [config] dictionary
    itself (line 49). *)
Inductive message : Type :=
| Text (s : string)
| Settings (c : gmap string value).

(** What the script does to the outside, one event per call. *)
Inductive event : Type :=
| EvLog (lvl : level) (msg : message)   (* a record sent to the logger: [log.txt] and console *)
| EvGet (url : string)                  (* [requests.get(url)] *)
| EvWrite (path data : string)          (* a file opened for writing and written *)
| EvMakedirs (path : string)            (* [os.makedirs(path, exist_ok=True)] *)
| EvImread (path : string)              (* [imread(path, as_gray=True)] *)
| EvRunModel (stem : string).           (* [inference.run_model(_, _, stem)] *)

(** The state the script acts on: the regular files it opens by path, and
    the calls it has made so far, oldest first. *)
Record World : Type := {
  files : gmap string string;
  trace : list event
}.

(** A result table: [pd.DataFrame] with string column labels. *)
Inductive cell : Type :=
| CStr (s : string)
| CInt (n : nat)
| CNum (q : Q).

Record DataFrame : Type := {
  columns : list string;
  rows : list (list cell)
}.

(** ** The state-and-exception monad *)

(** A computation runs in a world, returns or raises, and leaves a world
    behind in both cases: what was done before an exception stays done. *)
Definition M (A : Type) : Type := World -> res A * World.

Definition ret {A} (a : A) : M A := fun w => (Ok a, w).
Definition raise {A} (e : string) : M A := fun w => (Raise e, w).
Definition lift {A} (r : res A) : M A := fun w => (r, w).
Definition ask {A} (f : World -> res A) : M A := fun w => (f w, w).

(** An outside call: its event is recorded whether it returns or raises. *)
Definition call {A} (e : event) (f : World -> res A) : M A :=
  fun w => (f w, {| files := files w; trace := trace w ++ [e] |}).

Definition bind {A B} (m : M A) (k : A -> M B) : M B :=
  fun w =>
    match m w with
    | (Ok a, w') => k a w'
    | (Raise e, w') => (Raise e, w')
    end.

(** [try: body  except Exception as e: handler(str(e))] *)
Definition try_except {A} (body : M A) (handler : string -> M A) : M A :=
  fun w =>
    match body w with
    | (Ok a, w') => (Ok a, w')
    | (Raise e, w') => handler e w'
    end.

Declare Scope py_scope.
Delimit Scope py_scope with py.
Notation "x <- m ;; k" := (bind m (fun x => k))
  (at level 100, m at next level, right associativity) : py_scope.
Notation "m ;;; k" := (bind m (fun _ => k))
  (at level 100, right associativity) : py_scope.
Open Scope py_scope.

(** ** The external collaborators *)

Record Response : Type := {
  status_code : Z;
  content : string
}.

(** Everything the script calls and does not define.  Each collaborator sees
    the world as it is when it is called. *)
Record Env : Type := {
  Image : Type;                (* what [imread] returns *)
  Model : Type;                (* [inference.ViTPoolClassifier] *)
  (* [datetime.datetime.now().strftime(...)] *)
  now : World -> string;
  (* how [argparse] reads [sys.argv[1:]] against the four declarations: the
     options passed, each with its string, in order; or [SystemExit] (a
     usage error, [-h]) *)
  argv_options : list string -> res (list (dest * string));
  (* [yaml.safe_load] on [config.yaml]: [None] for an empty document *)
  safe_load_config : string -> res (option (gmap string value));
  (* [yaml.safe_load] on [models_urls.yaml], then
     [url_info[channels][model_type][kind]] *)
  safe_load_urls : string -> res (string -> string -> string -> res string);
  (* [requests.get(url)] *)
  requests_get : World -> string -> res Response;
  (* whether [open(path, 'wb')] and the write that follows succeed *)
  open_wb : World -> string -> res unit;
  (* whether [os.makedirs(path, exist_ok=True)] succeeds *)
  os_makedirs : World -> string -> res unit;
  (* [imread(path, as_gray=True)] *)
  imread : World -> string -> res Image;
  (* lines 80-83 on the text of [model_config.yaml] and the two weight paths *)
  load_model : World -> string -> string -> string -> res Model;
  (* [inference.run_model(model, cell_data, output_stem)]:
     embedding and probabilities *)
  run_model : World -> Model -> list (list Image) -> string -> res (list Q * list Q);
  (* [inference.CLASS2NAME[i]] *)
  CLASS2NAME : nat -> res string;
  (* the text [DataFrame.to_csv(index=False)] produces *)
  to_csv : DataFrame -> string
}.

(** ** The script *)

Section Program.
Context (E : Env).

(** *** Primitive actions *)

Definition method_name (lvl : level) : string :=
  match lvl with
  | INFO => "info"
  | WARNING => "warning"
  | ERROR => "error"
  end.

(** [config[k]] *)
Definition config_get (config : gmap string value) (k : string) : M value :=
  match config !! k with
  | Some v => ret v
  | None => raise ("'" +:+ k +:+ "'")
  end.

(** [config["log"].info(msg)], [.warning(msg)], [.error(msg)] *)
Definition log_call (config : gmap string value) (lvl : level) (msg : message) : M unit :=
  logger <- config_get config "log";;
  match logger with
  | VLogger => call (EvLog lvl msg) (fun _ => Ok tt)
  | v => raise ("'" +:+ type_name v +:+ "' object has no attribute '" +:+ method_name lvl +:+ "'")
  end.

(** [datetime.datetime.now().strftime("%Y/%m/%d %H:%M:%S")] *)
Definition get_now : M string := fun w => (Ok (now E w), w).

(** [open(path, "r")] and reading the text. *)
Definition open_r (path : string) : M string :=
  ask (fun w =>
         match files w !! path with
         | Some text => Ok text
         | None => Raise ("[Errno 2] No such file or directory: '" +:+ path +:+ "'")
         end).

(** [with open(path, 'wb') as f: f.write(data)], and [to_csv(path)]. *)
Definition write_file (path data : string) : M unit :=
  ask (fun w => open_wb E w path);;;
  fun w => (Ok tt, {| files := <[path := data]> (files w);
                      trace := trace w ++ [EvWrite path data] |}).

(** [os.path.isfile(path)], [os.path.exists(path)]: the world holds regular
    files only, so the two agree. *)
Definition os_path_isfile (path : string) : M bool :=
  fun w => (Ok (bool_decide (is_Some (files w !! path))), w).
Definition os_path_exists (path : string) : M bool :=
  fun w => (Ok (bool_decide (is_Some (files w !! path))), w).

(** [requests.get(url)] *)
Definition http_get (url : string) : M Response :=
  call (EvGet url) (fun w => requests_get E w url).

(** [os.makedirs(path, exist_ok=True)] *)
Definition makedirs (path : string) : M unit :=
  call (EvMakedirs path) (fun w => os_makedirs E w path).

(** [imread(path, as_gray=True)] *)
Definition do_imread (path : string) : M (Image E) :=
  call (EvImread path) (fun w => imread E w path).

(** [inference.run_model(model, cell_data, stem)] *)
Definition do_run_model (model : Model E) (cell_data : list (list (Image E))) (stem : string)
  : M (list Q * list Q) :=
  call (EvRunModel stem) (fun w => run_model E w model cell_data stem).

(** *** Configuration resolver (lines 22-44) *)

(** [argparser.parse_args()] on [sys.argv[1:]]: the namespace of the options
    that [argparse] has read. *)
Definition parse_args (args : list string) : res (gmap string value) :=
  match argv_options E args with
  | Ok ps => Ok (namespace ps)
  | Raise e => Raise e
  end.

Definition resolve_config (sys_argv : list string) : M (gmap string value) :=
  let config := default_config in
  config <- (if (1 <? length sys_argv)%nat
             then args <- lift (parse_args (tail sys_argv));; ret (dict_or config args)
             else ret config);;
  text <- open_r "config.yaml";;
  config_contents <- lift (safe_load_config E text);;
  match config_contents with
  | Some c => if bool_decide (c = ∅) then ret config else ret (dict_or config c)
  | None => ret config
  end.

(** Lines 22-50: the configuration, then the four opening log records. *)
Definition prologue (sys_argv : list string) : M (gmap string value) :=
  config <- resolve_config sys_argv;;
  start <- get_now;;
  log_call config INFO (Text ("Start: " +:+ start));;;
  log_call config INFO (Text "Parameters used:");;;
  log_call config INFO (Settings config);;;
  log_call config INFO (Text "----------");;;
  ret config.

(** *** Model provisioner (lines 54-76) *)

(** [os.path.join] on configuration values: every component must be a
    string. *)
Fixpoint fspaths (vs : list value) : res (list string) :=
  match vs with
  | [] => Ok []
  | VStr s :: vs' =>
      match fspaths vs' with
      | Ok ss => Ok (s :: ss)
      | Raise e => Raise e
      end
  | v :: _ =>
      Raise ("join() argument must be str, bytes, or os.PathLike object, not '"
             +:+ type_name v +:+ "'")
  end.

Definition os_path_join (a : value) (p : list value) : res string :=
  match fspaths (a :: p) with
  | Ok (a' :: p') => Ok (Py.path_join a' p')
  | Ok [] => Raise "join() missing 1 required positional argument: 'a'"
  | Raise e => Raise e
  end.

(** [os.path.join("models", config["model_channels"], config["model_type"], name)] *)
Definition model_file (config : gmap string value) (name : string) : M string :=
  c <- config_get config "model_channels";;
  t <- config_get config "model_type";;
  lift (os_path_join (VStr "models") [c; t; VStr name]).

(** [url_info[c][t][kind]]; the keys of a YAML mapping of URLs are strings. *)
Definition url_lookup (url_info : string -> string -> string -> res string)
  (c t : value) (kind : string) : res string :=
  match c, t with
  | VStr c', VStr t' => url_info c' t' kind
  | VStr _, v | v, _ => Raise ("unhashable or missing key of type '" +:+ type_name v +:+ "'")
  end.

(** Lines 62-68 for the classifier and 70-76 for the encoder: one download
    attempt. *)
Definition download (config : gmap string value)
  (url_info : string -> string -> string -> res string) (kind file_name : string) : M unit :=
  c <- config_get config "model_channels";;
  t <- config_get config "model_type";;
  url <- lift (url_lookup url_info c t kind);;
  response <- http_get url;;
  if (status_code response =? 200)%Z then
    path <- model_file config file_name;;
    write_file path (content response);;;
    log_call config INFO (Text ("  - " +:+ file_name +:+ " updated."))
  else
    log_call config WARNING (Text ("  - " +:+ file_name +:+ " url not found.")).

(** Line 57: [not isfile(classifier_path) or not isfile(encoder_path) or
    config["update_model"]]. *)
Definition update_needed (config : gmap string value) (classifier_path encoder_path : string)
  : M bool :=
  c_there <- os_path_isfile classifier_path;;
  if negb c_there then ret true
  else
    e_there <- os_path_isfile encoder_path;;
    if negb e_there then ret true
    else u <- config_get config "update_model";; ret (truthy u).

Definition provision (config : gmap string value) : M (string * string) :=
  classifier_path <- model_file config "classifier.pth";;
  encoder_path <- model_file config "encoder.pth";;
  needed <- update_needed config classifier_path encoder_path;;
  (if (needed : bool) then
     log_call config INFO (Text "- Downloading models...");;;
     text <- open_r "models_urls.yaml";;
     url_info <- lift (safe_load_urls E text);;
     download config url_info "classifier" "classifier.pth";;;
     download config url_info "encoder" "encoder.pth"
   else ret tt);;;
  ret (classifier_path, encoder_path).

(** *** Loading the model (lines 79-83) *)

Definition load (config : gmap string value) (classifier_path encoder_path : string)
  : M (Model E) :=
  path <- model_file config "model_config.yaml";;
  text <- open_r path;;
  ask (fun w => load_model E w text encoder_path classifier_path).

(** *** The result table (lines 86-96) *)

Definition prob_columns : list string :=
  map (fun i => "prob" +:+ Py.format_0d 2 i) (Py.range 31).

Definition feat_columns : list string :=
  map (fun i => "feat" +:+ Py.format_0d 4 i) (Py.range 1536).

Definition final_columns : list string :=
  ["id"; "top_class_name"; "top_class"; "top_3_classes_names"; "top_3_classes"]
    ++ prob_columns ++ feat_columns.

(** [df] exists only when [config["create_csv"]] holds. *)
Definition new_table (config : gmap string value) : M (option DataFrame) :=
  create <- config_get config "create_csv";;
  if truthy create then ret (Some {| columns := final_columns; rows := [] |})
  else ret None.

(** [df.loc[len(df.index)] = new_row]: a row is added at the end; pandas
    refuses a row that has not one value per column. *)
Definition df_append (df : option DataFrame) (row : list cell) : res (option DataFrame) :=
  match df with
  | Some d =>
      if (length row =? length (columns d))%nat
      then Ok (Some {| columns := columns d; rows := rows d ++ [row] |})
      else Raise "cannot set a row with mismatched columns"
  | None => Raise "name 'df' is not defined"
  end.

(** Lines 53-96: what precedes the loop. *)
Definition setup (config : gmap string value) : M (Model E * option DataFrame) :=
  paths <- provision config;;
  model <- load config paths.1 paths.2;;
  df <- new_table config;;
  ret (model, df).

(** *** One manifest line (lines 103-141) *)

(** [letter in config["model_channels"]] *)
Definition channel_in (letter : string) (channels : value) : res bool :=
  match channels with
  | VStr s => Ok (Py.contains letter s)
  | v => Raise ("argument of type '" +:+ type_name v +:+ "' is not iterable")
  end.

(** One of the four [if letter in config["model_channels"]: cell_data.append(...)]. *)
Definition load_channel (config : gmap string value) (letter : string) (field : nat)
  (curr_set_arr : list string) (cell_data : list (list (Image E))) : M (list (list (Image E))) :=
  channels <- config_get config "model_channels";;
  present <- lift (channel_in letter channels);;
  if (present : bool) then
    path <- lift (Py.getitem curr_set_arr field);;
    img <- do_imread (Py.strip path);;
    ret (cell_data ++ [[img]])
  else ret cell_data.

(** Lines 108-116 *)
Definition load_cell_data (config : gmap string value) (curr_set_arr : list string)
  : M (list (list (Image E))) :=
  cell_data <- load_channel config "r" 0 curr_set_arr [];;
  cell_data <- load_channel config "y" 1 curr_set_arr cell_data;;
  cell_data <- load_channel config "b" 2 curr_set_arr cell_data;;
  load_channel config "g" 3 curr_set_arr cell_data.

(** Lines 125-127 *)
Definition max_3_location_names (max_3 : list nat) : M string :=
  i2 <- lift (Py.getitem max_3 2);;
  n2 <- lift (CLASS2NAME E i2);;
  i1 <- lift (Py.getitem max_3 1);;
  n1 <- lift (CLASS2NAME E i1);;
  i0 <- lift (Py.getitem max_3 0);;
  n0 <- lift (CLASS2NAME E i0);;
  ret (n2 +:+ "," +:+ n1 +:+ "," +:+ n0).

(** Lines 131-138 *)
Definition new_row (id max_location_name : string) (max_location : nat)
  (max_3_names : string) (max_3 : list nat) (probabilities embedding : list Q) : list cell :=
  [CStr id; CStr max_location_name; CInt max_location; CStr max_3_names;
   CStr (Py.join "," (map Py.str max_3))]
    ++ map CNum probabilities ++ map CNum embedding.

(** Lines 106-141 on the fields of a line. *)
Definition process_set (config : gmap string value) (model : Model E)
  (df : option DataFrame) (curr_set_arr : list string) : M (option DataFrame) :=
  out_dir <- lift (Py.getitem curr_set_arr 4);;
  makedirs (Py.strip out_dir);;;
  cell_data <- load_cell_data config curr_set_arr;;
  out_dir <- lift (Py.getitem curr_set_arr 4);;
  out_name <- lift (Py.getitem curr_set_arr 5);;
  result <- do_run_model model cell_data (Py.path_join out_dir [Py.strip out_name]);;
  let embedding := result.1 in
  let probabilities := result.2 in
  let curr_probs_l := probabilities in
  top <- lift (max_location_class curr_probs_l);;
  max_location_name <- lift (CLASS2NAME E top);;
  let max_3 := max_3_location_classes curr_probs_l in
  max_3_names <- max_3_location_names max_3;;
  create <- config_get config "create_csv";;
  df' <- (if truthy create then
            id <- lift (Py.getitem curr_set_arr 5);;
            lift (df_append df (new_row (Py.strip id) max_location_name top
                                  max_3_names max_3 probabilities embedding))
          else ret df);;
  id <- lift (Py.getitem curr_set_arr 5);;
  log_call config INFO
    (Text ("- Saved results for " +:+ Py.strip id +:+ ", locations predicted ["
           +:+ max_3_names +:+ "]"));;;
  ret df'.

(** Line 103: blank lines and lines that start with [#] are skipped. *)
Definition retained (curr_set : string) : bool :=
  negb (String.eqb (Py.strip curr_set) "") && negb (Py.startswith curr_set "#").

(** Lines 103-141 *)
Definition process_row (config : gmap string value) (model : Model E)
  (df : option DataFrame) (curr_set : string) : M (option DataFrame) :=
  if retained curr_set then process_set config model df (Py.split "," curr_set)
  else ret df.

(** *** The loop and the final write (lines 99-144) *)

Fixpoint process_rows (config : gmap string value) (model : Model E)
  (path_list : list string) (df : option DataFrame) : M (option DataFrame) :=
  match path_list with
  | [] => ret df
  | curr_set :: rest =>
      df' <- process_row config model df curr_set;;
      process_rows config model rest df'
  end.

(** Lines 143-144 *)
Definition save_csv (config : gmap string value) (df : option DataFrame) : M unit :=
  create <- config_get config "create_csv";;
  if truthy create then
    match df with
    | Some d => write_file "result.csv" (to_csv E d)
    | None => raise "name 'df' is not defined"
    end
  else ret tt.

Definition batch (config : gmap string value) (model : Model E) (df : option DataFrame)
  : M unit :=
  there <- os_path_exists "./path_list.csv";;
  if (there : bool) then
    text <- open_r "./path_list.csv";;
    df' <- process_rows config model (Py.file_lines text) df;;
    save_csv config df'
  else ret tt.

(** *** The whole run *)

(** Lines 53-144: what stands inside [try]. *)
Definition body (config : gmap string value) : M unit :=
  s <- setup config;;
  batch config s.1 s.2.

(** Lines 145-146 *)
Definition handler (config : gmap string value) (e : string) : M unit :=
  log_call config ERROR (Text ("- " +:+ e)).

(** Lines 148-149 *)
Definition epilogue (config : gmap string value) : M unit :=
  log_call config INFO (Text "----------");;;
  finish <- get_now;;
  log_call config INFO (Text ("End: " +:+ finish)).

(** The script from top to bottom.  An exception that leaves [main] is
    uncaught: the interpreter stops with a traceback (or, for the
    [SystemExit] of [parse_args], with a usage message). *)
Definition main (sys_argv : list string) : M unit :=
  config <- prologue sys_argv;;
  try_except (body config) (handler config);;;
  epilogue config.

End Program.

(** ** Notions the specification uses *)

(** Position [i] comes before position [j] in a stable ascending sort of the
    vector: its value is smaller, or the values are equal and [i] is the
    earlier position. *)
Definition before (curr_probs_l : list Q) (i j : nat) : Prop :=
  (prob_at curr_probs_l i < prob_at curr_probs_l j)%Q
  \/ ((prob_at curr_probs_l i == prob_at curr_probs_l j)%Q /\ (i < j)%nat).

(** [s] is the stable ascending sort of the positions of the vector. *)
Definition stable_ascending_sort (curr_probs_l : list Q) (s : list nat) : Prop :=
  s ≡ₚ seq 0 (length curr_probs_l) /\ StronglySorted (before curr_probs_l) s.



(** The code points below 256 that Python counts as white space, and a
    text made of nothing else. *)
Definition white_space_code_points : list nat :=
  [9; 10; 11; 12; 13; 28; 29; 30; 31; 32; 133; 160]%nat.

Definition white_space_only (s : string) : Prop :=
  Forall (fun c => nat_of_ascii c ∈ white_space_code_points) (list_ascii_of_string s).

(** The world after the events [evs] have happened: each write has set its
    file, and the trace has grown. *)
Fixpoint replay (evs : list event) (fs : gmap string string) : gmap string string :=
  match evs with
  | [] => fs
  | EvWrite path data :: rest => replay rest (<[path := data]> fs)
  | _ :: rest => replay rest fs
  end.

Definition extend (w : World) (evs : list event) : World :=
  {| files := replay evs (files w); trace := trace w ++ evs |}.

(** Starting from files that satisfy [I], the computation [m] does nothing
    but events that satisfy [Q], and leaves files that satisfy [I]. *)
Definition steps {A} (I : gmap string string -> Prop) (Q : event -> Prop) (m : M A) : Prop :=
  forall w, I (files w) ->
    exists evs, (m w).2 = extend w evs /\ Forall Q evs /\ I (files (extend w evs)).

(** Kinds of events. *)
Definition is_request (e : event) : Prop :=
  match e with EvGet _ => True | _ => False end.

Definition is_error (e : event) : Prop :=
  match e with EvLog ERROR _ => True | _ => False end.

Definition is_write (e : event) : Prop :=
  match e with EvWrite _ _ => True | _ => False end.

Definition writes_to (path : string) (e : event) : Prop :=
  match e with EvWrite p _ => p = path | _ => False end.

Definition is_info (e : event) : Prop :=
  match e with EvLog INFO _ => True | _ => False end.

(** A path that ends with the name of one of the two weight files. *)
Definition weight_path (p : string) : Prop :=
  exists dir, p = dir +:+ "classifier.pth" \/ p = dir +:+ "encoder.pth".

(** What the provisioner may do: log below error level, fetch, and write a
    weight file. *)
Definition provision_event (e : event) : Prop :=
  match e with
  | EvLog INFO _ | EvLog WARNING _ | EvGet _ => True
  | EvWrite p _ => weight_path p
  | _ => False
  end.

(** What processing manifest lines may do. *)
Definition row_event (e : event) : Prop :=
  match e with
  | EvLog INFO _ | EvMakedirs _ | EvImread _ | EvRunModel _ => True
  | _ => False
  end.

(** Projections of a list of events. *)
Definition requests_of (evs : list event) : list string :=
  omap (fun e => match e with EvGet u => Some u | _ => None end) evs.

Definition imreads_of (evs : list event) : list string :=
  omap (fun e => match e with EvImread p => Some p | _ => None end) evs.

Definition runs_of (evs : list event) : list string :=
  omap (fun e => match e with EvRunModel s => Some s | _ => None end) evs.

Definition errors_of (evs : list event) : list message :=
  omap (fun e => match e with EvLog ERROR m => Some m | _ => None end) evs.

Definition written_paths (evs : list event) : list string :=
  omap (fun e => match e with EvWrite p _ => Some p | _ => None end) evs.

(** The manifest fields of the four channels, in the order the script reads
    them, and the image paths a line asks for under a channel set. *)
Definition channel_fields : list (string * nat) :=
  [("r", 0%nat); ("y", 1%nat); ("b", 2%nat); ("g", 3%nat)].

Definition channel_path (channels : string) (curr_set_arr : list string)
  (letter : string) (field : nat) : list string :=
  if Py.contains letter channels then
    match curr_set_arr !! field with
    | Some p => [Py.strip p]
    | None => []
    end
  else [].

Definition selected_paths (channels : string) (curr_set_arr : list string) : list string :=
  concat (map (fun lf => channel_path channels curr_set_arr lf.1 lf.2) channel_fields).

(** The computation [m] reads with [imread] a prefix of the paths [S], in
    order, and all of them when it returns. *)
Definition reads_within {A} (S : list string) (m : M A) : Prop :=
  forall w, exists evs,
    trace (m w).2 = trace w ++ evs
    /\ imreads_of evs `prefix_of` S
    /\ (forall a, (m w).1 = Ok a -> imreads_of evs = S).

(** A string of white space only. *)
Fixpoint all_space (s : string) : bool :=
  match s with
  | "" => true
  | String c s' => Py.isspace c && all_space s'
  end.

Definition not_imread (e : event) : Prop :=
  match e with EvImread _ => False | _ => True end.

(** Two manifest lines of at least six fields each that have the same
    fields at the positions [fields]. *)
Definition same_fields (fields : list nat) (l1 l2 : string) : Prop :=
  (6 <= length (Py.split "," l1))%nat
  /\ (6 <= length (Py.split "," l2))%nat
  /\ forall i, i ∈ fields -> Py.split "," l1 !! i = Py.split "," l2 !! i.

(** What a run may do when it never enters the loop: log, fetch, and write
    a weight file. *)
Definition outside_loop_event (e : event) : Prop :=
  match e with
  | EvLog _ _ | EvGet _ => True
  | EvWrite p _ => weight_path p
  | _ => False
  end.

(** What a run may do up to a failure in the loop: everything but log an
    error or write a file other than a weight file. *)
Definition before_failure_event (e : event) : Prop :=
  provision_event e \/ row_event e.

(** ** A sample run *)

(** A small environment and world on which the script can be run: the
    command line is read in its plain spelling, an image is its path,
    [missing.png] cannot be read, the model answers every cell with the same
    31 probabilities and 1536 features, the classifier URL answers 404 and
    the encoder URL 200. *)
Module Sample.

Definition probabilities : list Q :=
  [5#10; 1#10; 2#10; 4#10; 3#10]%Q ++ repeat (0#1)%Q 26.

Definition embedding : list Q := repeat (1#4)%Q 1536.

(** The URL table of [models_urls.yaml]. *)
Definition url_info (c t kind : string) : res string :=
  Ok ("https://models.example/" +:+ c +:+ "/" +:+ t +:+ "/" +:+ kind).

Definition env : Env := {|
  Image := string;
  Model := unit;
  now := fun _ => "2024/05/17 09:30:00";
  argv_options := fun args =>
    match passed args with
    | Some ps => Ok ps
    | None => Raise "SystemExit: 2"
    end;
  safe_load_config := fun text =>
    if String.eqb text "" then Ok None
    else Ok (Some (<["create_csv" := VBool true]> (<["model_channels" := VStr "rb"]> ∅)));
  safe_load_urls := fun _ => Ok url_info;
  requests_get := fun _ url =>
    if Py.contains "classifier" url
    then Ok {| status_code := 404; content := "" |}
    else Ok {| status_code := 200; content := "encoder weights" |};
  open_wb := fun _ _ => Ok tt;
  os_makedirs := fun _ _ => Ok tt;
  imread := fun _ path =>
    if String.eqb path "missing.png"
    then Raise "No such file: 'missing.png'"
    else Ok path;
  load_model := fun _ _ _ _ => Ok tt;
  run_model := fun _ _ _ _ => Ok (embedding, probabilities);
  CLASS2NAME := fun i =>
    if (i <? 31)%nat then Ok ("class" +:+ Py.str i) else Raise "list index out of range";
  to_csv := fun d => Py.join "," (columns d)
|}.

Definition manifest : string :=
  "# r,y,b,g,out_dir,out_name
cell1_r.png,cell1_y.png,cell1_b.png,cell1_g.png,out,cell1
missing.png,cell2_y.png,cell2_b.png,cell2_g.png,out,cell2
cell3_r.png,cell3_y.png,cell3_b.png,cell3_g.png,out,cell3
".

Definition sys_argv : list string := ["process.py"].

(** Both weight files of the channel set "rb" are in place. *)
Definition world : World := {|
  files :=
    <["config.yaml" := "create_csv: true
model_channels: rb
"]>
    (<["models_urls.yaml" := "rb: ..."]>
    (<["models/rb/mae_contrast_supcon_model/classifier.pth" := "old classifier weights"]>
    (<["models/rb/mae_contrast_supcon_model/encoder.pth" := "old encoder weights"]>
    (<["models/rb/mae_contrast_supcon_model/model_config.yaml" := "model_config: ..."]>
    (<["./path_list.csv" := manifest]> ∅)))));
  trace := []
|}.

(** The same world without a manifest. *)
Definition world_no_manifest : World :=
  {| files := delete "./path_list.csv" (files world); trace := [] |}.

(** The stages of the run on [world], one after the other. *)
Definition after_prologue : res (gmap string value) * World := prologue env sys_argv world.

Definition config : gmap string value :=
  match after_prologue.1 with
  | Ok c => c
  | Raise _ => ∅
  end.

Definition after_setup : res (unit * option DataFrame) * World :=
  setup env config after_prologue.2.

Definition table : option DataFrame :=
  match after_setup.1 with
  | Ok s => s.2
  | Raise _ => None
  end.

Definition lines : list string := Py.file_lines manifest.

Definition after_first_rows : res (option DataFrame) * World :=
  process_rows env config tt (take 2 lines) table after_setup.2.

Definition table_after_first_rows : option DataFrame :=
  match after_first_rows.1 with
  | Ok df => df
  | Raise _ => None
  end.

Definition failing_line : string :=
  "missing.png,cell2_y.png,cell2_b.png,cell2_g.png,out,cell2
".

Definition after_failing_row : res (option DataFrame) * World :=
  process_row env config tt table_after_first_rows failing_line after_first_rows.2.

(** The first cell alone, and the same line with other y and g fields. *)
Definition first_line : string :=
  "cell1_r.png,cell1_y.png,cell1_b.png,cell1_g.png,out,cell1
".

Definition first_line_other_y_g : string :=
  "cell1_r.png,elsewhere/y.png,cell1_b.png,,out,cell1
".



(** A command line, and the configuration it resolves to. *)
Definition sys_argv_flags : list string := ["process.py"; "-c"; "rybg"; "-u"; "False"].

Definition resolved : res (gmap string value) * World :=
  resolve_config env sys_argv_flags world.

Definition resolved_config : gmap string value :=
  match resolved.1 with
  | Ok c => c
  | Raise _ => ∅
  end.

End Sample.

(** ** Further notions *)

(** What a line does before it reaches the model. *)
Definition dir_or_read_event (e : event) : Prop :=
  match e with EvMakedirs _ | EvImread _ => True | _ => False end.

Definition dirs_of (evs : list event) : list string :=
  omap (fun e => match e with EvMakedirs p => Some p | _ => None end) evs.

Definition logs_of (evs : list event) : list (level * message) :=
  omap (fun e => match e with EvLog lvl msg => Some (lvl, msg) | _ => None end) evs.

(** The directory a manifest line asks for, and the output stem it hands to
    the model: the first strips the fifth field, the second does not. *)
Definition row_dir (curr_set : string) : string :=
  Py.strip (nth 4 (Py.split "," curr_set) "").

Definition row_stem (curr_set : string) : string :=
  let curr_set_arr := Py.split "," curr_set in
  Py.path_join (nth 4 curr_set_arr "") [Py.strip (nth 5 curr_set_arr "")].

(** The summary record of a processed line (line 141). *)
Definition summary (id max_3_names : string) : event :=
  EvLog INFO (Text ("- Saved results for " +:+ id +:+ ", locations predicted ["
                    +:+ max_3_names +:+ "]")).

(** The events of a line that is processed to the end. *)
Definition row_events (channels : string) (curr_set_arr : list string)
  (out_dir out_name max_3_names : string) : list event :=
  [EvMakedirs (Py.strip out_dir)]
    ++ map EvImread (selected_paths channels curr_set_arr)
    ++ [EvRunModel (Py.path_join out_dir [Py.strip out_name]);
        summary (Py.strip out_name) max_3_names].

(** Line 57, as a condition on the files and the configuration. *)
Definition download_needed (fs : gmap string string) (classifier_path encoder_path : string)
  (update : value) : bool :=
  negb (bool_decide (is_Some (fs !! classifier_path)))
  || negb (bool_decide (is_Some (fs !! encoder_path)))
  || truthy update.

(** A second sample: a manifest whose lines all succeed, with a blank line
    and a comment among them. *)
Module Sample2.

Definition manifest : string :=
  "# r,y,b,g,out_dir,out_name
cell1_r.png,cell1_y.png,cell1_b.png,cell1_g.png, out ,cell1

cell3_r.png,cell3_y.png,cell3_b.png,cell3_g.png,out,cell3
".

Definition world : World :=
  {| files := <["./path_list.csv" := manifest]> (files Sample.world); trace := [] |}.

Definition lines : list string := Py.file_lines manifest.

Definition empty_table : DataFrame := {| columns := final_columns; rows := [] |}.

Definition after_setup : res (unit * option DataFrame) * World :=
  setup Sample.env Sample.config (prologue Sample.env Sample.sys_argv world).2.

Definition after_rows : res (option DataFrame) * World :=
  process_rows Sample.env Sample.config tt lines (Some empty_table) after_setup.2.

Definition table_after_rows : option DataFrame :=
  match after_rows.1 with
  | Ok df => df
  | Raise _ => None
  end.

(** A world in which the encoder weights are missing and one in which the
    URL table is missing as well. *)
Definition world_no_encoder : World :=
  {| files := delete "models/rb/mae_contrast_supcon_model/encoder.pth" (files Sample.world);
     trace := [] |}.

Definition world_no_urls : World :=
  {| files := delete "models_urls.yaml" (files world_no_encoder); trace := [] |}.

(** An environment whose two URLs both answer 404, one whose [config.yaml]
    replaces the logger, and a world without [config.yaml]. *)
Definition env_404 : Env := {|
  Image := Image Sample.env;
  Model := Model Sample.env;
  now := now Sample.env;
  argv_options := argv_options Sample.env;
  safe_load_config := safe_load_config Sample.env;
  safe_load_urls := safe_load_urls Sample.env;
  requests_get := fun _ _ => Ok {| status_code := 404; content := "" |};
  open_wb := open_wb Sample.env;
  os_makedirs := os_makedirs Sample.env;
  imread := imread Sample.env;
  load_model := load_model Sample.env;
  run_model := run_model Sample.env;
  CLASS2NAME := CLASS2NAME Sample.env;
  to_csv := to_csv Sample.env
|}.

Definition env_log_replaced : Env := {|
  Image := Image Sample.env;
  Model := Model Sample.env;
  now := now Sample.env;
  argv_options := argv_options Sample.env;
  safe_load_config := fun _ => Ok (Some (<["log" := VStr "log.txt"]> ∅));
  safe_load_urls := safe_load_urls Sample.env;
  requests_get := requests_get Sample.env;
  open_wb := open_wb Sample.env;
  os_makedirs := os_makedirs Sample.env;
  imread := imread Sample.env;
  load_model := load_model Sample.env;
  run_model := run_model Sample.env;
  CLASS2NAME := CLASS2NAME Sample.env;
  to_csv := to_csv Sample.env
|}.

Definition world_no_config : World :=
  {| files := delete "config.yaml" (files Sample.world); trace := [] |}.

End Sample2.

(** Further lines, worlds and environments for the sample runs. *)
Module Sample3.

(** A line of three fields. *)
Definition short_line : string := "cell1_r.png,cell1_y.png,out
".

(** The rows of [manifest] one by one: the line whose directory field is
    written with spaces around it. *)
Definition spaced_line : string :=
  "cell1_r.png,cell1_y.png,cell1_b.png,cell1_g.png, out ,cell1
".

Definition after_spaced_line : res (option DataFrame) * World :=
  process_row Sample.env Sample.config tt (Some Sample2.empty_table) spaced_line
    Sample2.after_setup.2.

Definition table_after_spaced_line : option DataFrame :=
  match after_spaced_line.1 with
  | Ok df => df
  | Raise _ => None
  end.

(** A run with an empty [config.yaml] and the channels given on the command
    line: CSV mode stays off. *)
Definition world_plain : World :=
  {| files := <["config.yaml" := ""]> (files Sample2.world); trace := [] |}.

Definition sys_argv_rb : list string := ["process.py"; "-c"; "rb"].

Definition after_prologue_plain : res (gmap string value) * World :=
  prologue Sample.env sys_argv_rb world_plain.

Definition config_plain : gmap string value :=
  match after_prologue_plain.1 with
  | Ok c => c
  | Raise _ => ∅
  end.


Definition classifier_url : string :=
  "https://models.example/rb/mae_contrast_supcon_model/classifier".

Definition encoder_url : string :=
  "https://models.example/rb/mae_contrast_supcon_model/encoder".

(** The first sample world without [model_config.yaml]. *)
Definition world_no_model_config : World :=
  {| files := delete "models/rb/mae_contrast_supcon_model/model_config.yaml"
                (files Sample.world);
     trace := [] |}.

Definition after_prologue_no_model_config : res (gmap string value) * World :=
  prologue Sample.env Sample.sys_argv world_no_model_config.

Definition no_model_config_error : string :=
  "[Errno 2] No such file or directory: 'models/rb/mae_contrast_supcon_model/model_config.yaml'".

End Sample3.

(** * Properties *)

(** ** Comparisons *)

Lemma Qlt_bool_iff (x y : Q) : Qlt_bool x y = true <-> (x < y)%Q.
Proof.
  unfold Qlt_bool. rewrite negb_true_iff, <- not_true_iff_false, Qle_bool_iff.
  split; [apply Qnot_le_lt | apply Qlt_not_le].
Qed.

Lemma Qlt_bool_false (x y : Q) : Qlt_bool x y = false <-> (y <= x)%Q.
Proof.
  unfold Qlt_bool. rewrite negb_false_iff. apply Qle_bool_iff.
Qed.

Lemma Qgt_bool_iff (x y : Q) : Qgt_bool x y = true <-> (y < x)%Q.
Proof.
  unfold Qgt_bool. rewrite negb_true_iff, <- not_true_iff_false, Qle_bool_iff.
  split; [apply Qnot_le_lt | apply Qlt_not_le].
Qed.

Lemma Qgt_bool_false (x y : Q) : Qgt_bool x y = false <-> (x <= y)%Q.
Proof.
  unfold Qgt_bool. rewrite negb_false_iff. apply Qle_bool_iff.
Qed.

(** ** Top-1 *)

Lemma max_from_spec (l : list Q) : forall m,
  (m <= Py.max_from m l)%Q
  /\ Forall (fun x => (x <= Py.max_from m l)%Q) l
  /\ (Py.max_from m l = m \/ Py.max_from m l ∈ l).
Proof.
  induction l as [|x l IH]; intros m; simpl.
  - split; [apply Qle_refl | split; [constructor | by left]].
  - unfold Py.max_from in *. simpl.
    destruct (Qgt_bool x m) eqn:Hc.
    + apply Qgt_bool_iff in Hc.
      destruct (IH x) as (H1 & H2 & H3).
      split; [eapply Qle_trans; [apply Qlt_le_weak, Hc | exact H1] |].
      split; [constructor; assumption |].
      right. destruct H3 as [-> | H3]; [left | by right].
    + apply Qgt_bool_false in Hc.
      destruct (IH m) as (H1 & H2 & H3).
      split; [exact H1 |].
      split; [constructor; [eapply Qle_trans; eassumption | assumption] |].
      destruct H3 as [H3 | H3]; [by left | right; by right].
Qed.

Lemma index_from_spec (x : Q) (l : list Q) : forall i,
  (exists y, y ∈ l /\ (y == x)%Q) ->
  exists j, Py.index_from x l i = Ok (i + j)%nat
            /\ (j < length l)%nat
            /\ (nth j l 0 == x)%Q
            /\ forall k, (k < j)%nat -> ~ (nth k l 0 == x)%Q.
Proof.
  induction l as [|y l IH]; intros i (z & Hz & Hzx).
  - by apply elem_of_nil in Hz.
  - simpl. destruct (Qeq_bool y x) eqn:Hy.
    + exists 0%nat. rewrite Nat.add_0_r. apply Qeq_bool_iff in Hy.
      repeat split; [simpl; lia | exact Hy | intros k Hk; lia].
    + assert (Hny : ~ (y == x)%Q).
      { intros H. apply Qeq_bool_iff in H. congruence. }
      apply elem_of_cons in Hz as [-> | Hz]; [done |].
      destruct (IH (S i)) as (j & Hj1 & Hj2 & Hj3 & Hj4); [by exists z |].
      exists (S j). rewrite Hj1.
      repeat split; [f_equal; lia | simpl; lia | exact Hj3 |].
      intros [|k] Hk; [exact Hny | apply Hj4; lia].
Qed.

Lemma nth_le_of_Forall (l : list Q) (r : Q) (k : nat) :
  Forall (fun x => (x <= r)%Q) l -> (k < length l)%nat -> (nth k l 0 <= r)%Q.
Proof.
  intros HF Hk. rewrite Forall_forall in HF. apply HF.
  apply list_elem_of_In, nth_In, Hk.
Qed.

(** C1.  For every (non-empty) probability vector the computed top-1 class
    index is a position of the vector that holds its maximum value — the
    first such position; for [0.1, 0.7, 0.2] it is 1. *)
Theorem top_1_is_index_of_maximum :
  (forall curr_probs_l : list Q,
      curr_probs_l <> [] ->
      exists i,
        max_location_class curr_probs_l = Ok i
        /\ (i < length curr_probs_l)%nat
        /\ (forall j, (j < length curr_probs_l)%nat ->
                      (prob_at curr_probs_l j <= prob_at curr_probs_l i)%Q)
        /\ (forall j, (j < i)%nat ->
                      (prob_at curr_probs_l j < prob_at curr_probs_l i)%Q))
  /\ max_location_class [1#10; 7#10; 2#10]%Q = Ok 1%nat.
Proof.
  split; [| reflexivity].
  intros [|a l] Hne; [done |].
  unfold max_location_class, Py.max, Py.index, prob_at.
  destruct (max_from_spec (a :: l) a) as (_ & Hall & Hin).
  assert (Hr : Py.max_from a (a :: l) = Py.max_from a l).
  { unfold Py.max_from; simpl.
    replace (Qgt_bool a a) with false; [done |].
    symmetry. apply Qgt_bool_false, Qle_refl. }
  rewrite Hr in Hall, Hin. set (r := Py.max_from a l) in *.
  destruct (index_from_spec r (a :: l) 0) as (j & Hj1 & Hj2 & Hj3 & Hj4).
  { exists r. split; [| reflexivity].
    destruct Hin as [-> | Hin]; [by left | exact Hin]. }
  exists j. simpl in Hj1. split; [exact Hj1 |]. split; [exact Hj2 |].
  split.
  - intros k Hk. rewrite Hj3. by apply nth_le_of_Forall.
  - intros k Hk. rewrite Hj3.
    assert (Hle : (nth k (a :: l) 0 <= r)%Q) by (apply nth_le_of_Forall; [done | lia]).
    apply Qle_lt_or_eq in Hle as [Hlt | Heq]; [exact Hlt |].
    by apply Hj4 in Hk.
Qed.

(** ** Top-3 *)

Lemma before_le (l : list Q) (i j : nat) : before l i j -> (prob_at l i <= prob_at l j)%Q.
Proof.
  intros [H | [H _]]; [by apply Qlt_le_weak | rewrite H; apply Qle_refl].
Qed.

Lemma before_trans (l : list Q) (i j k : nat) : before l i j -> before l j k -> before l i k.
Proof.
  unfold before. intros [H1 | [H1 H1']] [H2 | [H2 H2']].
  - left. eapply Qlt_trans; eassumption.
  - left. by rewrite <- H2.
  - left. by rewrite H1.
  - right. split; [by rewrite H1 | lia].
Qed.

Lemma before_asym (l : list Q) (i j : nat) : before l i j -> before l j i -> False.
Proof.
  unfold before. intros [H1 | [H1 H1']] [H2 | [H2 H2']].
  - eapply Qlt_irrefl, Qlt_trans; eassumption.
  - rewrite H2 in H1. by apply Qlt_irrefl in H1.
  - rewrite H1 in H2. by apply Qlt_irrefl in H2.
  - lia.
Qed.

Lemma insert_by_perm {A} (key : A -> Q) (x : A) (l : list A) :
  Py.insert_by key x l ≡ₚ x :: l.
Proof.
  induction l as [|y l IH]; simpl; [done |].
  destruct (Qlt_bool (key y) (key x)); [| done].
  rewrite IH. apply Permutation_swap.
Qed.

Lemma sorted_perm {A} (key : A -> Q) (l : list A) : Py.sorted l key ≡ₚ l.
Proof.
  induction l as [|x l IH]; simpl; [done |].
  by rewrite insert_by_perm, IH.
Qed.

(** Inserting a position that is earlier than all those already sorted
    keeps the list sorted: this is where stability shows. *)
Lemma insert_by_sorted (l : list Q) (x : nat) (s : list nat) :
  StronglySorted (before l) s ->
  Forall (fun y => (x < y)%nat) s ->
  StronglySorted (before l) (Py.insert_by (prob_at l) x s).
Proof.
  induction 1 as [|y ys Hys IH Hy]; intros Hx; simpl.
  - repeat constructor.
  - apply Forall_cons in Hx as [Hxy Hx].
    destruct (Qlt_bool (prob_at l y) (prob_at l x)) eqn:Hc.
    + apply Qlt_bool_iff in Hc. constructor; [by apply IH |].
      rewrite insert_by_perm. constructor; [by left | exact Hy].
    + apply Qlt_bool_false in Hc.
      assert (Hb : before l x y).
      { apply Qle_lt_or_eq in Hc as [Hc | Hc]; [by left | by right]. }
      constructor; [by constructor |].
      constructor; [exact Hb |].
      eapply Forall_impl; [exact Hy |]. intros z Hz. eapply before_trans; eassumption.
Qed.

Lemma sorted_seq_sorted (l : list Q) (n : nat) : forall k,
  StronglySorted (before l) (Py.sorted (seq k n) (prob_at l)).
Proof.
  induction n as [|n IH]; intros k; simpl; [constructor |].
  apply insert_by_sorted; [apply IH |].
  rewrite sorted_perm. apply Forall_forall. intros y Hy.
  apply elem_of_seq in Hy. lia.
Qed.

Lemma sorted_is_stable_ascending_sort (l : list Q) :
  stable_ascending_sort l (Py.sorted (Py.range (length l)) (prob_at l)).
Proof.
  split; [apply sorted_perm | apply sorted_seq_sorted].
Qed.

(** A stable sort has one possible result, so [sorted] is it whatever the
    algorithm behind it. *)
Lemma stable_ascending_sort_unique (l : list Q) (s : list nat) :
  stable_ascending_sort l s -> s = Py.sorted (Py.range (length l)) (prob_at l).
Proof.
  intros [Hp Hs]. destruct (sorted_is_stable_ascending_sort l) as [Hp' Hs'].
  eapply StronglySorted_unique_strong; [| exact Hs | exact Hs' | by rewrite Hp, Hp'].
  intros i j _ _ H1 H2. destruct (before_asym _ _ _ H1 H2).
Qed.

Lemma last_3_inv {A} (s : list A) :
  (3 <= length s)%nat -> exists pre a b c, s = pre ++ [a; b; c] /\ Py.last_n 3 s = [a; b; c].
Proof.
  intros Hlen. unfold Py.last_n.
  assert (Hd : length (drop (length s - 3) s) = 3%nat) by (rewrite length_drop; lia).
  destruct (drop (length s - 3) s) as [|a [|b [|c [|? ?]]]] eqn:Hdrop; simplify_eq/=.
  exists (take (length s - 3) s), a, b, c. split; [| done].
  by rewrite <- Hdrop, take_drop.
Qed.

(** C2.  For every probability vector of length at least 3 the computed
    top-3 indices are the last three positions of the stable ascending sort
    of the whole vector: three distinct positions, in ascending order of
    value, that no other position exceeds.  Read in descending order, the
    vector [0.5, 0.1, 0.2, 0.4, 0.3] gives [0, 3, 4]. *)
Theorem top_3_are_three_highest :
  (forall curr_probs_l : list Q,
      (3 <= length curr_probs_l)%nat ->
      exists a b c,
        max_3_location_classes curr_probs_l = [a; b; c]
        /\ (exists s, stable_ascending_sort curr_probs_l s)
        /\ (forall s, stable_ascending_sort curr_probs_l s -> Py.last_n 3 s = [a; b; c])
        /\ NoDup [a; b; c]
        /\ Forall (fun i => (i < length curr_probs_l)%nat) [a; b; c]
        /\ (prob_at curr_probs_l a <= prob_at curr_probs_l b)%Q
        /\ (prob_at curr_probs_l b <= prob_at curr_probs_l c)%Q
        /\ (forall j, (j < length curr_probs_l)%nat -> j ∉ [a; b; c] ->
                      (prob_at curr_probs_l j <= prob_at curr_probs_l a)%Q))
  /\ top_3_descending [5#10; 1#10; 2#10; 4#10; 3#10]%Q = [0; 3; 4]%nat.
Proof.
  split; [| reflexivity].
  intros l Hlen. unfold max_3_location_classes.
  destruct (sorted_is_stable_ascending_sort l) as [Hp Hs].
  set (s := Py.sorted (Py.range (length l)) (prob_at l)) in *.
  assert (Hls : length s = length l) by (by rewrite Hp, length_seq).
  destruct (last_3_inv s) as (pre & a & b & c & Hsplit & Hlast); [lia |].
  exists a, b, c. split; [exact Hlast |].
  split; [exists s; by split |].
  split.
  { intros s' Hs'. apply stable_ascending_sort_unique in Hs'. by subst s'. }
  assert (Hnd : NoDup s) by (rewrite Hp; apply NoDup_seq).
  rewrite Hsplit in Hnd, Hs, Hp.
  apply NoDup_app in Hnd as (_ & Hdisj & Hnd3).
  apply StronglySorted_app in Hs as (Hpre & _ & Hs3).
  split; [exact Hnd3 |].
  split.
  { apply Forall_forall. intros i Hi.
    assert (Hi' : i ∈ seq 0 (length l)) by (rewrite <- Hp; apply elem_of_app; by right).
    apply elem_of_seq in Hi'. lia. }
  apply StronglySorted_cons in Hs3 as [Ha Hs3].
  apply StronglySorted_cons in Hs3 as [Hb _].
  apply Forall_cons in Ha as [Hab _]. apply Forall_cons in Hb as [Hbc _].
  split; [by apply before_le |]. split; [by apply before_le |].
  intros j Hj Hnot. apply before_le, Hpre; [| by left].
  assert (Hj' : j ∈ pre ++ [a; b; c]) by (rewrite Hp; apply elem_of_seq; lia).
  apply elem_of_app in Hj' as [Hj' | Hj']; [exact Hj' | done].
Qed.

(** ** Running the monad *)

Lemma bind_Ok {A B} (m : M A) (k : A -> M B) (w w' : World) (b : B) :
  bind m k w = (Ok b, w') -> exists a w1, m w = (Ok a, w1) /\ k a w1 = (Ok b, w').
Proof.
  unfold bind. destruct (m w) as [[a | e] w1]; [| discriminate].
  intros H. by exists a, w1.
Qed.

Lemma bind_Raise {A B} (m : M A) (k : A -> M B) (w w' : World) (e : string) :
  bind m k w = (Raise e, w') ->
  m w = (Raise e, w') \/ exists a w1, m w = (Ok a, w1) /\ k a w1 = (Raise e, w').
Proof.
  unfold bind. destruct (m w) as [[a | e'] w1]; intros H.
  - right. by exists a, w1.
  - left. by simplify_eq.
Qed.

Lemma bind_run_Ok {A B} (m : M A) (k : A -> M B) (w w1 : World) (a : A) :
  m w = (Ok a, w1) -> bind m k w = k a w1.
Proof. unfold bind. by intros ->. Qed.

Lemma bind_run_Raise {A B} (m : M A) (k : A -> M B) (w w1 : World) (e : string) :
  m w = (Raise e, w1) -> bind m k w = (Raise e, w1).
Proof. unfold bind. by intros ->. Qed.

(** Two computations that agree step by step agree. *)
Lemma bind_ext {A B} (m m' : M A) (k k' : A -> M B) (w : World) :
  m w = m' w -> (forall a w1, k a w1 = k' a w1) -> bind m k w = bind m' k' w.
Proof.
  unfold bind. intros -> Hk. destruct (m' w) as [[a | e] w1]; [apply Hk | done].
Qed.

Lemma lift_Ok {A} (r : res A) (w w' : World) (a : A) :
  lift r w = (Ok a, w') -> r = Ok a /\ w' = w.
Proof. unfold lift. by intros [= -> ->]. Qed.

(** ** Events of a computation *)

Lemma replay_app (evs1 evs2 : list event) : forall fs,
  replay (evs1 ++ evs2) fs = replay evs2 (replay evs1 fs).
Proof.
  induction evs1 as [|e evs1 IH]; intros fs; [done |].
  destruct e; simpl; apply IH.
Qed.

Lemma extend_nil (w : World) : extend w [] = w.
Proof. destruct w. unfold extend. simpl. by rewrite app_nil_r. Qed.

Lemma extend_app (w : World) (evs1 evs2 : list event) :
  extend (extend w evs1) evs2 = extend w (evs1 ++ evs2).
Proof. unfold extend. simpl. by rewrite replay_app, app_assoc. Qed.

(** Events that are not writes leave the files alone, and a write to
    another path leaves a path alone. *)
Lemma replay_no_write (evs : list event) : forall fs,
  Forall (fun e => ~ is_write e) evs -> replay evs fs = fs.
Proof.
  induction evs as [|e evs IH]; intros fs H; [done |].
  apply Forall_cons in H as [He H].
  destruct e; simpl in *; try (by apply IH). by destruct He.
Qed.

Lemma replay_lookup_other (p : string) (evs : list event) : forall fs,
  Forall (fun e => ~ writes_to p e) evs -> replay evs fs !! p = fs !! p.
Proof.
  induction evs as [|e evs IH]; intros fs H; [done |].
  apply Forall_cons in H as [He H].
  destruct e; simpl in *; try (by apply IH).
  rewrite IH by done. by rewrite lookup_insert_ne.
Qed.

Lemma replay_lookup_is_Some (p : string) (evs : list event) : forall fs,
  is_Some (fs !! p) -> is_Some (replay evs fs !! p).
Proof.
  induction evs as [|e evs IH]; intros fs H; [done |].
  destruct e; simpl; try (by apply IH).
  apply IH. rewrite lookup_insert. case_decide; [by eexists | done].
Qed.

Section Steps.
Context (E : Env).
Context (I : gmap string string -> Prop) (Q : event -> Prop).

Lemma steps_same {A} (m : M A) : (forall w, (m w).2 = w) -> steps I Q m.
Proof.
  intros H w HI. exists []. rewrite extend_nil. by rewrite H.
Qed.

Lemma steps_ret {A} (a : A) : steps I Q (ret a).
Proof. by apply steps_same. Qed.

Lemma steps_raise {A} (e : string) : steps I Q (@raise A e).
Proof. by apply steps_same. Qed.

Lemma steps_lift {A} (r : res A) : steps I Q (lift r).
Proof. by apply steps_same. Qed.

Lemma steps_ask {A} (f : World -> res A) : steps I Q (ask f).
Proof. by apply steps_same. Qed.

Lemma steps_get_now : steps I Q (get_now E).
Proof. by apply steps_same. Qed.

Lemma steps_isfile (p : string) : steps I Q (os_path_isfile p).
Proof. by apply steps_same. Qed.

Lemma steps_exists (p : string) : steps I Q (os_path_exists p).
Proof. by apply steps_same. Qed.

Lemma steps_open_r (p : string) : steps I Q (open_r p).
Proof. by apply steps_same. Qed.

Lemma steps_config_get (config : gmap string value) (k : string) :
  steps I Q (config_get config k).
Proof. apply steps_same. intros w. unfold config_get. by destruct (config !! k). Qed.

Lemma steps_bind {A B} (m : M A) (k : A -> M B) :
  steps I Q m ->
  (forall a, (exists w, (m w).1 = Ok a) -> steps I Q (k a)) ->
  steps I Q (bind m k).
Proof.
  intros Hm Hk w HI. destruct (Hm w HI) as (evs1 & E1 & F1 & I1).
  unfold bind. destruct (m w) as [[a | e] w1] eqn:Hmw; simpl in E1; subst w1.
  - destruct (Hk a) with (w := extend w evs1) as (evs2 & E2 & F2 & I2);
      [exists w; by rewrite Hmw | exact I1 |].
    exists (evs1 ++ evs2). rewrite E2, extend_app.
    split; [done |]. split; [by apply Forall_app | by rewrite <- extend_app].
  - by exists evs1.
Qed.

Lemma steps_try {A} (m : M A) (h : string -> M A) :
  steps I Q m -> (forall e, steps I Q (h e)) -> steps I Q (try_except m h).
Proof.
  intros Hm Hh w HI. destruct (Hm w HI) as (evs1 & E1 & F1 & I1).
  unfold try_except. destruct (m w) as [[a | e] w1] eqn:Hmw; simpl in E1; subst w1.
  - by exists evs1.
  - destruct (Hh e (extend w evs1) I1) as (evs2 & E2 & F2 & I2).
    exists (evs1 ++ evs2). rewrite E2, extend_app.
    split; [done |]. split; [by apply Forall_app | by rewrite <- extend_app].
Qed.

Lemma steps_call {A} (e : event) (f : World -> res A) :
  Q e -> ~ is_write e -> steps I Q (call e f).
Proof.
  intros HQ Hw w HI. exists [e].
  destruct e; simpl in Hw; try (by destruct Hw);
    (split; [done |]; split; [by repeat constructor | done]).
Qed.

Lemma steps_log_call (config : gmap string value) (lvl : level) (msg : message) :
  Q (EvLog lvl msg) -> steps I Q (log_call config lvl msg).
Proof.
  intros HQ. unfold log_call. apply steps_bind; [apply steps_config_get |].
  intros [] _; first [apply steps_raise | apply steps_call; [done | by intros []]].
Qed.

Lemma steps_write_file (path data : string) :
  Q (EvWrite path data) ->
  (forall fs, I fs -> I (<[path := data]> fs)) ->
  steps I Q (write_file E path data).
Proof.
  intros HQ HI. unfold write_file. apply steps_bind; [apply steps_ask |].
  intros _ _ w Hw. exists [EvWrite path data].
  split; [done |]. split; [by repeat constructor | simpl; by apply HI].
Qed.

End Steps.

Lemma steps_weaken {A} (I : gmap string string -> Prop) (Q Q' : event -> Prop) (m : M A) :
  (forall e, Q e -> Q' e) -> steps I Q m -> steps I Q' m.
Proof.
  intros HQ Hm w HI. destruct (Hm w HI) as (evs & E1 & F1 & I1).
  exists evs. split; [done |]. split; [| done].
  eapply Forall_impl; [exact F1 | exact HQ].
Qed.

(** One step of a proof that a computation built with [bind] only makes
    events of some kind. *)
Ltac steps_prim :=
  first
    [ apply steps_ret | apply steps_raise | apply steps_lift | apply steps_ask
    | apply steps_get_now | apply steps_isfile | apply steps_exists
    | apply steps_open_r | apply steps_config_get
    | apply steps_log_call; simpl; tauto
    | apply steps_call; [simpl; tauto | simpl; tauto] ].

Ltac steps_with tac :=
  repeat first
    [ tac
    | steps_prim
    | apply steps_bind; [| intros ? ?]
    | match goal with
      | |- steps _ _ (match ?x with _ => _ end) => destruct x
      end ].

Ltac steps_go := steps_with fail.

(** ** Paths of the weight files *)

Lemma string_app_nil (b : string) : "" +:+ b = b.
Proof. reflexivity. Qed.

Lemma string_app_cons (x : ascii) (a b : string) : String x a +:+ b = String x (a +:+ b).
Proof. reflexivity. Qed.

Lemma string_app_assoc (a b c : string) : (a +:+ b) +:+ c = a +:+ (b +:+ c).
Proof.
  induction a as [|x a IH]; [done |]. rewrite !string_app_cons. by rewrite IH.
Qed.

Lemma string_app_length (a b : string) :
  String.length (a +:+ b) = (String.length a + String.length b)%nat.
Proof.
  induction a as [|x a IH]; [done |]. rewrite string_app_cons. simpl. by rewrite IH.
Qed.

Lemma join2_suffix (path name : string) : exists dir, Py.join2 path name = dir +:+ name.
Proof.
  unfold Py.join2. destruct (Py.startswith name "/"); [by exists "" |].
  destruct (String.eqb path "" || Py.endswith_sep path); [by exists path |].
  exists (path +:+ "/"). by rewrite string_app_assoc.
Qed.

Lemma path_join_suffix (a : string) (p : list string) (name : string) :
  exists dir, Py.path_join a (p ++ [name]) = dir +:+ name.
Proof.
  unfold Py.path_join. rewrite fold_left_app. simpl. apply join2_suffix.
Qed.

Lemma weight_path_not_result (p : string) : weight_path p -> p <> "result.csv".
Proof.
  intros [dir [-> | ->]] H; apply (f_equal String.length) in H;
    rewrite string_app_length in H; simpl in H; lia.
Qed.

Lemma weight_path_not_manifest (p : string) : weight_path p -> p <> "./path_list.csv".
Proof.
  intros [dir [-> | ->]] H.
  - destruct dir as [|? [|? ?]];
      rewrite ?string_app_cons, ?string_app_nil in H; try discriminate.
    apply (f_equal String.length) in H. simpl in H.
    rewrite string_app_length in H. simpl in H. lia.
  - destruct dir as [|? [|? [|? [|? [|? ?]]]]];
      rewrite ?string_app_cons, ?string_app_nil in H; try discriminate.
    apply (f_equal String.length) in H. simpl in H.
    rewrite string_app_length in H. simpl in H. lia.
Qed.

(** ** Events of each stage *)

Section Stages.
Context (E : Env) (I : gmap string string -> Prop).

Lemma steps_resolve_config (Q : event -> Prop) (sys_argv : list string) :
  steps I Q (resolve_config E sys_argv).
Proof. unfold resolve_config. steps_go. Qed.

Lemma steps_prologue (sys_argv : list string) : steps I is_info (prologue E sys_argv).
Proof.
  unfold prologue. apply steps_bind; [apply steps_resolve_config |]. intros config _.
  steps_go.
Qed.

Lemma steps_model_file (Q : event -> Prop) (config : gmap string value) (name : string) :
  steps I Q (model_file config name).
Proof. unfold model_file. steps_go. Qed.

Lemma model_file_suffix (config : gmap string value) (name p : string) (w : World) :
  (model_file config name w).1 = Ok p -> exists dir, p = dir +:+ name.
Proof.
  unfold model_file, bind, config_get, lift, ret, raise, os_path_join.
  destruct (config !! "model_channels") as [c|]; [| discriminate].
  destruct (config !! "model_type") as [t|]; [| discriminate].
  simpl. destruct c; try discriminate. destruct t; try discriminate.
  simpl. intros [= <-]. apply (path_join_suffix "models" [_; _] name).
Qed.

Hypothesis I_weight : forall p data fs, weight_path p -> I fs -> I (<[p := data]> fs).

Lemma steps_download (config : gmap string value)
  (url_info : string -> string -> string -> res string) (kind name : string) :
  name = "classifier.pth" \/ name = "encoder.pth" ->
  steps I provision_event (download E config url_info kind name).
Proof.
  intros Hname. unfold download, http_get.
  steps_with ltac:(first
    [ apply steps_model_file
    | match goal with
      | H : exists w, (model_file _ _ w).1 = Ok ?p |- steps _ _ (write_file _ ?p _) =>
          destruct H as [w Hw]; apply model_file_suffix in Hw as [dir ->];
          assert (Hwp : weight_path (dir +:+ name))
            by (exists dir; destruct Hname as [-> | ->]; [by left | by right]);
          apply steps_write_file; [exact Hwp | intros fs; by apply I_weight]
      end ]).
Qed.

Lemma steps_provision (config : gmap string value) :
  steps I provision_event (provision E config).
Proof.
  unfold provision, update_needed.
  apply steps_bind; [apply steps_model_file |]. intros cp _.
  apply steps_bind; [apply steps_model_file |]. intros ep _.
  steps_with ltac:(apply steps_download; auto).
Qed.

Lemma steps_load (Q : event -> Prop) (config : gmap string value) (cp ep : string) :
  steps I Q (load E config cp ep).
Proof.
  unfold load. apply steps_bind; [apply steps_model_file |]. intros ? _. steps_go.
Qed.

Lemma steps_new_table (Q : event -> Prop) (config : gmap string value) :
  steps I Q (new_table config).
Proof. unfold new_table. steps_go. Qed.

Lemma steps_setup (config : gmap string value) : steps I provision_event (setup E config).
Proof.
  unfold setup. apply steps_bind; [apply steps_provision |]. intros paths _.
  apply steps_bind; [apply steps_load |]. intros model _.
  apply steps_bind; [apply steps_new_table |]. intros df _. apply steps_ret.
Qed.

End Stages.

Section Rows.
Context (E : Env) (I : gmap string string -> Prop).

Lemma steps_load_channel (config : gmap string value) (letter : string) (field : nat)
  (arr : list string) (cell_data : list (list (Image E))) :
  steps I row_event (load_channel E config letter field arr cell_data).
Proof. unfold load_channel, do_imread. steps_go. Qed.

Lemma steps_process_set (config : gmap string value) (model : Model E)
  (df : option DataFrame) (arr : list string) :
  steps I row_event (process_set E config model df arr).
Proof.
  unfold process_set, load_cell_data, max_3_location_names, makedirs, do_run_model.
  repeat first
    [ apply steps_load_channel
    | steps_prim
    | apply steps_bind; [| intros ? _]
    | match goal with
      | |- steps _ _ (match ?x with _ => _ end) => destruct x
      end ].
Qed.

Lemma steps_process_row (config : gmap string value) (model : Model E)
  (df : option DataFrame) (curr_set : string) :
  steps I row_event (process_row E config model df curr_set).
Proof.
  unfold process_row. destruct (retained curr_set);
    [apply steps_process_set | apply steps_ret].
Qed.

Lemma steps_process_rows (config : gmap string value) (model : Model E)
  (path_list : list string) : forall df,
  steps I row_event (process_rows E config model path_list df).
Proof.
  induction path_list as [|l ls IH]; intros df; simpl; [apply steps_ret |].
  apply steps_bind; [apply steps_process_row | intros df' _; apply IH].
Qed.

Hypothesis I_result : forall data fs, I fs -> I (<["result.csv" := data]> fs).

Lemma steps_save_csv (config : gmap string value) (df : option DataFrame) :
  steps I (writes_to "result.csv") (save_csv E config df).
Proof.
  unfold save_csv.
  steps_with ltac:(apply steps_write_file; [done | apply I_result]).
Qed.

Lemma steps_batch (config : gmap string value) (model : Model E) (df : option DataFrame) :
  steps I (fun e => row_event e \/ writes_to "result.csv" e) (batch E config model df).
Proof.
  unfold batch.
  steps_with ltac:(first
    [ eapply steps_weaken; [| apply steps_process_rows]; tauto
    | eapply steps_weaken; [| apply steps_save_csv]; tauto ]).
Qed.

End Rows.

Lemma steps_epilogue (E : Env) (I : gmap string string -> Prop) (config : gmap string value) :
  steps I is_info (epilogue E config).
Proof. unfold epilogue. steps_go. Qed.

Lemma steps_handler (I : gmap string string -> Prop)
  (config : gmap string value) (e : string) :
  steps I is_error (handler config e).
Proof. unfold handler. steps_go. Qed.

(** ** The result row *)

Lemma final_columns_length : length final_columns = (5 + 31 + 1536)%nat.
Proof.
  unfold final_columns, prob_columns, feat_columns, Py.range.
  by rewrite !length_app, !length_map, !length_seq.
Qed.

Lemma call_Ok {A} (e : event) (f : World -> res A) (w w' : World) (a : A) :
  call e f w = (Ok a, w') ->
  f w = Ok a /\ w' = {| files := files w; trace := trace w ++ [e] |}.
Proof. unfold call. by intros [= H <-]. Qed.

Lemma config_get_Ok (config : gmap string value) (k : string) (w w' : World) (v : value) :
  config_get config k w = (Ok v, w') -> config !! k = Some v /\ w' = w.
Proof.
  unfold config_get. destruct (config !! k); [| discriminate]. by intros [= -> ->].
Qed.

(** Inversion of a run that returned: one hypothesis per step. *)
Ltac run_inv H :=
  repeat match type of H with
         | bind _ _ _ = (Ok _, _) =>
             let a := fresh "a" in
             let w := fresh "w" in
             let Hs := fresh "Hs" in
             apply bind_Ok in H as (a & w & Hs & H)
         end.

Ltac step_inv :=
  repeat match goal with
         | H : lift _ _ = (Ok _, _) |- _ => apply lift_Ok in H as [H ->]
         | H : ret _ _ = (Ok _, _) |- _ => unfold ret in H; injection H as <- <-
         | H : config_get _ _ _ = (Ok _, _) |- _ => apply config_get_Ok in H as [H ->]
         | H : call _ _ _ = (Ok _, _) |- _ => apply call_Ok in H as [H ->]
         end.



Section Row.
Context (E : Env).

Lemma max_3_location_names_Ok (max_3 : list nat) (w w' : World) (s : string) :
  max_3_location_names E max_3 w = (Ok s, w') ->
  exists i0 i1 i2 n0 n1 n2,
    max_3 !! 0%nat = Some i0 /\ max_3 !! 1%nat = Some i1 /\ max_3 !! 2%nat = Some i2
    /\ CLASS2NAME E i0 = Ok n0 /\ CLASS2NAME E i1 = Ok n1 /\ CLASS2NAME E i2 = Ok n2
    /\ s = Py.join "," [n2; n1; n0] /\ w' = w.
Proof.
  unfold max_3_location_names. intros H. run_inv H. step_inv.
  unfold Py.getitem in *.
  destruct (max_3 !! 0%nat) as [i0|] eqn:H0; [| discriminate].
  destruct (max_3 !! 1%nat) as [i1|] eqn:H1; [| discriminate].
  destruct (max_3 !! 2%nat) as [i2|] eqn:H2; [| discriminate].
  simplify_eq. do 6 eexists. repeat split; try eassumption; reflexivity.
Qed.

Lemma max_3_length (l : list Q) : (length (max_3_location_classes l) <= 3)%nat.
Proof.
  unfold max_3_location_classes, Py.last_n. rewrite length_drop. lia.
Qed.

(** What a successful pass over the fields of a line does to the table when
    CSV mode is on. *)
Lemma process_set_appends (config : gmap string value) (model : Model E)
  (df df' : option DataFrame) (arr : list string) (create : value) (w w' : World) :
  config !! "create_csv" = Some create ->
  truthy create = true ->
  (forall d, df = Some d -> columns d = final_columns) ->
  process_set E config model df arr w = (Ok df', w') ->
  exists d id name top names probabilities embedding,
    df = Some d
    /\ df' = Some {| columns := columns d;
                     rows := rows d ++
                       [[CStr (Py.strip id); CStr name; CInt top; CStr (Py.join "," names);
                         CStr (Py.join "," (map Py.str (max_3_location_classes probabilities)))]
                          ++ map CNum probabilities ++ map CNum embedding] |}
    /\ arr !! 5%nat = Some id
    /\ (exists w1 cell_data stem,
           run_model E w1 model cell_data stem = Ok (embedding, probabilities))
    /\ max_location_class probabilities = Ok top
    /\ CLASS2NAME E top = Ok name
    /\ Forall2 (fun i n => CLASS2NAME E i = Ok n) (top_3_descending probabilities) names
    /\ (length probabilities + length embedding = 31 + 1536)%nat
    /\ (length probabilities = 31%nat -> length embedding = 1536%nat).
Proof.
  intros Hcreate Htrue Hcols H. unfold process_set in H.
  run_inv H. cbv zeta in *.
  apply max_3_location_names_Ok in Hs7
    as (i0 & i1 & i2 & n0 & n1 & n2 & H0 & H1 & H2 & N0 & N1 & N2 & -> & ->).
  unfold do_run_model, makedirs in *. step_inv.
  rewrite Hcreate in Hs8. injection Hs8 as <-. rewrite Htrue in Hs9.
  run_inv Hs9. step_inv.
  destruct a4 as [embedding probabilities]. simpl in *.
  unfold df_append in Hs9. destruct df as [d|]; [| discriminate].
  destruct (length _ =? length (columns d))%nat eqn:Hlen; [| discriminate].
  injection Hs9 as <-. apply Nat.eqb_eq in Hlen.
  rewrite (Hcols d eq_refl), final_columns_length in Hlen.
  unfold new_row in Hlen. rewrite !length_app, !length_map in Hlen. simpl in Hlen.
  unfold Py.getitem in Hs3, Hs7, Hs10.
  destruct (arr !! 5%nat) as [id|] eqn:Hid; [| discriminate].
  injection Hs10 as <-. injection Hs7 as <-. injection Hs3 as <-.
  assert (Hm3 : max_3_location_classes probabilities = [i0; i1; i2]).
  { pose proof (max_3_length probabilities) as Hle.
    destruct (max_3_location_classes probabilities) as [|? [|? [|? [|? ?]]]];
      simplify_eq/=; [done | lia]. }
  exists d, id, a6, a5, [n2; n1; n0], probabilities, embedding.
  split; [done |]. split; [done |]. split; [done |].
  split; [by eexists _, _, _ |]. split; [done |]. split; [done |].
  split.
  { unfold top_3_descending. rewrite Hm3. simpl. by repeat constructor. }
  split; lia.
Qed.


(** Over a whole manifest: as many rows are added as lines are retained. *)
Lemma process_rows_row_count (config : gmap string value) (model : Model E)
  (create : value) (path_list : list string) :
  config !! "create_csv" = Some create ->
  truthy create = true ->
  forall d df' w w',
    columns d = final_columns ->
    process_rows E config model path_list (Some d) w = (Ok df', w') ->
    exists d', df' = Some d' /\ columns d' = final_columns
               /\ length (rows d') = (length (rows d) + length (filter retained path_list))%nat.
Proof.
  intros Hcreate Htrue.
  induction path_list as [|l ls IH]; intros d df' w w' Hcols H; simpl in H.
  - injection H as <- <-. exists d. simpl. split; [done |]. split; [done | lia].
  - apply bind_Ok in H as (df1 & w1 & Hrow & Hrest).
    destruct (retained l) eqn:Hl.
    + unfold process_row in Hrow. rewrite Hl in Hrow.
      destruct (process_set_appends config model (Some d) df1 (Py.split "," l) create
                  w w1 Hcreate Htrue)
        as (d0 & id & name & top & names & ps & emb & [= <-] & -> & _);
        [by intros ? [= <-] | done |].
      eapply IH in Hrest as (d' & -> & Hc & Hlen); [| done].
      exists d'. split; [done |]. split; [done |].
      rewrite Hlen. simpl. rewrite length_app. simpl.
      rewrite filter_cons_True by (by rewrite Hl). simpl. lia.
    + unfold process_row in Hrow. rewrite Hl in Hrow. injection Hrow as <- <-.
      eapply IH in Hrest as (d' & -> & Hc & Hlen); [| done].
      exists d'. split; [done |]. split; [done |].
      rewrite Hlen. rewrite filter_cons_False by (rewrite Hl; exact id). lia.
Qed.

End Row.

(** ** One download attempt *)

Arguments Py.path_join : simpl never.

(** C6.  A download attempt whose response has a status other than 200
    leaves every file as it was — the local weight file in particular — and
    logs a warning that contains the name of the artifact; a response with
    status 200 sets the local file to the content received. *)
Theorem download_attempt (E : Env) (config : gmap string value)
  (url_info : string -> string -> string -> res string)
  (kind name c t url : string) (response : Response) (w : World) :
  config !! "log" = Some VLogger ->
  config !! "model_channels" = Some (VStr c) ->
  config !! "model_type" = Some (VStr t) ->
  url_info c t kind = Ok url ->
  requests_get E w url = Ok response ->
  let path := Py.path_join "models" [c; t; name] in
  (status_code response <> 200%Z ->
   exists w' pre post,
     download E config url_info kind name w = (Ok tt, w')
     /\ files w' = files w
     /\ trace w' = trace w ++ [EvGet url; EvLog WARNING (Text (pre +:+ name +:+ post))])
  /\ (status_code response = 200%Z ->
      open_wb E {| files := files w; trace := trace w ++ [EvGet url] |} path = Ok tt ->
      exists w',
        download E config url_info kind name w = (Ok tt, w')
        /\ files w' = <[path := content response]> (files w)
        /\ trace w' = trace w ++ [EvGet url; EvWrite path (content response);
                                  EvLog INFO (Text ("  - " +:+ name +:+ " updated."))]).
Proof.
  intros Hlog Hc Ht Hurl Hget path.
  unfold download, model_file, write_file, log_call, http_get, config_get, bind, lift,
    ret, call, ask.
  rewrite Hlog, Hc, Ht. simpl. rewrite Hurl, Hget.
  split.
  - intros Hstatus. apply Z.eqb_neq in Hstatus. rewrite Hstatus. simpl.
    eexists _, "  - ", " url not found.". split; [reflexivity |].
    simpl. split; [done |]. by rewrite <- app_assoc.
  - intros Hstatus Hopen. apply Z.eqb_eq in Hstatus. rewrite Hstatus. simpl.
    fold path. rewrite Hopen. simpl.
    eexists. split; [reflexivity |]. simpl. split; [done |].
    by rewrite <- !app_assoc.
Qed.

(** ** Precedence of the configuration sources *)

(** C8.  The settings are the built-in defaults, overridden by the
    command-line namespace (built only when [sys.argv] has arguments),
    overridden by the mapping of [config.yaml]: for every key the value is
    that of the file if the file has the key, else that of the command line
    if it has the key, else the default. *)
Theorem config_precedence (E : Env) (sys_argv : list string) (w w' : World)
  (config : gmap string value) :
  resolve_config E sys_argv w = (Ok config, w') ->
  exists (cli file : gmap string value) (text : string),
    (if (1 <? length sys_argv)%nat
     then parse_args E (tail sys_argv) = Ok cli
     else cli = ∅)
    /\ files w !! "config.yaml" = Some text
    /\ (safe_load_config E text = Ok (Some file)
        \/ (safe_load_config E text = Ok None /\ file = ∅))
    /\ config = dict_or (dict_or default_config cli) file
    /\ (forall k,
          config !! k =
            match file !! k with
            | Some v => Some v
            | None =>
                match cli !! k with
                | Some v => Some v
                | None => default_config !! k
                end
            end)
    /\ w' = w.
Proof.
  unfold resolve_config. intros H.
  apply bind_Ok in H as (config1 & w1 & Hcli & H).
  apply bind_Ok in H as (text & w2 & Htext & H).
  apply bind_Ok in H as (contents & w3 & Hload & H).
  apply lift_Ok in Hload as [Hload ->].
  unfold open_r, ask in Htext.
  destruct (files w1 !! "config.yaml") as [text'|] eqn:Hfile; [| discriminate].
  injection Htext as -> ->.
  assert (Hc1 : exists cli,
             (if (1 <? length sys_argv)%nat
              then parse_args E (tail sys_argv) = Ok cli else cli = ∅)
             /\ config1 = dict_or default_config cli /\ w2 = w).
  { destruct (1 <? length sys_argv)%nat.
    - apply bind_Ok in Hcli as (args & w0 & Hargs & Hcli).
      apply lift_Ok in Hargs as [Hargs ->]. injection Hcli as <- <-. by exists args.
    - injection Hcli as <- <-. exists ∅. unfold dict_or.
      by rewrite (left_id_L ∅ (∪)). }
  destruct Hc1 as (cli & Hcli' & -> & ->).
  assert (Hfin : exists file,
             (safe_load_config E text = Ok (Some file)
              \/ (safe_load_config E text = Ok None /\ file = ∅))
             /\ config = dict_or (dict_or default_config cli) file /\ w' = w).
  { destruct contents as [c|].
    - exists c. split; [by left |]. case_bool_decide as Hempty.
      + injection H as <- <-. subst c. unfold dict_or at 2.
        by rewrite (left_id_L ∅ (∪)).
      + by injection H as <- <-.
    - injection H as <- <-. exists ∅. split; [by right |].
      unfold dict_or at 2. by rewrite (left_id_L ∅ (∪)). }
  destruct Hfin as (file & Hfile' & -> & ->).
  exists cli, file, text. repeat (split; [done |]). split; [| done].
  intros k. unfold dict_or. rewrite !lookup_union.
  destruct (file !! k), (cli !! k), (default_config !! k); done.
Qed.

(** ** Boolean command-line flags *)

Lemma namespace_lookup (ps : list (dest * string)) (d : dest) :
  namespace ps !! dest_name d = Some (arg_value d ps).
Proof.
  unfold namespace. destruct d; simpl;
    repeat first [ apply lookup_insert_eq | rewrite lookup_insert_ne by done ].
Qed.

Lemma last_passed_Some (d : dest) (ps : list (dest * string)) (s : string) :
  last_passed d ps = Some s -> (d, s) ∈ ps.
Proof.
  unfold last_passed. destruct (last _) as [[d' s']|] eqn:Hlast; [| discriminate].
  intros [= <-]. apply last_Some_elem_of, list_elem_of_filter in Hlast as [Hd Hin].
  simpl in Hd. by subst d'.
Qed.

Lemma last_passed_None (d : dest) (ps : list (dest * string)) (s : string) :
  last_passed d ps = None -> (d, s) ∉ ps.
Proof.
  unfold last_passed. destruct (last _) as [?|] eqn:Hlast; [discriminate |].
  intros _ Hin. apply last_None in Hlast.
  assert (Hf : (d, s) ∈ filter (fun p : dest * string => p.1 = d) ps)
    by (by apply list_elem_of_filter).
  rewrite Hlast in Hf. by apply elem_of_nil in Hf.
Qed.

(** C9.  However [argparse] reads the command line, if every string it
    passes to the [update_model] or [create_csv] option is non-empty, the
    flag is true exactly when the option is passed: any non-empty string,
    ["False"] included, makes it true, and the flag is false only when the
    option is left out.  In the plain spelling, [-u False] and [-csv False]
    set their flag to true, and a command line without them leaves both
    false. *)
Theorem bool_flag_true_when_passed :
  (forall (E : Env) (d : dest) (args : list string) (ps : list (dest * string)),
      d = update_model \/ d = create_csv ->
      argv_options E args = Ok ps ->
      (forall s, (d, s) ∈ ps -> s <> "") ->
      exists ns b,
        parse_args E args = Ok ns
        /\ ns !! dest_name d = Some (VBool b)
        /\ (b = true <-> exists s, (d, s) ∈ ps))
  /\ (passed ["-u"; "False"] = Some [(update_model, "False")]
      /\ namespace [(update_model, "False")] !! "update_model" = Some (VBool true))
  /\ (passed ["-csv"; "False"] = Some [(create_csv, "False")]
      /\ namespace [(create_csv, "False")] !! "create_csv" = Some (VBool true))
  /\ (passed ["-c"; "rb"] = Some [(model_channels, "rb")]
      /\ namespace [(model_channels, "rb")] !! "update_model" = Some (VBool false)
      /\ namespace [(model_channels, "rb")] !! "create_csv" = Some (VBool false)).
Proof.
  split; [| repeat split; by vm_compute].
  intros E d args ps Hd Hps Hne. unfold parse_args. rewrite Hps.
  exists (namespace ps). rewrite namespace_lookup. unfold arg_value.
  destruct (last_passed d ps) as [s|] eqn:Hlast.
  - apply last_passed_Some in Hlast. exists true. split; [done |]. split.
    + specialize (Hne s Hlast). apply String.eqb_neq in Hne.
      destruct Hd as [-> | ->]; simpl; by rewrite Hne.
    + split; [by exists s | done].
  - exists false. split; [done |]. split.
    + by destruct Hd as [-> | ->].
    + split; [done |]. intros [s Hs]. by apply last_passed_None with (s := s) in Hlast.
Qed.

(** ** Channel selection *)

Lemma imreads_of_app (evs1 evs2 : list event) :
  imreads_of (evs1 ++ evs2) = imreads_of evs1 ++ imreads_of evs2.
Proof. apply omap_app. Qed.

Lemma imreads_of_none (evs : list event) : Forall not_imread evs -> imreads_of evs = [].
Proof.
  induction 1 as [|e evs He _ IH]; [done |].
  destruct e; simpl in *; try done.
Qed.

Lemma reads_within_steps {A} (m : M A) :
  steps (fun _ => True) not_imread m -> reads_within [] m.
Proof.
  intros H w. destruct (H w) as (evs & E1 & F & _); [done |].
  exists evs. rewrite E1. simpl. rewrite (imreads_of_none _ F). done.
Qed.

Lemma reads_within_bind {A B} (S1 S2 : list string) (m : M A) (k : A -> M B) :
  reads_within S1 m -> (forall a, reads_within S2 (k a)) ->
  reads_within (S1 ++ S2) (bind m k).
Proof.
  intros Hm Hk w. destruct (Hm w) as (evs1 & T1 & P1 & O1).
  unfold bind. destruct (m w) as [[a | e] w1] eqn:Hmw; simpl in *.
  - destruct (Hk a w1) as (evs2 & T2 & P2 & O2).
    exists (evs1 ++ evs2). rewrite T2, T1, imreads_of_app, (O1 a eq_refl).
    split; [by rewrite app_assoc |]. split; [by apply prefix_app |].
    intros b Hb. by rewrite (O2 b Hb).
  - exists evs1. split; [done |]. split; [by apply prefix_app_r | done].
Qed.

Lemma reads_within_bind_l {A B} (S : list string) (m : M A) (k : A -> M B) :
  reads_within [] m -> (forall a, reads_within S (k a)) -> reads_within S (bind m k).
Proof. apply (reads_within_bind [] S). Qed.

Lemma reads_within_bind_r {A B} (S : list string) (m : M A) (k : A -> M B) :
  reads_within S m -> (forall a, reads_within [] (k a)) -> reads_within S (bind m k).
Proof. intros Hm Hk. rewrite <- (app_nil_r S). by apply reads_within_bind. Qed.

Ltac quiet := apply reads_within_steps; steps_go.

Section Channels.
Context (E : Env) (config : gmap string value) (channels : string).
Hypothesis Hchannels : config !! "model_channels" = Some (VStr channels).

Lemma reads_within_load_channel (letter : string) (field : nat) (arr : list string)
  (cell_data : list (list (Image E))) :
  reads_within (channel_path channels arr letter field)
    (load_channel E config letter field arr cell_data).
Proof.
  intros w.
  unfold load_channel, bind, config_get, lift, channel_in, channel_path, Py.getitem,
    do_imread, call, ret.
  rewrite Hchannels. simpl.
  destruct (Py.contains letter channels); simpl; [| by exists []; rewrite app_nil_r].
  destruct (arr !! field) as [p|]; simpl; [| by exists []; rewrite app_nil_r].
  exists [EvImread (Py.strip p)].
  destruct (imread E w (Py.strip p)); simpl; done.
Qed.

Lemma reads_within_load_cell_data (arr : list string) :
  reads_within (selected_paths channels arr) (load_cell_data E config arr).
Proof.
  unfold load_cell_data, selected_paths. simpl. rewrite app_nil_r.
  repeat (apply reads_within_bind; [apply reads_within_load_channel | intros ?]).
  apply reads_within_load_channel.
Qed.

Lemma reads_within_process_set (model : Model E) (df : option DataFrame) (arr : list string) :
  reads_within (selected_paths channels arr) (process_set E config model df arr).
Proof.
  unfold process_set.
  apply reads_within_bind_l; [quiet | intros ?].
  apply reads_within_bind_l; [unfold makedirs; quiet | intros ?].
  apply reads_within_bind_r; [apply reads_within_load_cell_data | intros ?].
  unfold do_run_model, max_3_location_names. quiet.
Qed.

(** A channel whose letter is not configured is passed over, whatever the
    line holds; a channel that is configured depends on its own field only. *)
Lemma load_channel_agree (letter : string) (field : nat) (a1 a2 : list string)
  (cell_data : list (list (Image E))) (w : World) :
  (Py.contains letter channels = true -> a1 !! field = a2 !! field) ->
  load_channel E config letter field a1 cell_data w
  = load_channel E config letter field a2 cell_data w.
Proof.
  intros H. unfold load_channel, bind, config_get, lift, channel_in, Py.getitem.
  rewrite Hchannels. simpl.
  destruct (Py.contains letter channels); [| done]. by rewrite H.
Qed.

Lemma load_cell_data_agree (a1 a2 : list string) (w : World) :
  (forall letter field, (letter, field) ∈ channel_fields ->
     Py.contains letter channels = true -> a1 !! field = a2 !! field) ->
  load_cell_data E config a1 w = load_cell_data E config a2 w.
Proof.
  intros H. unfold load_cell_data.
  repeat (apply bind_ext;
          [apply load_channel_agree, H; unfold channel_fields; set_solver | intros ? ?]).
  apply load_channel_agree, H. unfold channel_fields. set_solver.
Qed.

Lemma process_set_agree (model : Model E) (df : option DataFrame)
  (a1 a2 : list string) (w : World) :
  (forall letter field, (letter, field) ∈ channel_fields ->
     Py.contains letter channels = true -> a1 !! field = a2 !! field) ->
  a1 !! 4%nat = a2 !! 4%nat ->
  a1 !! 5%nat = a2 !! 5%nat ->
  process_set E config model df a1 w = process_set E config model df a2 w.
Proof.
  intros H H4 H5. unfold process_set, Py.getitem. rewrite H4, H5.
  apply bind_ext; [done | intros ? ?].
  apply bind_ext; [done | intros ? ?].
  apply bind_ext; [by apply load_cell_data_agree | done].
Qed.

End Channels.

(** Whether a line of several fields is retained depends on its first
    field only. *)
Lemma lstrip_empty (s : string) : Py.lstrip s = "" -> all_space s = true.
Proof.
  induction s as [|c s IH]; simpl; [done |].
  destruct (Py.isspace c); [exact IH | discriminate].
Qed.

Lemma all_space_rstrip (s : string) : all_space (Py.rstrip s) = all_space s.
Proof.
  induction s as [|c s IH]; simpl; [done |].
  destruct (Py.rstrip s) as [|c' r] eqn:Hr.
  - simpl in IH. destruct (Py.isspace c) eqn:Hc; simpl; rewrite ?Hc, <- ?IH; done.
  - change (all_space (String c (String c' r))) with (Py.isspace c && all_space (String c' r)).
    by rewrite IH.
Qed.

Lemma split_not_all_space (s : string) :
  (2 <= length (Py.split "," s))%nat -> all_space s = false.
Proof.
  induction s as [|c s IH]; simpl; [lia |].
  destruct (Ascii.eqb c ",") eqn:Hc.
  - apply Ascii.eqb_eq in Hc as ->. done.
  - destruct (Py.split "," s) as [|x xs]; simpl in *; [lia |].
    intros H. rewrite IH by lia. apply andb_false_r.
Qed.

Lemma prefix_empty (s : string) : String.prefix "" s = true.
Proof. by destruct s. Qed.

Lemma startswith_first_field (s : string) :
  Py.startswith s "#" = Py.startswith (hd "" (Py.split "," s)) "#".
Proof.
  unfold Py.startswith. destruct s as [|c s]; [done |]. simpl.
  destruct (Ascii.eqb c ",") eqn:Hc.
  - apply Ascii.eqb_eq in Hc as ->. done.
  - destruct (Py.split "," s) as [|x xs]; simpl;
      destruct (ascii_dec "#" c); rewrite ?prefix_empty; done.
Qed.

Lemma retained_first_field (s : string) :
  (2 <= length (Py.split "," s))%nat ->
  retained s = negb (Py.startswith (hd "" (Py.split "," s)) "#").
Proof.
  intros H. unfold retained. rewrite <- startswith_first_field.
  assert (Hs : String.eqb (Py.strip s) "" = false).
  { apply String.eqb_neq. intros Hs. unfold Py.strip in Hs.
    apply lstrip_empty in Hs. rewrite all_space_rstrip in Hs.
    by rewrite split_not_all_space in Hs. }
  by rewrite Hs.
Qed.

Lemma retained_same_fields (fields : list nat) (l1 l2 : string) :
  0%nat ∈ fields -> same_fields fields l1 l2 -> retained l1 = retained l2.
Proof.
  intros H0 (Hlen1 & Hlen2 & Hsame).
  rewrite !retained_first_field by lia.
  specialize (Hsame 0%nat H0).
  destruct (Py.split "," l1), (Py.split "," l2); simpl in *; simplify_eq; done.
Qed.

(** C5.  While a manifest line is processed, the images read are those of
    the channels whose letter occurs in the configured channel set, in the
    order r, y, b, g, and no other; a line that is skipped reads nothing.
    With the channel set "rb" these are the r and b fields, and two lines
    that differ only in their y and g fields are processed with the same
    result and the same effects, in a single line and over a whole
    manifest. *)
Theorem channel_selection_exact (E : Env) (config : gmap string value) (model : Model E) :
  (forall (channels : string) (df : option DataFrame) (curr_set : string),
      config !! "model_channels" = Some (VStr channels) ->
      reads_within
        (if retained curr_set then selected_paths channels (Py.split "," curr_set) else [])
        (process_row E config model df curr_set))
  /\ (forall r y b g rest,
         selected_paths "rb" (r :: y :: b :: g :: rest) = [Py.strip r; Py.strip b])
  /\ (config !! "model_channels" = Some (VStr "rb") ->
      (forall (df : option DataFrame) (l1 l2 : string) (w : World),
          same_fields [0; 2; 4; 5]%nat l1 l2 ->
          process_row E config model df l1 w = process_row E config model df l2 w)
      /\ (forall (ls1 ls2 : list string),
             Forall2 (same_fields [0; 2; 4; 5]%nat) ls1 ls2 ->
             forall (df : option DataFrame) (w : World),
               process_rows E config model ls1 df w = process_rows E config model ls2 df w)).
Proof.
  split; [| split; [reflexivity |]].
  - intros channels df curr_set Hc. unfold process_row.
    destruct (retained curr_set); [by apply reads_within_process_set | quiet].
  - intros Hc.
    assert (Hrow : forall df l1 l2 w,
               same_fields [0; 2; 4; 5]%nat l1 l2 ->
               process_row E config model df l1 w = process_row E config model df l2 w).
    { intros df l1 l2 w Hsame. unfold process_row.
      rewrite (retained_same_fields [0; 2; 4; 5]%nat l1 l2); [| set_solver | done].
      destruct (retained l2); [| done].
      destruct Hsame as (_ & _ & Hsame).
      apply (process_set_agree E config "rb" Hc); [| apply Hsame; set_solver..].
      intros letter field Hin Hcontains. apply Hsame.
      unfold channel_fields in Hin.
      repeat (apply elem_of_cons in Hin as [[= -> ->] | Hin]);
        [set_solver | discriminate | set_solver | discriminate | by apply elem_of_nil in Hin]. }
    split; [exact Hrow |].
    induction 1 as [|l1 l2 ls1 ls2 Hl _ IH]; intros df w; simpl; [done |].
    apply bind_ext; [by apply Hrow | intros ? ?; apply IH].
Qed.

(** ** The whole run *)

Lemma steps_run {A} (I : gmap string string -> Prop) (Q : event -> Prop) (m : M A)
  (w w' : World) (r : res A) :
  steps I Q m -> I (files w) -> m w = (r, w') ->
  exists evs, w' = extend w evs /\ Forall Q evs /\ I (files w').
Proof.
  intros Hm HI Hrun. destruct (Hm w HI) as (evs & E1 & F & I1).
  rewrite Hrun in E1. simpl in E1. subst w'. by exists evs.
Qed.

Lemma log_call_logger (config : gmap string value) (lvl : level) (msg : message)
  (w w' : World) :
  log_call config lvl msg w = (Ok tt, w') -> config !! "log" = Some VLogger.
Proof.
  unfold log_call, bind, config_get.
  destruct (config !! "log") as [[]|]; simpl; done.
Qed.

Lemma log_call_run (config : gmap string value) (lvl : level) (msg : message) (w : World) :
  config !! "log" = Some VLogger ->
  log_call config lvl msg w = (Ok tt, extend w [EvLog lvl msg]).
Proof.
  unfold log_call, bind, config_get. by intros ->.
Qed.

Section Run.
Context (E : Env).

(** A configuration that [prologue] returns holds the logger. *)
Lemma prologue_logger (sys_argv : list string) (config : gmap string value) (w w' : World) :
  prologue E sys_argv w = (Ok config, w') -> config !! "log" = Some VLogger.
Proof.
  unfold prologue. intros H. run_inv H. unfold ret in H. injection H as <- <-.
  match goal with
  | Hl : log_call _ _ _ _ = (Ok ?u, _) |- _ => destruct u; by apply log_call_logger in Hl
  end.
Qed.

Lemma prologue_run (sys_argv : list string) (config : gmap string value) (w w' : World) :
  prologue E sys_argv w = (Ok config, w') ->
  exists evs, w' = extend w evs /\ Forall is_info evs /\ files w' = files w.
Proof.
  intros H.
  destruct (steps_run (fun _ => True) is_info _ _ _ _ (steps_prologue E _ sys_argv) I H)
    as (evs & -> & F & _).
  exists evs. split; [done |]. split; [done |]. simpl.
  apply replay_no_write. eapply Forall_impl; [exact F |].
  intros [] ?; simpl in *; tauto.
Qed.

Lemma epilogue_run (config : gmap string value) (w : World) :
  config !! "log" = Some VLogger ->
  exists finish,
    epilogue E config w
    = (Ok tt, extend w [EvLog INFO (Text "----------"); EvLog INFO (Text ("End: " +:+ finish))]).
Proof.
  intros Hlog. unfold epilogue.
  rewrite (bind_run_Ok _ _ _ _ _ (log_call_run config INFO _ w Hlog)).
  unfold get_now. unfold bind at 1. rewrite log_call_run by done.
  eexists. by rewrite extend_app.
Qed.

(** With both weight files in place and no update asked for, the
    provisioner does nothing. *)
Lemma provision_skip (config : gmap string value) (u : value) (c t : string) (w : World) :
  config !! "update_model" = Some u -> truthy u = false ->
  config !! "model_channels" = Some (VStr c) ->
  config !! "model_type" = Some (VStr t) ->
  is_Some (files w !! Py.path_join "models" [c; t; "classifier.pth"]) ->
  is_Some (files w !! Py.path_join "models" [c; t; "encoder.pth"]) ->
  provision E config w
  = (Ok (Py.path_join "models" [c; t; "classifier.pth"],
         Py.path_join "models" [c; t; "encoder.pth"]), w).
Proof.
  intros Hu Hfalse Hc Ht Hcp Hep.
  unfold provision, update_needed, model_file, os_path_isfile, bind, config_get, lift, ret.
  rewrite Hc, Ht, Hu. simpl.
  rewrite (bool_decide_eq_true_2 _ Hcp). simpl.
  rewrite (bool_decide_eq_true_2 _ Hep). simpl. by rewrite Hfalse.
Qed.

(** What follows the provisioner makes no request. *)
Lemma steps_after_provision (I : gmap string string -> Prop) (config : gmap string value)
  (paths : string * string) :
  (forall data fs, I fs -> I (<["result.csv" := data]> fs)) ->
  steps I (fun e => ~ is_request e)
    (model <- load E config paths.1 paths.2;;
     df <- new_table config;;
     s <- ret (model, df);;
     batch E config s.1 s.2).
Proof.
  intros HI.
  apply steps_bind; [apply steps_load | intros model _].
  apply steps_bind; [apply steps_new_table | intros df _].
  apply steps_bind; [apply steps_ret | intros s _].
  eapply steps_weaken; [| by apply steps_batch].
  intros [] [H | H]; simpl in *; tauto.
Qed.

Lemma body_assoc (config : gmap string value) (w : World) :
  body E config w
  = (paths <- provision E config;;
     model <- load E config paths.1 paths.2;;
     df <- new_table config;;
     s <- ret (model, df);;
     batch E config s.1 s.2) w.
Proof.
  unfold body, setup, bind.
  destruct (provision E config w) as [[paths | e] w1]; [| done].
  destruct (load E config paths.1 paths.2 w1) as [[model | e] w2]; [| done].
  by destruct (new_table config w2) as [[df | e] w3].
Qed.

Lemma requests_of_none (evs : list event) :
  Forall (fun e => ~ is_request e) evs -> requests_of evs = [].
Proof.
  induction 1 as [|e evs He _ IH]; [done |].
  destruct e; simpl in *; done.
Qed.

(** C7.  In a run whose configuration has a false [update_model] and whose
    classifier and encoder weight files both exist at their computed paths,
    no network request is made. *)
Theorem no_request_when_weights_present (sys_argv : list string)
  (config : gmap string value) (u : value) (c t : string) (w0 w1 : World) :
  prologue E sys_argv w0 = (Ok config, w1) ->
  config !! "update_model" = Some u ->
  truthy u = false ->
  config !! "model_channels" = Some (VStr c) ->
  config !! "model_type" = Some (VStr t) ->
  is_Some (files w0 !! Py.path_join "models" [c; t; "classifier.pth"]) ->
  is_Some (files w0 !! Py.path_join "models" [c; t; "encoder.pth"]) ->
  exists evs,
    (main E sys_argv w0).2 = extend w0 evs
    /\ Forall (fun e => ~ is_request e) evs
    /\ requests_of evs = [].
Proof.
  intros Hpro Hu Hfalse Hc Ht Hcp Hep.
  set (cp := Py.path_join "models" [c; t; "classifier.pth"]) in *.
  set (ep := Py.path_join "models" [c; t; "encoder.pth"]) in *.
  set (I := fun fs : gmap string string => is_Some (fs !! cp) /\ is_Some (fs !! ep)).
  assert (HIw : forall p data fs, I fs -> I (<[p := data]> fs)).
  { intros p data fs [H1 H2]. split; rewrite lookup_insert; case_decide; by eauto. }
  destruct (prologue_run _ _ _ _ Hpro) as (evs1 & -> & F1 & Hfiles).
  assert (Hrest : steps I (fun e => ~ is_request e)
                    (try_except (body E config) (handler config);;; epilogue E config)).
  { apply steps_bind.
    - apply steps_try.
      + intros w HI. rewrite body_assoc.
        destruct HI as [H1 H2].
        rewrite (bind_run_Ok _ _ _ _ _ (provision_skip config u c t w Hu Hfalse Hc Ht H1 H2)).
        apply steps_after_provision; [intros; by apply HIw | by split].
      + intros e. eapply steps_weaken; [| apply steps_handler].
        intros [] ?; simpl in *; tauto.
    - intros _ _. eapply steps_weaken; [| apply steps_epilogue].
      intros [] ?; simpl in *; tauto. }
  destruct (Hrest (extend w0 evs1)) as (evs2 & E2 & F2 & _).
  { rewrite Hfiles. by split. }
  exists (evs1 ++ evs2). unfold main. rewrite (bind_run_Ok _ _ _ _ _ Hpro).
  rewrite E2, extend_app. split; [done |].
  assert (F : Forall (fun e => ~ is_request e) (evs1 ++ evs2)).
  { apply Forall_app. split; [| done]. eapply Forall_impl; [exact F1 |].
    intros [] ?; simpl in *; tauto. }
  split; [exact F | by apply requests_of_none].
Qed.

End Run.

(** ** A run without a manifest *)

Lemma outside_loop_facts (evs : list event) :
  Forall outside_loop_event evs ->
  imreads_of evs = [] /\ runs_of evs = [] /\ ("result.csv" ∉ written_paths evs)
  /\ Forall (fun e => ~ writes_to "result.csv" e) evs.
Proof.
  intros F. repeat split.
  - induction F as [|e evs He _ IH]; [done |]. destruct e; simpl in *; done.
  - induction F as [|e evs He _ IH]; [done |]. destruct e; simpl in *; done.
  - induction F as [|e evs He _ IH]; [apply not_elem_of_nil |].
    destruct e; simpl in *; try done.
    apply not_elem_of_cons. split; [| done].
    intros Heq. apply weight_path_not_result in He. congruence.
  - eapply Forall_impl; [exact F |]. intros [] He; simpl in *; try tauto.
    intros ->. by apply weight_path_not_result in He.
Qed.

Section Manifest.
Context (E : Env).

Lemma batch_skip (config : gmap string value) (model : Model E) (df : option DataFrame)
  (w : World) :
  files w !! "./path_list.csv" = None -> batch E config model df w = (Ok tt, w).
Proof.
  intros H. unfold batch, os_path_exists, bind.
  rewrite bool_decide_eq_false_2; [done |]. rewrite H. by intros [? ?].
Qed.

Lemma steps_main_no_manifest (sys_argv : list string) :
  steps (fun fs => fs !! "./path_list.csv" = None) outside_loop_event (main E sys_argv).
Proof.
  unfold main. apply steps_bind.
  { eapply steps_weaken; [| apply steps_prologue]. intros [] ?; simpl in *; tauto. }
  intros config _. apply steps_bind.
  - apply steps_try.
    + unfold body. apply steps_bind.
      * eapply steps_weaken; [| apply steps_setup].
        { intros [[]| | | | |] ?; simpl in *; tauto. }
        intros p data fs Hp Hfs. rewrite lookup_insert_ne; [done |].
        by apply weight_path_not_manifest.
      * intros s _ w Hw. exists []. rewrite batch_skip by done.
        by rewrite extend_nil.
    + intros e. eapply steps_weaken; [| apply steps_handler].
      intros [] ?; simpl in *; tauto.
  - intros _ _. eapply steps_weaken; [| apply steps_epilogue].
    intros [] ?; simpl in *; tauto.
Qed.

(** C10.  When [./path_list.csv] does not exist, the loop stage returns at
    once without raising and without any effect; the whole run reads no
    image, runs no inference, creates no directory and does not write
    [result.csv], whatever the configuration says about CSV mode; and, the
    stages before the loop having succeeded, the run ends without an error
    after its two closing log records. *)
Theorem no_manifest_no_result (sys_argv : list string) (w0 : World) :
  files w0 !! "./path_list.csv" = None ->
  (forall config model df w,
      files w !! "./path_list.csv" = None -> batch E config model df w = (Ok tt, w))
  /\ (exists evs,
         (main E sys_argv w0).2 = extend w0 evs
         /\ Forall outside_loop_event evs
         /\ imreads_of evs = [] /\ runs_of evs = []
         /\ ("result.csv" ∉ written_paths evs)
         /\ files (main E sys_argv w0).2 !! "result.csv" = files w0 !! "result.csv")
  /\ (forall config s w1 w2,
         prologue E sys_argv w0 = (Ok config, w1) ->
         setup E config w1 = (Ok s, w2) ->
         exists finish,
           main E sys_argv w0
           = (Ok tt, extend w2 [EvLog INFO (Text "----------");
                                EvLog INFO (Text ("End: " +:+ finish))])).
Proof.
  intros Hnone. split; [intros; by apply batch_skip |]. split.
  - destruct (steps_main_no_manifest sys_argv w0 Hnone) as (evs & E1 & F & _).
    destruct (outside_loop_facts evs F) as (H1 & H2 & H3 & H4).
    exists evs. rewrite E1. repeat (split; [done |]).
    simpl. by apply replay_lookup_other.
  - intros config s w1 w2 Hpro Hsetup.
    pose proof (prologue_logger E _ _ _ _ Hpro) as Hlog.
    destruct (prologue_run E _ _ _ _ Hpro) as (evs1 & -> & _ & Hfiles).
    assert (Hw2 : files w2 !! "./path_list.csv" = None).
    { destruct (steps_run (fun fs => fs !! "./path_list.csv" = None) provision_event
                  _ _ _ _ (steps_setup E _
                             (fun p data fs Hp Hfs =>
                                eq_trans (lookup_insert_ne fs p _ data
                                            (weight_path_not_manifest p Hp)) Hfs)
                             config)
                  (eq_trans (f_equal (fun fs => fs !! "./path_list.csv") Hfiles) Hnone)
                  Hsetup) as (evs2 & _ & _ & H). exact H. }
    destruct (epilogue_run E config w2 Hlog) as [finish Hepi].
    exists finish. unfold main. rewrite (bind_run_Ok _ _ _ _ _ Hpro).
    unfold bind at 1, try_except, body.
    rewrite (bind_run_Ok _ _ _ _ _ Hsetup), batch_skip by done.
    exact Hepi.
Qed.

End Manifest.

(** ** A failure inside the loop *)

Lemma errors_of_app (evs1 evs2 : list event) :
  errors_of (evs1 ++ evs2) = errors_of evs1 ++ errors_of evs2.
Proof. apply omap_app. Qed.

Lemma written_paths_app (evs1 evs2 : list event) :
  written_paths (evs1 ++ evs2) = written_paths evs1 ++ written_paths evs2.
Proof. apply omap_app. Qed.

Lemma before_failure_facts (evs : list event) :
  Forall before_failure_event evs ->
  errors_of evs = [] /\ ("result.csv" ∉ written_paths evs)
  /\ Forall (fun e => ~ writes_to "result.csv" e) evs.
Proof.
  intros F. repeat split.
  - induction F as [|e evs He _ IH]; [done |].
    destruct e as [[]| | | | |]; simpl in *; try done.
    destruct He as [[] | []].
  - induction F as [|e evs He _ IH]; [apply not_elem_of_nil |].
    destruct e; simpl in *; try done.
    apply not_elem_of_cons. split; [| done].
    intros Heq. destruct He as [He | []].
    apply weight_path_not_result in He. congruence.
  - eapply Forall_impl; [exact F |]. intros [] He; simpl in *; try tauto.
    intros ->. destruct He as [He | []]. by apply weight_path_not_result in He.
Qed.

Section Failure.
Context (E : Env).

Lemma process_rows_app (config : gmap string value) (model : Model E)
  (l1 l2 : list string) : forall df w,
  process_rows E config model (l1 ++ l2) df w
  = bind (process_rows E config model l1 df)
         (fun df' => process_rows E config model l2 df') w.
Proof.
  induction l1 as [|l l1 IH]; intros df w; simpl; [done |].
  unfold bind.
  destruct (process_row E config model df l w) as [[df1 | e] w1]; [| done].
  rewrite IH. by unfold bind.
Qed.

(** The loop stops at the first line that raises: the lines after it play
    no part. *)
Lemma process_rows_raise (config : gmap string value) (model : Model E)
  (pre post : list string) (row e : string) (df dfk : option DataFrame) (w w3 w4 : World) :
  process_rows E config model pre df w = (Ok dfk, w3) ->
  process_row E config model dfk row w3 = (Raise e, w4) ->
  process_rows E config model (pre ++ row :: post) df w = (Raise e, w4).
Proof.
  intros Hpre Hrow. rewrite process_rows_app, (bind_run_Ok _ _ _ _ _ Hpre).
  simpl. by rewrite (bind_run_Raise _ _ _ _ _ Hrow).
Qed.

(** C4.  When processing manifest line k raises, whatever the step that
    raised: the run does nothing more than log one error record that holds
    the message of the exception and its two closing records, so no later
    line is processed or appended; that record is the only error record of
    the run; and [result.csv] is neither written nor changed, the rows of
    the lines processed before being lost with the table. *)
Theorem failure_aborts_run (sys_argv : list string) (config : gmap string value)
  (model : Model E) (df dfk : option DataFrame) (text : string)
  (pre post : list string) (row e : string) (w0 w1 w2 w3 w4 : World) :
  prologue E sys_argv w0 = (Ok config, w1) ->
  setup E config w1 = (Ok (model, df), w2) ->
  files w2 !! "./path_list.csv" = Some text ->
  Py.file_lines text = pre ++ row :: post ->
  process_rows E config model pre df w2 = (Ok dfk, w3) ->
  process_row E config model dfk row w3 = (Raise e, w4) ->
  exists finish evs,
    let closing := [EvLog ERROR (Text ("- " +:+ e)); EvLog INFO (Text "----------");
                    EvLog INFO (Text ("End: " +:+ finish))] in
    main E sys_argv w0 = (Ok tt, extend w4 closing)
    /\ w4 = extend w0 evs
    /\ Forall before_failure_event evs
    /\ errors_of (evs ++ closing) = [Text ("- " +:+ e)]
    /\ ("result.csv" ∉ written_paths (evs ++ closing))
    /\ files (extend w4 closing) !! "result.csv" = files w0 !! "result.csv".
Proof.
  intros Hpro Hsetup Hfile Hlines Hpre Hrow.
  pose proof (prologue_logger E _ _ _ _ Hpro) as Hlog.
  destruct (epilogue_run E config (extend w4 [EvLog ERROR (Text ("- " +:+ e))]) Hlog)
    as [finish Hepi].
  assert (Hbody : body E config w1 = (Raise e, w4)).
  { unfold body. rewrite (bind_run_Ok _ _ _ _ _ Hsetup). simpl.
    unfold batch, os_path_exists, open_r, ask. unfold bind at 1.
    rewrite bool_decide_eq_true_2 by (by rewrite Hfile).
    unfold bind at 1. rewrite Hfile, Hlines.
    by rewrite (bind_run_Raise _ _ _ _ _ (process_rows_raise _ _ _ _ _ _ _ _ _ _ _ Hpre Hrow)). }
  destruct (steps_run (fun _ => True) is_info _ _ _ _ (steps_prologue E _ sys_argv) I Hpro)
    as (evs1 & E1 & F1 & _).
  destruct (steps_run (fun _ => True) provision_event _ _ _ _
              (steps_setup E _ (fun _ _ _ _ _ => I) config) I Hsetup)
    as (evs2 & E2 & F2 & _).
  destruct (steps_run (fun _ => True) row_event _ _ _ _
              (steps_process_rows E _ config model pre df) I Hpre)
    as (evs3 & E3 & F3 & _).
  destruct (steps_run (fun _ => True) row_event _ _ _ _
              (steps_process_row E _ config model dfk row) I Hrow)
    as (evs4 & E4 & F4 & _).
  set (evs := evs1 ++ evs2 ++ evs3 ++ evs4).
  assert (Hw4 : w4 = extend w0 evs).
  { subst evs. by rewrite E4, E3, E2, E1, !extend_app. }
  assert (F : Forall before_failure_event evs).
  { subst evs. unfold before_failure_event. repeat apply Forall_app_2.
    - eapply Forall_impl; [exact F1 |]. intros [] ?; simpl in *; tauto.
    - eapply Forall_impl; [exact F2 |]. tauto.
    - eapply Forall_impl; [exact F3 |]. tauto.
    - eapply Forall_impl; [exact F4 |]. tauto. }
  destruct (before_failure_facts evs F) as (Herr & Hwr & Hnw).
  exists finish, evs. cbv zeta.
  split.
  { unfold main. rewrite (bind_run_Ok _ _ _ _ _ Hpro).
    unfold bind at 1, try_except. rewrite Hbody. unfold handler.
    rewrite (log_call_run config ERROR _ w4 Hlog), Hepi. by rewrite extend_app. }
  split; [exact Hw4 |]. split; [exact F |].
  split; [by rewrite errors_of_app, Herr |].
  split.
  { rewrite written_paths_app. simpl. by rewrite app_nil_r. }
  simpl. rewrite Hw4. simpl. by apply replay_lookup_other.
Qed.

End Failure.

(** * The properties on the sample run *)

Lemma top_1_is_index_of_maximum_witness :
  [1#10; 7#10; 2#10]%Q <> []
  /\ exists i,
       max_location_class [1#10; 7#10; 2#10]%Q = Ok i
       /\ (i < 3)%nat
       /\ (forall j, (j < 3)%nat ->
             (prob_at [1#10; 7#10; 2#10] j <= prob_at [1#10; 7#10; 2#10] i)%Q)
       /\ (forall j, (j < i)%nat ->
             (prob_at [1#10; 7#10; 2#10] j < prob_at [1#10; 7#10; 2#10] i)%Q).
Proof.
  split; [discriminate |].
  apply (proj1 top_1_is_index_of_maximum [1#10; 7#10; 2#10]%Q). discriminate.
Defined.

Lemma top_3_are_three_highest_witness :
  (3 <= length [5#10; 1#10; 2#10; 4#10; 3#10]%Q)%nat
  /\ exists a b c,
       max_3_location_classes [5#10; 1#10; 2#10; 4#10; 3#10]%Q = [a; b; c]
       /\ (exists s, stable_ascending_sort [5#10; 1#10; 2#10; 4#10; 3#10]%Q s)
       /\ (forall s, stable_ascending_sort [5#10; 1#10; 2#10; 4#10; 3#10]%Q s ->
                     Py.last_n 3 s = [a; b; c])
       /\ NoDup [a; b; c]
       /\ Forall (fun i => (i < 5)%nat) [a; b; c]
       /\ (prob_at [5#10; 1#10; 2#10; 4#10; 3#10] a
           <= prob_at [5#10; 1#10; 2#10; 4#10; 3#10] b)%Q
       /\ (prob_at [5#10; 1#10; 2#10; 4#10; 3#10] b
           <= prob_at [5#10; 1#10; 2#10; 4#10; 3#10] c)%Q
       /\ (forall j, (j < 5)%nat -> j ∉ [a; b; c] ->
             (prob_at [5#10; 1#10; 2#10; 4#10; 3#10] j
              <= prob_at [5#10; 1#10; 2#10; 4#10; 3#10] a)%Q).
Proof.
  assert (H : (3 <= length [5#10; 1#10; 2#10; 4#10; 3#10]%Q)%nat) by (simpl; lia).
  split; [exact H |].
  exact (proj1 top_3_are_three_highest [5#10; 1#10; 2#10; 4#10; 3#10]%Q H).
Defined.


Lemma failure_aborts_run_witness :
  prologue Sample.env Sample.sys_argv Sample.world
  = (Ok Sample.config, Sample.after_prologue.2)
  /\ setup Sample.env Sample.config Sample.after_prologue.2
     = (Ok (tt, Sample.table), Sample.after_setup.2)
  /\ files Sample.after_setup.2 !! "./path_list.csv" = Some Sample.manifest
  /\ Py.file_lines Sample.manifest
     = take 2 Sample.lines ++ Sample.failing_line :: drop 3 Sample.lines
  /\ process_rows Sample.env Sample.config tt (take 2 Sample.lines) Sample.table
       Sample.after_setup.2
     = (Ok Sample.table_after_first_rows, Sample.after_first_rows.2)
  /\ process_row Sample.env Sample.config tt Sample.table_after_first_rows
       Sample.failing_line Sample.after_first_rows.2
     = (Raise "No such file: 'missing.png'", Sample.after_failing_row.2)
  /\ exists finish evs,
       let closing := [EvLog ERROR (Text ("- " +:+ "No such file: 'missing.png'"));
                       EvLog INFO (Text "----------");
                       EvLog INFO (Text ("End: " +:+ finish))] in
       main Sample.env Sample.sys_argv Sample.world
       = (Ok tt, extend Sample.after_failing_row.2 closing)
       /\ Sample.after_failing_row.2 = extend Sample.world evs
       /\ Forall before_failure_event evs
       /\ errors_of (evs ++ closing) = [Text ("- " +:+ "No such file: 'missing.png'")]
       /\ ("result.csv" ∉ written_paths (evs ++ closing))
       /\ files (extend Sample.after_failing_row.2 closing) !! "result.csv"
          = files Sample.world !! "result.csv".
Proof.
  assert (H1 : prologue Sample.env Sample.sys_argv Sample.world
               = (Ok Sample.config, Sample.after_prologue.2)) by (vm_compute; reflexivity).
  assert (H2 : setup Sample.env Sample.config Sample.after_prologue.2
               = (Ok (tt, Sample.table), Sample.after_setup.2)) by (vm_compute; reflexivity).
  assert (H3 : files Sample.after_setup.2 !! "./path_list.csv" = Some Sample.manifest)
    by (vm_compute; reflexivity).
  assert (H4 : Py.file_lines Sample.manifest
               = take 2 Sample.lines ++ Sample.failing_line :: drop 3 Sample.lines)
    by (vm_compute; reflexivity).
  assert (H5 : process_rows Sample.env Sample.config tt (take 2 Sample.lines) Sample.table
                 Sample.after_setup.2
               = (Ok Sample.table_after_first_rows, Sample.after_first_rows.2))
    by (vm_compute; reflexivity).
  assert (H6 : process_row Sample.env Sample.config tt Sample.table_after_first_rows
                 Sample.failing_line Sample.after_first_rows.2
               = (Raise "No such file: 'missing.png'", Sample.after_failing_row.2))
    by (vm_compute; reflexivity).
  repeat (split; [assumption |]).
  exact (failure_aborts_run Sample.env Sample.sys_argv Sample.config tt Sample.table
           Sample.table_after_first_rows Sample.manifest (take 2 Sample.lines)
           (drop 3 Sample.lines) Sample.failing_line "No such file: 'missing.png'"
           Sample.world Sample.after_prologue.2 Sample.after_setup.2
           Sample.after_first_rows.2 Sample.after_failing_row.2 H1 H2 H3 H4 H5 H6).
Defined.

Lemma channel_selection_exact_witness :
  Sample.config !! "model_channels" = Some (VStr "rb")
  /\ same_fields [0; 2; 4; 5]%nat Sample.first_line Sample.first_line_other_y_g
  /\ process_row Sample.env Sample.config tt Sample.table Sample.first_line
       Sample.after_setup.2
     = process_row Sample.env Sample.config tt Sample.table Sample.first_line_other_y_g
         Sample.after_setup.2
  /\ reads_within ["cell1_r.png"; "cell1_b.png"]
       (process_row Sample.env Sample.config tt Sample.table Sample.first_line).
Proof.
  assert (H1 : Sample.config !! "model_channels" = Some (VStr "rb"))
    by (vm_compute; reflexivity).
  assert (H2 : same_fields [0; 2; 4; 5]%nat Sample.first_line Sample.first_line_other_y_g).
  { split; [vm_compute; lia |]. split; [vm_compute; lia |].
    intros i Hi.
    repeat (apply elem_of_cons in Hi as [-> | Hi]); try (vm_compute; reflexivity).
    by apply elem_of_nil in Hi. }
  split; [exact H1 |]. split; [exact H2 |]. split.
  - exact (proj1 (proj2 (proj2 (channel_selection_exact Sample.env Sample.config tt)) H1)
             Sample.table _ _ Sample.after_setup.2 H2).
  - exact (proj1 (channel_selection_exact Sample.env Sample.config tt)
             "rb" Sample.table Sample.first_line H1).
Defined.

Lemma download_attempt_witness :
  (exists w' pre post,
      download Sample.env default_config Sample.url_info "classifier" "classifier.pth"
        Sample.world = (Ok tt, w')
      /\ files w' = files Sample.world
      /\ trace w' = trace Sample.world
                    ++ [EvGet "https://models.example/rybg/mae_contrast_supcon_model/classifier";
                        EvLog WARNING (Text (pre +:+ "classifier.pth" +:+ post))])
  /\ (exists w',
         download Sample.env default_config Sample.url_info "encoder" "encoder.pth"
           Sample.world = (Ok tt, w')
         /\ files w' = <[Py.path_join "models" ["rybg"; "mae_contrast_supcon_model"; "encoder.pth"]
                          := "encoder weights"]> (files Sample.world)
         /\ trace w' = trace Sample.world
                       ++ [EvGet "https://models.example/rybg/mae_contrast_supcon_model/encoder";
                           EvWrite (Py.path_join "models"
                                      ["rybg"; "mae_contrast_supcon_model"; "encoder.pth"])
                             "encoder weights";
                           EvLog INFO (Text ("  - " +:+ "encoder.pth" +:+ " updated."))]).
Proof.
  split.
  - refine (proj1 (download_attempt Sample.env default_config Sample.url_info
                     "classifier" "classifier.pth" "rybg" "mae_contrast_supcon_model"
                     "https://models.example/rybg/mae_contrast_supcon_model/classifier"
                     {| status_code := 404; content := "" |} Sample.world
                     eq_refl eq_refl eq_refl eq_refl eq_refl) _).
    discriminate.
  - exact (proj2 (download_attempt Sample.env default_config Sample.url_info
                    "encoder" "encoder.pth" "rybg" "mae_contrast_supcon_model"
                    "https://models.example/rybg/mae_contrast_supcon_model/encoder"
                    {| status_code := 200; content := "encoder weights" |}
                    Sample.world eq_refl eq_refl eq_refl eq_refl eq_refl)
             eq_refl eq_refl).
Defined.

Lemma no_request_when_weights_present_witness :
  prologue Sample.env Sample.sys_argv Sample.world
  = (Ok Sample.config, Sample.after_prologue.2)
  /\ Sample.config !! "update_model" = Some (VBool false)
  /\ is_Some (files Sample.world
                !! Py.path_join "models" ["rb"; "mae_contrast_supcon_model"; "classifier.pth"])
  /\ is_Some (files Sample.world
                !! Py.path_join "models" ["rb"; "mae_contrast_supcon_model"; "encoder.pth"])
  /\ exists evs,
       (main Sample.env Sample.sys_argv Sample.world).2 = extend Sample.world evs
       /\ Forall (fun e => ~ is_request e) evs
       /\ requests_of evs = [].
Proof.
  assert (H1 : prologue Sample.env Sample.sys_argv Sample.world
               = (Ok Sample.config, Sample.after_prologue.2)) by (vm_compute; reflexivity).
  assert (H2 : Sample.config !! "update_model" = Some (VBool false))
    by (vm_compute; reflexivity).
  assert (H3 : Sample.config !! "model_channels" = Some (VStr "rb"))
    by (vm_compute; reflexivity).
  assert (H4 : Sample.config !! "model_type" = Some (VStr "mae_contrast_supcon_model"))
    by (vm_compute; reflexivity).
  assert (H5 : is_Some (files Sample.world
                          !! Py.path_join "models"
                               ["rb"; "mae_contrast_supcon_model"; "classifier.pth"]))
    by (exists "old classifier weights"; vm_compute; reflexivity).
  assert (H6 : is_Some (files Sample.world
                          !! Py.path_join "models"
                               ["rb"; "mae_contrast_supcon_model"; "encoder.pth"]))
    by (exists "old encoder weights"; vm_compute; reflexivity).
  repeat (split; [assumption |]).
  exact (no_request_when_weights_present Sample.env Sample.sys_argv Sample.config
           (VBool false) "rb" "mae_contrast_supcon_model" Sample.world
           Sample.after_prologue.2 H1 H2 eq_refl H3 H4 H5 H6).
Defined.

Lemma config_precedence_witness :
  resolve_config Sample.env Sample.sys_argv_flags Sample.world
  = (Ok Sample.resolved_config, Sample.world)
  /\ Sample.resolved_config !! "model_channels" = Some (VStr "rb")
  /\ Sample.resolved_config !! "update_model" = Some (VBool true)
  /\ Sample.resolved_config !! "model_type" = Some (VStr "mae_contrast_supcon_model")
  /\ exists (cli file : gmap string value) (text : string),
       parse_args Sample.env (tail Sample.sys_argv_flags) = Ok cli
       /\ files Sample.world !! "config.yaml" = Some text
       /\ (safe_load_config Sample.env text = Ok (Some file)
           \/ (safe_load_config Sample.env text = Ok None /\ file = ∅))
       /\ Sample.resolved_config = dict_or (dict_or default_config cli) file
       /\ (forall k,
             Sample.resolved_config !! k =
               match file !! k with
               | Some v => Some v
               | None =>
                   match cli !! k with
                   | Some v => Some v
                   | None => default_config !! k
                   end
               end)
       /\ Sample.world = Sample.world.
Proof.
  assert (H : resolve_config Sample.env Sample.sys_argv_flags Sample.world
              = (Ok Sample.resolved_config, Sample.world)) by (vm_compute; reflexivity).
  split; [exact H |].
  split; [vm_compute; reflexivity |].
  split; [vm_compute; reflexivity |].
  split; [vm_compute; reflexivity |].
  exact (config_precedence Sample.env Sample.sys_argv_flags Sample.world Sample.world
           Sample.resolved_config H).
Defined.

Lemma bool_flag_true_when_passed_witness :
  argv_options Sample.env ["-u"; "False"; "-c"; "rb"]
  = Ok [(update_model, "False"); (model_channels, "rb")]
  /\ exists ns b,
       parse_args Sample.env ["-u"; "False"; "-c"; "rb"] = Ok ns
       /\ ns !! dest_name update_model = Some (VBool b)
       /\ (b = true <-> exists s, (update_model, s) ∈ [(update_model, "False");
                                                       (model_channels, "rb")]).
Proof.
  split; [reflexivity |].
  apply (proj1 bool_flag_true_when_passed Sample.env update_model
           ["-u"; "False"; "-c"; "rb"]
           [(update_model, "False"); (model_channels, "rb")]);
    [by left | reflexivity |].
  intros s Hs.
  apply elem_of_cons in Hs as [Hs | Hs]; [injection Hs as ->; discriminate |].
  apply elem_of_cons in Hs as [Hs | Hs]; [discriminate |].
  by apply elem_of_nil in Hs.
Defined.

Lemma no_manifest_no_result_witness :
  files Sample.world_no_manifest !! "./path_list.csv" = None
  /\ Sample.config !! "create_csv" = Some (VBool true)
  /\ (exists evs,
         (main Sample.env Sample.sys_argv Sample.world_no_manifest).2
         = extend Sample.world_no_manifest evs
         /\ Forall outside_loop_event evs
         /\ imreads_of evs = [] /\ runs_of evs = []
         /\ ("result.csv" ∉ written_paths evs)
         /\ files (main Sample.env Sample.sys_argv Sample.world_no_manifest).2 !! "result.csv"
            = files Sample.world_no_manifest !! "result.csv")
  /\ (main Sample.env Sample.sys_argv Sample.world_no_manifest).1 = Ok tt.
Proof.
  assert (H : files Sample.world_no_manifest !! "./path_list.csv" = None)
    by (vm_compute; reflexivity).
  split; [exact H |]. split; [vm_compute; reflexivity |].
  split; [| vm_compute; reflexivity].
  exact (proj1 (proj2 (no_manifest_no_result Sample.env Sample.sys_argv
                         Sample.world_no_manifest H))).
Defined.

(** * Further properties of the script *)

(** ** Lines that are skipped, lines that are too short *)

Lemma rstrip_all_space (s : string) : all_space s = true -> Py.rstrip s = "".
Proof.
  induction s as [|c s IH]; simpl; [done |].
  intros [Hc Hs]%andb_true_iff. by rewrite (IH Hs), Hc.
Qed.

Lemma strip_empty (s : string) : String.eqb (Py.strip s) "" = all_space s.
Proof.
  destruct (all_space s) eqn:Hs.
  - unfold Py.strip. by rewrite rstrip_all_space.
  - apply String.eqb_neq. intros H. unfold Py.strip in H.
    apply lstrip_empty in H. rewrite all_space_rstrip in H. congruence.
Qed.

Lemma retained_spec (l : string) :
  retained l = negb (all_space l || Py.startswith l "#").
Proof. unfold retained. rewrite strip_empty. by rewrite negb_orb. Qed.

Lemma isspace_code_point (c : ascii) :
  Py.isspace c = true <-> nat_of_ascii c ∈ white_space_code_points.
Proof.
  unfold Py.isspace, white_space_code_points. cbv zeta.
  rewrite !orb_true_iff, !andb_true_iff, !Nat.leb_le, !Nat.eqb_eq.
  rewrite !elem_of_cons, elem_of_nil. lia.
Qed.

Lemma all_space_spec (s : string) : all_space s = true <-> white_space_only s.
Proof.
  unfold white_space_only. induction s as [|c s IH]; simpl.
  - split; [constructor | done].
  - rewrite andb_true_iff, Forall_cons, IH, isspace_code_point. done.
Qed.

Lemma startswith_hash (s : string) :
  Py.startswith s "#" = true <-> exists rest, s = String "#" rest.
Proof.
  unfold Py.startswith. destruct s as [|c s]; cbn [String.prefix].
  - split; [done | by intros [? ?]].
  - destruct (ascii_dec "#" c) as [<- | Hne].
    + split; [by exists s | by destruct s].
    + split; [done | intros [rest [= Hc _]]; congruence].
Qed.

(** X1.  A manifest line is skipped exactly when it is made of white space
    only (the code points 9 to 13, 28 to 32, 133 and 160) or its first
    character is [#]; a skipped line changes neither the table nor the
    world; a [#] that comes after white space does not make a comment: such
    a line is processed as data; and a line that holds a no-break space and
    its newline is skipped. *)
Theorem skipped_lines (E : Env) (config : gmap string value) (model : Model E)
  (df : option DataFrame) (curr_set : string) (w : World) :
  (retained curr_set = false
   <-> white_space_only curr_set \/ exists rest, curr_set = String "#" rest)
  /\ (retained curr_set = false ->
      process_row E config model df curr_set w = (Ok df, w))
  /\ (forall c rest,
        nat_of_ascii c ∈ white_space_code_points ->
        retained (String c (String "#" rest)) = true)
  /\ retained (String "160" (String "010" "")) = false.
Proof.
  split.
  { rewrite retained_spec, negb_false_iff, orb_true_iff.
    by rewrite all_space_spec, startswith_hash. }
  split.
  { intros H. unfold process_row. by rewrite H. }
  split; [| reflexivity].
  intros c rest Hc. apply isspace_code_point in Hc. rewrite retained_spec.
  assert (Ha : all_space (String c (String "#" rest)) = false)
    by (cbn [all_space]; by rewrite Hc).
  assert (Hs : Py.startswith (String c (String "#" rest)) "#" = false).
  { unfold Py.startswith. cbn [String.prefix].
    destruct (ascii_dec "#" c) as [<- | _]; [by vm_compute in Hc | done]. }
  by rewrite Ha, Hs.
Qed.

Section ShortRows.
Context (E : Env).

Lemma steps_load_cell_data_reads (I : gmap string string -> Prop)
  (config : gmap string value) (arr : list string) :
  steps I dir_or_read_event (load_cell_data E config arr).
Proof. unfold load_cell_data, load_channel, do_imread. steps_go. Qed.

(** X2.  A retained line with fewer than six fields never reaches the model:
    processing it raises, after at most creating the directory and reading
    images; with fewer than five fields it raises [IndexError] at once,
    before any effect. *)
Theorem short_row_raises (config : gmap string value) (model : Model E)
  (df : option DataFrame) (curr_set : string) (w : World) :
  retained curr_set = true ->
  (length (Py.split "," curr_set) < 6)%nat ->
  exists e evs,
    process_row E config model df curr_set w = (Raise e, extend w evs)
    /\ Forall dir_or_read_event evs
    /\ ((length (Py.split "," curr_set) <= 4)%nat ->
        e = "list index out of range" /\ evs = []).
Proof.
  intros Hret Hlen. unfold process_row. rewrite Hret.
  set (arr := Py.split "," curr_set) in *. unfold process_set.
  destruct (arr !! 4%nat) as [out_dir|] eqn:H4.
  - assert (Hlen4 : (4 < length arr)%nat) by (by eapply lookup_lt_Some).
    assert (H5 : arr !! 5%nat = None) by (apply lookup_ge_None; lia).
    unfold bind at 1. unfold lift at 1, Py.getitem at 1. rewrite H4.
    unfold bind at 1, makedirs. unfold call at 1.
    destruct (os_makedirs E w (Py.strip out_dir)) as [[]|e].
    + destruct (steps_load_cell_data_reads (fun _ => True) config arr
                  (extend w [EvMakedirs (Py.strip out_dir)]) I) as (evs & E1 & F & _).
      unfold bind at 1. change {| files := files w; trace := trace w ++ [EvMakedirs (Py.strip out_dir)] |}
        with (extend w [EvMakedirs (Py.strip out_dir)]).
      destruct (load_cell_data E config arr (extend w [EvMakedirs (Py.strip out_dir)]))
        as [[cd | e] w2]; simpl in E1; subst w2.
      * unfold bind at 1, lift at 1, Py.getitem at 1. rewrite H4.
        unfold bind at 1, lift at 1, Py.getitem at 1. rewrite H5.
        exists "list index out of range", ([EvMakedirs (Py.strip out_dir)] ++ evs).
        rewrite extend_app. split; [done |].
        split; [by constructor | lia].
      * exists e, ([EvMakedirs (Py.strip out_dir)] ++ evs).
        rewrite extend_app. split; [done |]. split; [by constructor | lia].
    + exists e, [EvMakedirs (Py.strip out_dir)].
      split; [done |]. split; [by repeat constructor | lia].
  - unfold bind at 1, lift at 1, Py.getitem at 1. rewrite H4.
    exists "list index out of range", []. by rewrite extend_nil.
Qed.

End ShortRows.

(** ** What a processed line does *)

Lemma extend_no_write (w : World) (evs : list event) :
  Forall (fun e => ~ is_write e) evs ->
  extend w evs = {| files := files w; trace := trace w ++ evs |}.
Proof. intros H. unfold extend. by rewrite replay_no_write. Qed.

Lemma replay_imreads (paths : list string) (fs : gmap string string) :
  replay (map EvImread paths) fs = fs.
Proof. induction paths as [|p paths IH]; [done | exact IH]. Qed.

Section ProcessedRow.
Context (E : Env) (config : gmap string value) (channels : string).
Hypothesis Hchannels : config !! "model_channels" = Some (VStr channels).

Lemma load_channel_Ok (letter : string) (field : nat) (arr : list string)
  (cd cd' : list (list (Image E))) (w w' : World) :
  load_channel E config letter field arr cd w = (Ok cd', w') ->
  w' = extend w (map EvImread (channel_path channels arr letter field)).
Proof.
  unfold load_channel, bind, config_get, lift, channel_in, channel_path, Py.getitem,
    do_imread, call, ret.
  rewrite Hchannels. simpl.
  destruct (Py.contains letter channels); simpl.
  - destruct (arr !! field) as [p|]; simpl; [| discriminate].
    destruct (imread E w (Py.strip p)); [| discriminate]. by intros [= <- <-].
  - intros [= <- <-]. by rewrite extend_nil.
Qed.

Lemma load_cell_data_Ok (arr : list string) (cd : list (list (Image E))) (w w' : World) :
  load_cell_data E config arr w = (Ok cd, w') ->
  w' = extend w (map EvImread (selected_paths channels arr)).
Proof.
  unfold load_cell_data. intros H. run_inv H.
  apply load_channel_Ok in Hs, Hs0, Hs1, H. subst.
  unfold selected_paths. simpl. rewrite app_nil_r, !map_app, !extend_app.
  done.
Qed.

(** Everything a line that is processed to the end has done. *)
Lemma process_set_Ok (model : Model E) (df df' : option DataFrame) (arr : list string)
  (w w' : World) :
  process_set E config model df arr w = (Ok df', w') ->
  exists out_dir out_name embedding probabilities top name names create,
    arr !! 4%nat = Some out_dir
    /\ arr !! 5%nat = Some out_name
    /\ (exists w1 cell_data,
           run_model E w1 model cell_data (Py.path_join out_dir [Py.strip out_name])
           = Ok (embedding, probabilities))
    /\ max_location_class probabilities = Ok top
    /\ CLASS2NAME E top = Ok name
    /\ Forall2 (fun i n => CLASS2NAME E i = Ok n) (top_3_descending probabilities) names
    /\ (3 <= length probabilities)%nat
    /\ config !! "create_csv" = Some create
    /\ (if truthy create
        then df_append df (new_row (Py.strip out_name) name top (Py.join "," names)
                             (max_3_location_classes probabilities) probabilities embedding)
             = Ok df'
        else df' = df)
    /\ w' = extend w (row_events channels arr out_dir out_name (Py.join "," names)).
Proof.
  intros H. unfold process_set in H. run_inv H. cbv zeta in *.
  apply max_3_location_names_Ok in Hs7
    as (i0 & i1 & i2 & n0 & n1 & n2 & H0 & H1 & H2 & N0 & N1 & N2 & -> & ->).
  apply load_cell_data_Ok in Hs1. subst w2.
  unfold do_run_model, makedirs in *. step_inv.
  destruct a4 as [embedding probabilities]. simpl in *.
  unfold Py.getitem in Hs, Hs2, Hs3, Hs10.
  destruct (arr !! 4%nat) as [out_dir|] eqn:H4; [| discriminate].
  destruct (arr !! 5%nat) as [out_name|] eqn:H5; [| discriminate].
  injection Hs as <-. injection Hs2 as <-. injection Hs3 as <-. injection Hs10 as <-.
  assert (Hm3 : max_3_location_classes probabilities = [i0; i1; i2]).
  { pose proof (max_3_length probabilities) as Hle.
    destruct (max_3_location_classes probabilities) as [|? [|? [|? [|? ?]]]];
      simplify_eq/=; [done | lia]. }
  assert (Hlen : (3 <= length probabilities)%nat).
  { assert (Hl : length (max_3_location_classes probabilities) = 3%nat) by (by rewrite Hm3).
    unfold max_3_location_classes, Py.last_n, Py.range in Hl.
    rewrite length_drop in Hl.
    assert (Hs' : length (Py.sorted (seq 0 (length probabilities)) (prob_at probabilities))
                  = length probabilities)
      by (by rewrite sorted_perm, length_seq).
    lia. }
  rewrite replay_imreads in Hs9.
  set (w9 := {| files := files w; trace := _ |}) in Hs9.
  assert (Hdf : (if truthy a8
                 then df_append df (new_row (Py.strip out_name) a6 a5
                                      (Py.join "," [n2; n1; n0])
                                      (max_3_location_classes probabilities)
                                      probabilities embedding) = Ok a9
                 else a9 = df)
                /\ w10 = w9).
  { destruct (truthy a8).
    - run_inv Hs9. step_inv.
      match goal with
      | Hg : Py.getitem arr 5 = Ok _ |- _ =>
          unfold Py.getitem in Hg; rewrite H5 in Hg; injection Hg as <-
      end.
      done.
    - by injection Hs9 as <- <-. }
  destruct Hdf as [Hdf ->].
  exists out_dir, out_name, embedding, probabilities, a5, a6, [n2; n1; n0], a8.
  split; [done |]. split; [done |].
  split; [by eexists _, _ |]. split; [done |]. split; [done |].
  split.
  { unfold top_3_descending. rewrite Hm3. simpl. by repeat constructor. }
  split; [done |]. split; [done |]. split; [exact Hdf |].
  destruct a11. pose proof (log_call_logger _ _ _ _ _ Hs11) as Hlog.
  rewrite (log_call_run _ _ _ _ Hlog) in Hs11. injection Hs11 as <-.
  unfold row_events, summary, extend, w9. simpl.
  rewrite replay_app, replay_imreads. simpl.
  f_equal. by rewrite <- !app_assoc.
Qed.

End ProcessedRow.

Lemma lookup_nth_string (arr : list string) (i : nat) (x : string) :
  arr !! i = Some x -> nth i arr "" = x.
Proof. intros H. by apply nth_lookup_Some with (d := "") in H. Qed.

Lemma imreads_of_imreads (paths : list string) : imreads_of (map EvImread paths) = paths.
Proof. induction paths as [|p paths IH]; [done |]. simpl. by rewrite IH. Qed.

Lemma dirs_of_imreads (paths : list string) : dirs_of (map EvImread paths) = [].
Proof. by induction paths. Qed.

Lemma runs_of_imreads (paths : list string) : runs_of (map EvImread paths) = [].
Proof. by induction paths. Qed.

Lemma logs_of_imreads (paths : list string) : logs_of (map EvImread paths) = [].
Proof. by induction paths. Qed.

Lemma row_events_projections (channels : string) (arr : list string)
  (out_dir out_name names : string) :
  let evs := row_events channels arr out_dir out_name names in
  dirs_of evs = [Py.strip out_dir]
  /\ imreads_of evs = selected_paths channels arr
  /\ runs_of evs = [Py.path_join out_dir [Py.strip out_name]]
  /\ logs_of evs = [(INFO, Text ("- Saved results for " +:+ Py.strip out_name
                                 +:+ ", locations predicted [" +:+ names +:+ "]"))]
  /\ Forall (fun e => ~ is_write e) evs.
Proof.
  unfold row_events, summary. cbn zeta.
  assert (Hd : dirs_of (map EvImread (selected_paths channels arr)) = [])
    by apply dirs_of_imreads.
  assert (Hi : imreads_of (map EvImread (selected_paths channels arr))
               = selected_paths channels arr) by apply imreads_of_imreads.
  assert (Hr : runs_of (map EvImread (selected_paths channels arr)) = [])
    by apply runs_of_imreads.
  assert (Hl : logs_of (map EvImread (selected_paths channels arr)) = [])
    by apply logs_of_imreads.
  unfold dirs_of, imreads_of, runs_of, logs_of in *.
  rewrite !omap_app, Hd, Hi, Hr, Hl. simpl. rewrite ?app_nil_r.
  repeat split; try done.
  constructor; [by intros [] |].
  apply Forall_app. split.
  - apply Forall_forall. intros ? [? [-> _]]%list_elem_of_fmap. by intros [].
  - repeat constructor; by intros [].
Qed.

Section ProcessedRows.
Context (E : Env) (config : gmap string value) (channels : string).
Hypothesis Hchannels : config !! "model_channels" = Some (VStr channels).

(** X3.  A line that is processed to the end has done exactly this, in this
    order, whatever the CSV mode: created the directory named by its fifth
    field stripped, read the images of the configured channels, called the
    model once with the stem made of the fifth field as it stands and the
    sixth field stripped, and logged one summary record.  It has written no
    file, and the model has returned at least three probabilities. *)
Theorem processed_row_effects (model : Model E) (df df' : option DataFrame)
  (curr_set : string) (w w' : World) :
  retained curr_set = true ->
  process_row E config model df curr_set w = (Ok df', w') ->
  exists out_dir out_name max_3_names embedding probabilities,
    Py.split "," curr_set !! 4%nat = Some out_dir
    /\ Py.split "," curr_set !! 5%nat = Some out_name
    /\ w' = extend w
              ([EvMakedirs (Py.strip out_dir)]
                 ++ map EvImread (selected_paths channels (Py.split "," curr_set))
                 ++ [EvRunModel (Py.path_join out_dir [Py.strip out_name]);
                     EvLog INFO (Text ("- Saved results for " +:+ Py.strip out_name
                                       +:+ ", locations predicted [" +:+ max_3_names
                                       +:+ "]"))])
    /\ files w' = files w
    /\ (exists w1 cell_data,
           run_model E w1 model cell_data (Py.path_join out_dir [Py.strip out_name])
           = Ok (embedding, probabilities))
    /\ (3 <= length probabilities)%nat.
Proof.
  intros Hret H. unfold process_row in H. rewrite Hret in H.
  destruct (process_set_Ok E config channels Hchannels _ _ _ _ _ _ H)
    as (out_dir & out_name & emb & probs & top & name & names & create
        & H4 & H5 & Hrun & _ & _ & _ & Hlen & _ & _ & ->).
  exists out_dir, out_name, (Py.join "," names), emb, probs.
  split; [done |]. split; [done |]. split; [done |].
  split; [| by split].
  destruct (row_events_projections channels (Py.split "," curr_set) out_dir out_name
              (Py.join "," names)) as (_ & _ & _ & _ & Hnw).
  by rewrite extend_no_write.
Qed.

(** The events of a manifest whose lines are all processed. *)
Lemma process_rows_Ok (model : Model E) (path_list : list string) :
  forall df df' w w',
    process_rows E config model path_list df w = (Ok df', w') ->
    exists evs,
      w' = extend w evs
      /\ Forall (fun e => ~ is_write e) evs
      /\ dirs_of evs = map row_dir (filter retained path_list)
      /\ imreads_of evs
         = concat (map (fun l => selected_paths channels (Py.split "," l))
                     (filter retained path_list))
      /\ runs_of evs = map row_stem (filter retained path_list)
      /\ length (logs_of evs) = length (filter retained path_list)
      /\ Forall (fun r => r.1 = INFO) (logs_of evs).
Proof.
  induction path_list as [|l ls IH]; intros df df' w w' H; simpl in H.
  - injection H as <- <-. exists []. rewrite extend_nil. by repeat split.
  - apply bind_Ok in H as (df1 & w1 & Hrow & Hrest).
    destruct (IH _ _ _ _ Hrest) as (evs2 & -> & Hnw2 & Hd2 & Hi2 & Hr2 & Hl2 & Hf2).
    unfold process_row in Hrow. destruct (retained l) eqn:Hl.
    + destruct (process_set_Ok E config channels Hchannels _ _ _ _ _ _ Hrow)
        as (out_dir & out_name & emb & probs & top & name & names & create
            & H4 & H5 & _ & _ & _ & _ & _ & _ & _ & ->).
      destruct (row_events_projections channels (Py.split "," l) out_dir out_name
                  (Py.join "," names)) as (Hd1 & Hi1 & Hr1 & Hl1 & Hnw1).
      set (evs1 := row_events channels (Py.split "," l) out_dir out_name
                     (Py.join "," names)) in *.
      clearbody evs1.
      exists (evs1 ++ evs2). rewrite extend_app.
      rewrite filter_cons_True by (by rewrite Hl).
      unfold dirs_of, imreads_of, runs_of, logs_of in *. rewrite !omap_app.
      rewrite Hd1, Hi1, Hr1, Hl1, Hd2, Hi2, Hr2. simpl.
      split; [done |]. split; [by apply Forall_app |].
      split; [unfold row_dir; by rewrite (lookup_nth_string _ _ _ H4) |].
      split; [done |].
      split.
      { unfold row_stem. by rewrite (lookup_nth_string _ _ _ H4),
          (lookup_nth_string _ _ _ H5). }
      split; [by rewrite Hl2 | by constructor].
    + injection Hrow as <- <-. exists evs2.
      rewrite filter_cons_False by (rewrite Hl; exact id). by repeat split.
Qed.

(** X4.  When every line of a manifest is processed, the directories
    created, the images read and the output stems handed to the model are
    those of the retained lines, in manifest order, one inference call and
    one summary record per retained line. *)
Theorem rows_processed_in_manifest_order (model : Model E) (path_list : list string)
  (df df' : option DataFrame) (w w' : World) :
  process_rows E config model path_list df w = (Ok df', w') ->
  exists evs,
    w' = extend w evs
    /\ files w' = files w
    /\ dirs_of evs = map row_dir (filter retained path_list)
    /\ imreads_of evs
       = concat (map (fun l => selected_paths channels (Py.split "," l))
                   (filter retained path_list))
    /\ runs_of evs = map row_stem (filter retained path_list)
    /\ length (logs_of evs) = length (filter retained path_list)
    /\ Forall (fun r => r.1 = INFO) (logs_of evs).
Proof.
  intros H.
  destruct (process_rows_Ok model path_list _ _ _ _ H)
    as (evs & -> & Hnw & Hd & Hi & Hr & Hl & Hf).
  exists evs. split; [done |]. split; [| done].
  by rewrite extend_no_write.
Qed.

End ProcessedRows.

(** ** The result file *)

Lemma not_written (p : string) (evs : list event) :
  Forall (fun e => ~ writes_to p e) evs -> p ∉ written_paths evs.
Proof.
  induction 1 as [|e evs He _ IH]; [apply not_elem_of_nil |].
  destruct e; simpl in *; try done.
  apply not_elem_of_cons. split; [| done]. congruence.
Qed.

Section ResultFile.
Context (E : Env).

Lemma save_csv_off (config : gmap string value) (create : value) (df : option DataFrame)
  (w : World) :
  config !! "create_csv" = Some create -> truthy create = false ->
  save_csv E config df w = (Ok tt, w).
Proof.
  intros Hc Hf. unfold save_csv, bind, config_get. rewrite Hc. simpl. by rewrite Hf.
Qed.

Lemma new_table_off (config : gmap string value) (create : value) (w : World) :
  config !! "create_csv" = Some create -> truthy create = false ->
  new_table config w = (Ok None, w).
Proof.
  intros Hc Hf. unfold new_table, bind, config_get. rewrite Hc. simpl. by rewrite Hf.
Qed.

Lemma steps_batch_off (I : gmap string string -> Prop) (config : gmap string value)
  (create : value) (model : Model E) (df : option DataFrame) :
  config !! "create_csv" = Some create -> truthy create = false ->
  steps I row_event (batch E config model df).
Proof.
  intros Hc Hf. unfold batch.
  steps_with ltac:(first
    [ apply steps_process_rows
    | match goal with
      | |- steps _ _ (save_csv _ _ _) =>
          intros w Hw; exists []; rewrite (save_csv_off _ _ _ _ Hc Hf), extend_nil;
          by repeat split
      end ]).
Qed.

(** X5.  With CSV mode off in the resolved configuration, no table is made,
    the final write returns at once even though there is no table, and the
    whole run, whatever the manifest holds and whether or not a line fails,
    never writes [result.csv] and leaves a [result.csv] of an earlier run as
    it was. *)
Theorem csv_mode_off_no_result (sys_argv : list string) (config : gmap string value)
  (create : value) (w0 w1 : World) :
  prologue E sys_argv w0 = (Ok config, w1) ->
  config !! "create_csv" = Some create ->
  truthy create = false ->
  (forall w, new_table config w = (Ok None, w))
  /\ (forall df w, save_csv E config df w = (Ok tt, w))
  /\ exists evs,
       (main E sys_argv w0).2 = extend w0 evs
       /\ Forall (fun e => ~ writes_to "result.csv" e) evs
       /\ ("result.csv" ∉ written_paths evs)
       /\ files (main E sys_argv w0).2 !! "result.csv" = files w0 !! "result.csv".
Proof.
  intros Hpro Hc Hf.
  split; [intros; by eapply new_table_off |].
  split; [intros; by eapply save_csv_off |].
  destruct (prologue_run _ _ _ _ _ Hpro) as (evs1 & -> & F1 & Hfiles).
  assert (Hrest : steps (fun _ => True) (fun e => ~ writes_to "result.csv" e)
                    (try_except (body E config) (handler config);;; epilogue E config)).
  { apply steps_bind.
    - apply steps_try.
      + unfold body. apply steps_bind.
        * eapply steps_weaken; [| by apply steps_setup].
          intros [] He; simpl in *; try tauto.
          intros ->. by apply weight_path_not_result in He.
        * intros s _. eapply steps_weaken; [| by eapply steps_batch_off].
          intros [] ?; simpl in *; tauto.
      + intros e. eapply steps_weaken; [| apply steps_handler].
        intros [] ?; simpl in *; tauto.
    - intros _ _. eapply steps_weaken; [| apply steps_epilogue].
      intros [] ?; simpl in *; tauto. }
  destruct (Hrest (extend w0 evs1) I) as (evs2 & E2 & F2 & _).
  assert (F : Forall (fun e => ~ writes_to "result.csv" e) (evs1 ++ evs2)).
  { apply Forall_app. split; [| done]. eapply Forall_impl; [exact F1 |].
    intros [] ?; simpl in *; tauto. }
  exists (evs1 ++ evs2). unfold main. rewrite (bind_run_Ok _ _ _ _ _ Hpro).
  rewrite E2, extend_app.
  split; [done |]. split; [exact F |]. split; [by apply not_written |].
  simpl. by apply replay_lookup_other.
Qed.

(** X6.  With CSV mode on, a manifest whose lines are all processed ends in
    one write: the loop itself writes no file, and then [result.csv] is set
    to the text of the final table, which has one row per retained line on
    top of those it started with. *)
Theorem result_written_once_at_end (config : gmap string value) (model : Model E)
  (create : value) (d : DataFrame) (df' : option DataFrame) (text : string)
  (w w1 : World) :
  config !! "create_csv" = Some create ->
  truthy create = true ->
  columns d = final_columns ->
  files w !! "./path_list.csv" = Some text ->
  process_rows E config model (Py.file_lines text) (Some d) w = (Ok df', w1) ->
  open_wb E w1 "result.csv" = Ok tt ->
  exists d' evs,
    df' = Some d'
    /\ columns d' = final_columns
    /\ length (rows d')
       = (length (rows d) + length (filter retained (Py.file_lines text)))%nat
    /\ w1 = extend w evs
    /\ written_paths evs = []
    /\ batch E config model (Some d) w
       = (Ok tt, extend w (evs ++ [EvWrite "result.csv" (to_csv E d')]))
    /\ files (batch E config model (Some d) w).2 !! "result.csv" = Some (to_csv E d').
Proof.
  intros Hc Ht Hcols Hfile Hrows Hopen.
  destruct (process_rows_row_count E config model create _ Hc Ht d df' w w1 Hcols Hrows)
    as (d' & -> & Hcols' & Hlen).
  destruct (steps_run (fun _ => True) row_event _ _ _ _
              (steps_process_rows E _ config model _ _) I Hrows) as (evs & -> & F & _).
  assert (Hbatch : batch E config model (Some d) w
                   = (Ok tt, extend w (evs ++ [EvWrite "result.csv" (to_csv E d')]))).
  { unfold batch, os_path_exists, open_r, ask. unfold bind at 1.
    rewrite bool_decide_eq_true_2 by (by rewrite Hfile).
    unfold bind at 1. rewrite Hfile.
    rewrite (bind_run_Ok _ _ _ _ _ Hrows).
    unfold save_csv, bind, config_get, write_file, bind, ask. rewrite Hc. simpl.
    rewrite Ht, Hopen. unfold extend. simpl. by rewrite replay_app, app_assoc. }
  exists d', evs. repeat (split; [done |]).
  split.
  { clear -F. induction F as [|e evs He _ IH]; [done |]. destruct e; simpl in *; done. }
  split; [exact Hbatch |].
  rewrite Hbatch. simpl. rewrite replay_app. simpl. by rewrite lookup_insert_eq.
Qed.

End ResultFile.

(** ** The outcome of a run *)

Lemma errors_of_none (evs : list event) :
  Forall (fun e => ~ is_error e) evs -> errors_of evs = [].
Proof.
  induction 1 as [|e evs He _ IH]; [done |].
  destruct e as [[]| | | | |]; simpl in *; done.
Qed.

Section Outcome.
Context (E : Env).

Lemma steps_body_no_error (config : gmap string value) :
  steps (fun _ => True) (fun e => ~ is_error e) (body E config).
Proof.
  unfold body. apply steps_bind.
  - eapply steps_weaken; [| by apply steps_setup].
    intros [[]| | | | |] ?; simpl in *; tauto.
  - intros s _. eapply steps_weaken; [| by apply steps_batch].
    intros [[]| | | | |] [? | ?]; simpl in *; tauto.
Qed.

(** X7.  The run as a whole.  If the opening stage raises, the run raises
    the same exception and stops there.  Otherwise the run returns normally,
    whatever happens between [try] and [except]: it ends with the two
    closing records, and its log holds an error record, exactly one, made
    of the message of the exception, if and only if the guarded part
    raised. *)
Theorem run_outcome (sys_argv : list string) (w0 : World) :
  match prologue E sys_argv w0 with
  | (Raise e, w1) => main E sys_argv w0 = (Raise e, w1)
  | (Ok config, w1) =>
      exists evs finish,
        let closing := [EvLog INFO (Text "----------");
                        EvLog INFO (Text ("End: " +:+ finish))] in
        main E sys_argv w0 = (Ok tt, extend w1 (evs ++ closing))
        /\ match body E config w1 with
           | (Ok _, w2) => w2 = extend w1 evs /\ errors_of (evs ++ closing) = []
           | (Raise e, w2) =>
               extend w2 [EvLog ERROR (Text ("- " +:+ e))] = extend w1 evs
               /\ errors_of (evs ++ closing) = [Text ("- " +:+ e)]
           end
  end.
Proof.
  destruct (prologue E sys_argv w0) as [[config | e] w1] eqn:Hpro.
  - pose proof (prologue_logger E _ _ _ _ Hpro) as Hlog.
    destruct (steps_body_no_error config w1 I) as (evs & E1 & F & _).
    pose proof (errors_of_none _ F) as Herr.
    unfold main. rewrite (bind_run_Ok _ _ _ _ _ Hpro).
    unfold bind at 1, try_except.
    destruct (body E config w1) as [[[] | e] w2]; simpl in E1; subst w2.
    + destruct (epilogue_run E config (extend w1 evs) Hlog) as [finish Hepi].
      exists evs, finish. cbv zeta. rewrite Hepi, extend_app.
      split; [done |]. split; [done |]. rewrite errors_of_app, Herr. reflexivity.
    + unfold handler. rewrite (log_call_run config ERROR _ _ Hlog).
      destruct (epilogue_run E config
                  (extend (extend w1 evs) [EvLog ERROR (Text ("- " +:+ e))]) Hlog)
        as [finish Hepi].
      exists (evs ++ [EvLog ERROR (Text ("- " +:+ e))]), finish. cbv zeta.
      rewrite Hepi, !extend_app.
      split; [by rewrite <- app_assoc |]. split; [done |].
      rewrite !errors_of_app, Herr. reflexivity.
  - unfold main. by rewrite (bind_run_Raise _ _ _ _ _ Hpro).
Qed.

End Outcome.

(** ** A failure before the loop *)

Section BeforeLoop.
Context (E : Env).

(** X8.  When a stage before the loop raises (the provisioner, or the
    loader, as it does when [model_config.yaml] is missing), the run logs
    that one error and its two closing records and returns: no directory is
    made, no image read, no inference run, and [result.csv] is not
    written. *)
Theorem failure_before_loop (sys_argv : list string) (config : gmap string value)
  (e : string) (w0 w1 w2 : World) :
  prologue E sys_argv w0 = (Ok config, w1) ->
  setup E config w1 = (Raise e, w2) ->
  (exists finish evs,
      let closing := [EvLog ERROR (Text ("- " +:+ e)); EvLog INFO (Text "----------");
                      EvLog INFO (Text ("End: " +:+ finish))] in
      main E sys_argv w0 = (Ok tt, extend w2 closing)
      /\ w2 = extend w0 evs
      /\ dirs_of (evs ++ closing) = []
      /\ imreads_of (evs ++ closing) = []
      /\ runs_of (evs ++ closing) = []
      /\ ("result.csv" ∉ written_paths (evs ++ closing)))
  /\ (forall c t classifier_path encoder_path w,
        config !! "model_channels" = Some (VStr c) ->
        config !! "model_type" = Some (VStr t) ->
        files w !! Py.path_join "models" [c; t; "model_config.yaml"] = None ->
        load E config classifier_path encoder_path w
        = (Raise ("[Errno 2] No such file or directory: '"
                  +:+ Py.path_join "models" [c; t; "model_config.yaml"] +:+ "'"), w)).
Proof.
  intros Hpro Hsetup. split.
  - pose proof (prologue_logger E _ _ _ _ Hpro) as Hlog.
    destruct (epilogue_run E config (extend w2 [EvLog ERROR (Text ("- " +:+ e))]) Hlog)
      as [finish Hepi].
    destruct (steps_run (fun _ => True) is_info _ _ _ _ (steps_prologue E _ sys_argv) I Hpro)
      as (evs1 & E1 & F1 & _).
    destruct (steps_run (fun _ => True) provision_event _ _ _ _
                (steps_setup E _ (fun _ _ _ _ _ => I) config) I Hsetup)
      as (evs2 & E2 & F2 & _).
    exists finish, (evs1 ++ evs2). cbv zeta.
    set (closing := [EvLog ERROR (Text ("- " +:+ e)); EvLog INFO (Text "----------");
                     EvLog INFO (Text ("End: " +:+ finish))]).
    assert (F : Forall outside_loop_event ((evs1 ++ evs2) ++ closing)).
    { repeat apply Forall_app_2.
      - eapply Forall_impl; [exact F1 |]. intros [] ?; simpl in *; tauto.
      - eapply Forall_impl; [exact F2 |]. intros [[]| | | | |] ?; simpl in *; tauto.
      - subst closing. by repeat constructor. }
    destruct (outside_loop_facts _ F) as (Hi & Hr & Hw & _).
    split.
    { unfold main. rewrite (bind_run_Ok _ _ _ _ _ Hpro).
      unfold bind at 1, try_except, body.
      rewrite (bind_run_Raise _ _ _ _ _ Hsetup). unfold handler.
      rewrite (log_call_run config ERROR _ w2 Hlog), Hepi. by rewrite extend_app. }
    split; [by rewrite E2, E1, extend_app |].
    split; [| by repeat split].
    clear -F. induction F as [|ev evs He _ IH]; [done |]. destruct ev; simpl in *; done.
  - intros c t cp ep w Hc Ht Hnone.
    unfold load, model_file.
    unfold bind at 1. unfold bind at 1. unfold bind at 1.
    unfold config_get. rewrite Hc. unfold ret. unfold bind at 1. rewrite Ht.
    unfold lift, os_path_join. simpl fspaths. cbv iota beta.
    unfold open_r, ask. by rewrite Hnone.
Qed.

End BeforeLoop.

(** ** The provisioner when a download is needed *)


Lemma requests_of_app (evs1 evs2 : list event) :
  requests_of (evs1 ++ evs2) = requests_of evs1 ++ requests_of evs2.
Proof. apply omap_app. Qed.

Section Provisioner.
Context (E : Env) (config : gmap string value) (c t : string).
Hypothesis Hlog : config !! "log" = Some VLogger.
Hypothesis Hc : config !! "model_channels" = Some (VStr c).
Hypothesis Ht : config !! "model_type" = Some (VStr t).

Lemma config_get_run (k : string) (v : value) (w : World) :
  config !! k = Some v -> config_get config k w = (Ok v, w).
Proof. unfold config_get. by intros ->. Qed.

Lemma url_lookup_run (url_info : string -> string -> string -> res string)
  (kind url : string) (w : World) :
  url_info c t kind = Ok url ->
  lift (url_lookup url_info (VStr c) (VStr t) kind) w = (Ok url, w).
Proof. unfold lift, url_lookup. by intros ->. Qed.

Lemma model_file_run (name : string) (w : World) :
  model_file config name w = (Ok (Py.path_join "models" [c; t; name]), w).
Proof.
  unfold model_file, bind, config_get, lift, os_path_join. by rewrite Hc, Ht.
Qed.

Lemma update_needed_run (cp ep : string) (u : value) (w : World) :
  config !! "update_model" = Some u ->
  update_needed config cp ep w = (Ok (download_needed (files w) cp ep u), w).
Proof.
  intros Hu. unfold update_needed, download_needed, os_path_isfile, bind, config_get, ret.
  destruct (bool_decide (is_Some (files w !! cp))); simpl; [| done].
  destruct (bool_decide (is_Some (files w !! ep))); simpl; [| done].
  by rewrite Hu.
Qed.

(** One download whose request is answered, by a refusal or by weights that
    can be stored, returns and has made this one request. *)
Lemma download_returns (url_info : string -> string -> string -> res string)
  (kind name url : string) (response : Response) (w : World) :
  url_info c t kind = Ok url ->
  requests_get E w url = Ok response ->
  (status_code response = 200%Z ->
   open_wb E (extend w [EvGet url]) (Py.path_join "models" [c; t; name]) = Ok tt) ->
  exists evs,
    download E config url_info kind name w = (Ok tt, extend w (EvGet url :: evs))
    /\ requests_of evs = []
    /\ (status_code response <> 200%Z ->
        evs = [EvLog WARNING (Text ("  - " +:+ name +:+ " url not found."))])
    /\ (status_code response = 200%Z ->
        evs = [EvWrite (Py.path_join "models" [c; t; name]) (content response);
               EvLog INFO (Text ("  - " +:+ name +:+ " updated."))]).
Proof.
  intros Hurl Hget Hopen.
  unfold download.
  rewrite (bind_run_Ok _ _ _ _ _ (config_get_run _ _ w Hc)). cbv beta.
  rewrite (bind_run_Ok _ _ _ _ _ (config_get_run _ _ w Ht)). cbv beta.
  rewrite (bind_run_Ok _ _ _ _ _ (url_lookup_run url_info kind url w Hurl)). cbv beta.
  unfold bind at 1, http_get, call. rewrite Hget.
  change {| files := files w; trace := trace w ++ [EvGet url] |} with (extend w [EvGet url]).
  destruct (status_code response =? 200)%Z eqn:Hstatus.
  - apply Z.eqb_eq in Hstatus. specialize (Hopen Hstatus).
    rewrite (bind_run_Ok _ _ _ _ _ (model_file_run name _)).
    unfold write_file, bind, ask. rewrite Hopen.
    rewrite (log_call_run config INFO _ _ Hlog).
    exists [EvWrite (Py.path_join "models" [c; t; name]) (content response);
            EvLog INFO (Text ("  - " +:+ name +:+ " updated."))].
    split; [| by repeat split].
    f_equal. unfold extend. simpl. by rewrite <- !app_assoc.
  - apply Z.eqb_neq in Hstatus.
    rewrite (log_call_run config WARNING _ _ Hlog).
    exists [EvLog WARNING (Text ("  - " +:+ name +:+ " url not found."))].
    rewrite extend_app. by repeat split.
Qed.

(** Any download makes at most the one request for its URL. *)
Lemma download_requests (url_info : string -> string -> string -> res string)
  (kind name url : string) (w : World) :
  url_info c t kind = Ok url ->
  exists evs,
    (download E config url_info kind name w).2 = extend w (EvGet url :: evs)
    /\ requests_of evs = [].
Proof.
  intros Hurl.
  unfold download.
  rewrite (bind_run_Ok _ _ _ _ _ (config_get_run _ _ w Hc)). cbv beta.
  rewrite (bind_run_Ok _ _ _ _ _ (config_get_run _ _ w Ht)). cbv beta.
  rewrite (bind_run_Ok _ _ _ _ _ (url_lookup_run url_info kind url w Hurl)). cbv beta.
  unfold bind at 1, http_get, call.
  change {| files := files w; trace := trace w ++ [EvGet url] |} with (extend w [EvGet url]).
  destruct (requests_get E w url) as [response | e].
  - assert (Hk : steps (fun _ => True) (fun e => ~ is_request e)
                   (if (status_code response =? 200)%Z
                    then path <- model_file config name;;
                         write_file E path (content response);;;
                         log_call config INFO (Text ("  - " +:+ name +:+ " updated."))
                    else log_call config WARNING
                           (Text ("  - " +:+ name +:+ " url not found.")))).
    { steps_with ltac:(first [ apply steps_model_file
                             | apply steps_write_file; [by intros [] | done] ]). }
    destruct (Hk (extend w [EvGet url]) I) as (evs & E1 & F & _).
    exists evs. rewrite E1, extend_app. split; [done | by apply requests_of_none].
  - exists []. by split.
Qed.

(** X9.  When a download is needed, because either weight file is missing
    or an update is asked for, both files are fetched, first the classifier
    and then the encoder, also when only one of them is missing; the answer
    to the first request, weights stored or a refusal, does not keep the
    second from being made; and no other request is made. *)
Theorem both_weight_files_fetched
  (url_info : string -> string -> string -> res string) (u : value)
  (text classifier_url encoder_url : string) (response : Response) (w : World) :
  let classifier_path := Py.path_join "models" [c; t; "classifier.pth"] in
  let encoder_path := Py.path_join "models" [c; t; "encoder.pth"] in
  let w1 := extend w [EvLog INFO (Text "- Downloading models...")] in
  config !! "update_model" = Some u ->
  download_needed (files w) classifier_path encoder_path u = true ->
  files w !! "models_urls.yaml" = Some text ->
  safe_load_urls E text = Ok url_info ->
  url_info c t "classifier" = Ok classifier_url ->
  url_info c t "encoder" = Ok encoder_url ->
  requests_get E w1 classifier_url = Ok response ->
  (status_code response = 200%Z ->
   open_wb E (extend w1 [EvGet classifier_url]) classifier_path = Ok tt) ->
  exists evs,
    (provision E config w).2 = extend w evs
    /\ requests_of evs = [classifier_url; encoder_url].
Proof.
  intros cp ep w1 Hu Hneed Hfile Hload Hcu Heu Hget Hopen.
  destruct (download_returns url_info "classifier" "classifier.pth" classifier_url
              response w1 Hcu Hget Hopen) as (evs1 & Hd1 & Hr1 & _ & _).
  destruct (download_requests url_info "encoder" "encoder.pth" encoder_url
              (extend w1 (EvGet classifier_url :: evs1)) Heu) as (evs2 & Hd2 & Hr2).
  exists ([EvLog INFO (Text "- Downloading models...")]
            ++ (EvGet classifier_url :: evs1) ++ (EvGet encoder_url :: evs2)).
  split.
  - unfold provision.
    rewrite (bind_run_Ok _ _ _ _ _ (model_file_run "classifier.pth" w)). cbv beta.
    rewrite (bind_run_Ok _ _ _ _ _ (model_file_run "encoder.pth" w)). cbv beta.
    rewrite (bind_run_Ok _ _ _ _ _ (update_needed_run cp ep u w Hu)). cbv beta.
    fold cp ep. rewrite Hneed.
    unfold bind at 1. unfold bind at 1.
    rewrite (log_call_run config INFO _ w Hlog). fold w1.
    unfold bind at 1, open_r, ask. simpl files. rewrite Hfile.
    unfold bind at 1, lift. rewrite Hload.
    unfold bind at 1. rewrite Hd1.
    rewrite <- !extend_app. fold w1. rewrite <- Hd2.
    by destruct (download E config url_info "encoder" "encoder.pth"
                   (extend w1 (EvGet classifier_url :: evs1))) as [[[] | e] w3].
  - rewrite !requests_of_app.
    change (requests_of (EvGet classifier_url :: evs1))
      with (classifier_url :: requests_of evs1).
    change (requests_of (EvGet encoder_url :: evs2))
      with (encoder_url :: requests_of evs2).
    by rewrite Hr1, Hr2.
Qed.

(** X10.  When both URLs answer with a status other than 200, the
    provisioner neither raises nor writes: it logs two warnings and returns
    the two paths, and the run goes on with whatever is, or is not, at
    them. *)
Theorem refused_downloads_pass_silently
  (url_info : string -> string -> string -> res string) (u : value)
  (text classifier_url encoder_url : string) (r1 r2 : Response) (w : World) :
  let classifier_path := Py.path_join "models" [c; t; "classifier.pth"] in
  let encoder_path := Py.path_join "models" [c; t; "encoder.pth"] in
  let w1 := extend w [EvLog INFO (Text "- Downloading models...")] in
  let w2 := extend w1 [EvGet classifier_url;
                       EvLog WARNING (Text "  - classifier.pth url not found.")] in
  config !! "update_model" = Some u ->
  download_needed (files w) classifier_path encoder_path u = true ->
  files w !! "models_urls.yaml" = Some text ->
  safe_load_urls E text = Ok url_info ->
  url_info c t "classifier" = Ok classifier_url ->
  url_info c t "encoder" = Ok encoder_url ->
  requests_get E w1 classifier_url = Ok r1 ->
  status_code r1 <> 200%Z ->
  requests_get E w2 encoder_url = Ok r2 ->
  status_code r2 <> 200%Z ->
  provision E config w
  = (Ok (classifier_path, encoder_path),
     extend w [EvLog INFO (Text "- Downloading models...");
               EvGet classifier_url;
               EvLog WARNING (Text "  - classifier.pth url not found.");
               EvGet encoder_url;
               EvLog WARNING (Text "  - encoder.pth url not found.")])
  /\ files (provision E config w).2 = files w.
Proof.
  intros cp ep w1 w2 Hu Hneed Hfile Hload Hcu Heu Hget1 Hs1 Hget2 Hs2.
  destruct (download_returns url_info "classifier" "classifier.pth" classifier_url
              r1 w1 Hcu Hget1 (fun H => False_ind _ (Hs1 H))) as (evs1 & Hd1 & _ & He1 & _).
  rewrite (He1 Hs1) in Hd1. clear He1.
  change ("  - " +:+ "classifier.pth" +:+ " url not found.")
    with "  - classifier.pth url not found." in Hd1.
  destruct (download_returns url_info "encoder" "encoder.pth" encoder_url
              r2 w2 Heu Hget2 (fun H => False_ind _ (Hs2 H))) as (evs2 & Hd2 & _ & He2 & _).
  rewrite (He2 Hs2) in Hd2. clear He2.
  change ("  - " +:+ "encoder.pth" +:+ " url not found.")
    with "  - encoder.pth url not found." in Hd2.
  assert (Hrun : provision E config w
                 = (Ok (cp, ep),
                    extend w [EvLog INFO (Text "- Downloading models...");
                              EvGet classifier_url;
                              EvLog WARNING (Text "  - classifier.pth url not found.");
                              EvGet encoder_url;
                              EvLog WARNING (Text "  - encoder.pth url not found.")])).
  { unfold provision.
    rewrite (bind_run_Ok _ _ _ _ _ (model_file_run "classifier.pth" w)). cbv beta.
    rewrite (bind_run_Ok _ _ _ _ _ (model_file_run "encoder.pth" w)). cbv beta.
    rewrite (bind_run_Ok _ _ _ _ _ (update_needed_run cp ep u w Hu)). cbv beta.
    fold cp ep. rewrite Hneed.
    unfold bind at 1. unfold bind at 1.
    rewrite (log_call_run config INFO _ w Hlog). fold w1.
    unfold bind at 1, open_r, ask. simpl files. rewrite Hfile.
    unfold bind at 1, lift. rewrite Hload.
    unfold bind at 1. rewrite Hd1. unfold w2 in Hd2. rewrite Hd2.
    unfold w1. by rewrite !extend_app. }
  split; [exact Hrun |]. by rewrite Hrun.
Qed.

(** X11.  When a download is needed and [models_urls.yaml] is missing, the
    provisioner raises the error of the failed [open] right after its
    "Downloading" record: no request is made and no file is written. *)
Theorem missing_url_table_raises (u : value) (w : World) :
  config !! "update_model" = Some u ->
  download_needed (files w)
    (Py.path_join "models" [c; t; "classifier.pth"])
    (Py.path_join "models" [c; t; "encoder.pth"]) u = true ->
  files w !! "models_urls.yaml" = None ->
  provision E config w
  = (Raise "[Errno 2] No such file or directory: 'models_urls.yaml'",
     extend w [EvLog INFO (Text "- Downloading models...")]).
Proof.
  intros Hu Hneed Hfile. unfold provision.
  rewrite (bind_run_Ok _ _ _ _ _ (model_file_run "classifier.pth" w)). cbv beta.
  rewrite (bind_run_Ok _ _ _ _ _ (model_file_run "encoder.pth" w)). cbv beta.
  rewrite (bind_run_Ok _ _ _ _ _ (update_needed_run _ _ u w Hu)). cbv beta.
  rewrite Hneed.
  unfold bind at 1. unfold bind at 1.
  rewrite (log_call_run config INFO _ w Hlog).
  unfold bind at 1, open_r, ask. simpl files. by rewrite Hfile.
Qed.



End Provisioner.

(** ** The configuration stage as a whole *)

Section Configuration.
Context (E : Env).

(** The command line as the script reads it: nothing when [sys.argv] holds
    the script name only. *)
Lemma resolve_config_run (sys_argv : list string) (w : World) :
  resolve_config E sys_argv w
  = match (if (1 <? length sys_argv)%nat then parse_args E (tail sys_argv) else Ok ∅) with
    | Raise e => (Raise e, w)
    | Ok cli =>
        match files w !! "config.yaml" with
        | None => (Raise "[Errno 2] No such file or directory: 'config.yaml'", w)
        | Some text =>
            match safe_load_config E text with
            | Raise e => (Raise e, w)
            | Ok contents =>
                (Ok (dict_or (dict_or default_config cli) (default ∅ contents)), w)
            end
        end
    end.
Proof.
  unfold resolve_config, bind, open_r, ask, lift, ret.
  assert (Hl : forall a : gmap string value, dict_or a ∅ = a).
  { intros a. unfold dict_or. by rewrite (left_id_L ∅ (∪)). }
  destruct (1 <? length sys_argv)%nat.
  - destruct (parse_args E (tail sys_argv)) as [cli | e]; [| done].
    destruct (files w !! "config.yaml") as [text |]; [| done].
    destruct (safe_load_config E text) as [[c |] | e]; simpl; [| by rewrite Hl | done].
    case_bool_decide as Hempty; [| done]. subst c. by rewrite Hl.
  - rewrite Hl.
    destruct (files w !! "config.yaml") as [text |]; [| done].
    destruct (safe_load_config E text) as [[c |] | e]; simpl; [| by rewrite Hl | done].
    case_bool_decide as Hempty; [| done]. subst c. by rewrite Hl.
Qed.

Lemma prologue_raise (sys_argv : list string) (e : string) (w : World) :
  resolve_config E sys_argv w = (Raise e, w) -> main E sys_argv w = (Raise e, w).
Proof.
  intros H. unfold main, prologue.
  by rewrite (bind_run_Raise _ _ _ _ _ (bind_run_Raise _ _ _ _ _ H)).
Qed.

(** X13.  Without [config.yaml] the script stops before it has logged
    anything, with an exception that nothing catches: the error of the
    failed [open], unless the command line was refused first. *)
Theorem missing_config_file_aborts (sys_argv : list string) (w : World) :
  files w !! "config.yaml" = None ->
  exists e,
    main E sys_argv w = (Raise e, w)
    /\ (e = "[Errno 2] No such file or directory: 'config.yaml'"
        \/ ((1 < length sys_argv)%nat /\ argv_options E (tail sys_argv) = Raise e)).
Proof.
  intros Hfile. pose proof (resolve_config_run sys_argv w) as Hrun.
  rewrite Hfile in Hrun. unfold parse_args in Hrun.
  destruct (1 <? length sys_argv)%nat eqn:Hlen.
  - apply Nat.ltb_lt in Hlen.
    destruct (argv_options E (tail sys_argv)) as [ps | e] eqn:Hps.
    + eexists. split; [by apply prologue_raise | by left].
    + exists e. split; [by apply prologue_raise | right; by split].
  - eexists. split; [by apply prologue_raise | by left].
Qed.

(** X14.  The key [log] of [config.yaml] replaces the logger like any other
    key.  When it holds something else, the first log call raises an
    [AttributeError] outside [try]: the script stops with nothing logged,
    unless the command line was refused first. *)
Theorem replaced_logger_aborts (sys_argv : list string) (w : World)
  (text : string) (file : gmap string value) (v : value) :
  files w !! "config.yaml" = Some text ->
  safe_load_config E text = Ok (Some file) ->
  file !! "log" = Some v ->
  v <> VLogger ->
  exists e,
    main E sys_argv w = (Raise e, w)
    /\ (e = "'" +:+ type_name v +:+ "' object has no attribute 'info'"
        \/ ((1 < length sys_argv)%nat /\ argv_options E (tail sys_argv) = Raise e)).
Proof.
  intros Hfile Hload Hlog Hv. pose proof (resolve_config_run sys_argv w) as Hrun.
  rewrite Hfile, Hload in Hrun. unfold parse_args in Hrun. simpl in Hrun.
  assert (Hstop : forall cli,
             resolve_config E sys_argv w
             = (Ok (dict_or (dict_or default_config cli) file), w) ->
             main E sys_argv w
             = (Raise ("'" +:+ type_name v +:+ "' object has no attribute 'info'"), w)).
  { intros cli H. unfold main, prologue. unfold bind at 1.
    rewrite (bind_run_Ok _ _ _ _ _ H). cbv beta.
    unfold get_now, bind at 1. unfold bind at 1, log_call, bind at 1, config_get.
    assert (Hl : dict_or (dict_or default_config cli) file !! "log" = Some v).
    { unfold dict_or. by apply lookup_union_Some_l. }
    rewrite Hl. by destruct v. }
  destruct (1 <? length sys_argv)%nat eqn:Hlen.
  - apply Nat.ltb_lt in Hlen.
    destruct (argv_options E (tail sys_argv)) as [ps | e] eqn:Hps.
    + eexists. split; [by eapply Hstop | by left].
    + exists e. split; [by apply prologue_raise | right; by split].
  - eexists. split; [by eapply Hstop | by left].
Qed.

End Configuration.

(** X15.  A command line changes nothing but the options it passes.  The
    namespace of [argparse] holds all four options, so it overrides all four
    defaults; since each option is declared with the default the script
    starts from, an option that is not passed keeps that default, the logger
    is never touched and no key is added. *)
Theorem command_line_keeps_defaults (ps : list (dest * string)) :
  dict_or default_config (namespace ps) !! "log" = Some VLogger
  /\ dom (dict_or default_config (namespace ps)) = dom default_config
  /\ (forall d, namespace ps !! dest_name d = Some (arg_value d ps))
  /\ (forall d s, (d, s) ∈ ps ->
        exists s', (d, s') ∈ ps
                   /\ dict_or default_config (namespace ps) !! dest_name d
                      = Some (arg_type d s'))
  /\ (forall d, (forall s, (d, s) ∉ ps) ->
        dict_or default_config (namespace ps) !! dest_name d
        = default_config !! dest_name d).
Proof.
  assert (Hns : forall d, dict_or default_config (namespace ps) !! dest_name d
                          = Some (arg_value d ps)).
  { intros d. unfold dict_or. apply lookup_union_Some_l, namespace_lookup. }
  split.
  { unfold dict_or. rewrite lookup_union_r; [done |].
    unfold namespace. by rewrite !lookup_insert_ne. }
  split.
  { unfold dict_or, namespace, default_config. rewrite dom_union_L, !dom_insert_L.
    set_solver. }
  split; [apply namespace_lookup |].
  split.
  - intros d s Hin. rewrite Hns. unfold arg_value.
    destruct (last_passed d ps) as [s' |] eqn:Hlast.
    + exists s'. split; [by apply last_passed_Some | done].
    + by apply last_passed_None with (s := s) in Hlast.
  - intros d Hnone. rewrite Hns. unfold arg_value.
    destruct (last_passed d ps) as [s' |] eqn:Hlast.
    + apply last_passed_Some in Hlast. by apply Hnone in Hlast.
    + by destruct d.
Qed.

(** ** Ties among the probabilities *)

(** The top-1 class is the first position of the maximum. *)
Lemma max_location_class_first (l : list Q) :
  l <> [] ->
  exists i,
    max_location_class l = Ok i
    /\ (i < length l)%nat
    /\ (forall j, (j < length l)%nat -> (prob_at l j <= prob_at l i)%Q)
    /\ (forall j, (j < i)%nat -> (prob_at l j < prob_at l i)%Q).
Proof.
  destruct l as [|a l]; [done |]. intros _.
  unfold max_location_class, Py.max, Py.index, prob_at.
  destruct (max_from_spec (a :: l) a) as (_ & Hall & Hin).
  assert (Hr : Py.max_from a (a :: l) = Py.max_from a l).
  { unfold Py.max_from; simpl.
    replace (Qgt_bool a a) with false; [done |].
    symmetry. apply Qgt_bool_false, Qle_refl. }
  rewrite Hr in Hall, Hin. set (r := Py.max_from a l) in *.
  destruct (index_from_spec r (a :: l) 0) as (j & Hj1 & Hj2 & Hj3 & Hj4).
  { exists r. split; [| reflexivity].
    destruct Hin as [-> | Hin]; [by left | exact Hin]. }
  exists j. simpl in Hj1. split; [exact Hj1 |]. split; [exact Hj2 |].
  split.
  - intros k Hk. rewrite Hj3. by apply nth_le_of_Forall.
  - intros k Hk. rewrite Hj3.
    assert (Hle : (nth k (a :: l) 0 <= r)%Q) by (apply nth_le_of_Forall; [done | lia]).
    apply Qle_lt_or_eq in Hle as [Hlt | Heq]; [exact Hlt |].
    by apply Hj4 in Hk.
Qed.

(** The head of the top-3 read in descending order is the last position of
    the stable sort: every other position comes before it. *)
Lemma top_3_descending_head (l : list Q) :
  (3 <= length l)%nat ->
  exists a b c,
    top_3_descending l = [a; b; c]
    /\ (a < length l)%nat
    /\ (forall j, (j < length l)%nat -> j <> a -> before l j a).
Proof.
  intros Hlen. unfold top_3_descending, max_3_location_classes.
  destruct (sorted_is_stable_ascending_sort l) as [Hp Hs].
  set (s := Py.sorted (Py.range (length l)) (prob_at l)) in *.
  assert (Hls : length s = length l) by (by rewrite Hp, length_seq).
  destruct (last_3_inv s) as (pre & x & y & z & Hsplit & Hlast); [lia |].
  exists z, y, x. rewrite Hlast. split; [done |].
  rewrite Hsplit in Hs, Hp.
  apply StronglySorted_app in Hs as (Hpre & _ & Hs3).
  apply StronglySorted_cons in Hs3 as [Hx Hs3].
  apply StronglySorted_cons in Hs3 as [Hy _].
  apply Forall_cons in Hx as [_ Hx]. apply Forall_cons in Hx as [Hxz _].
  apply Forall_cons in Hy as [Hyz _].
  split.
  { assert (Hz : z ∈ seq 0 (length l)).
    { rewrite <- Hp. apply elem_of_app. right. set_solver. }
    apply elem_of_seq in Hz. lia. }
  intros j Hj Hne.
  assert (Hj' : j ∈ pre ++ [x; y; z]) by (rewrite Hp; apply elem_of_seq; lia).
  apply elem_of_app in Hj' as [Hj' | Hj'].
  - apply Hpre; [exact Hj' | set_solver].
  - repeat (apply elem_of_cons in Hj' as [-> | Hj']); try done.
    by apply elem_of_nil in Hj'.
Qed.

(** X16.  When several classes share the highest probability, the top-1
    class is the first of them and the class that leads the top-3 names is
    the last of them: the two hold the same probability, the positions of
    that probability lie between them, and they are the same class exactly
    when the maximum is reached once.  For [0.5, 0.5, 0.1] the top-1 class
    is 0 and the top-3 classes read 1, 0, 2. *)
Theorem tied_maximum_first_and_last :
  (forall curr_probs_l : list Q,
      (3 <= length curr_probs_l)%nat ->
      exists i a b c,
        max_location_class curr_probs_l = Ok i
        /\ top_3_descending curr_probs_l = [a; b; c]
        /\ (prob_at curr_probs_l a == prob_at curr_probs_l i)%Q
        /\ (forall j, (j < length curr_probs_l)%nat ->
              (prob_at curr_probs_l j == prob_at curr_probs_l i)%Q ->
              (i <= j <= a)%nat)
        /\ (i = a <->
            forall j, (j < length curr_probs_l)%nat -> j <> i ->
                      (prob_at curr_probs_l j < prob_at curr_probs_l i)%Q))
  /\ max_location_class [1#2; 1#2; 1#10]%Q = Ok 0%nat
  /\ top_3_descending [1#2; 1#2; 1#10]%Q = [1; 0; 2]%nat.
Proof.
  split; [| split; reflexivity].
  intros l Hlen.
  destruct (max_location_class_first l) as (i & Hi & Hil & Hmax & Hfirst).
  { intros ->. simpl in Hlen. lia. }
  destruct (top_3_descending_head l Hlen) as (a & b & c & Htop & Hal & Hlast).
  exists i, a, b, c. split; [exact Hi |]. split; [exact Htop |].
  assert (Heq : (prob_at l a == prob_at l i)%Q).
  { apply Qle_antisym; [by apply Hmax |].
    destruct (decide (i = a)) as [-> | Hne]; [apply Qle_refl |].
    by apply before_le, Hlast. }
  assert (Hbetween : forall j, (j < length l)%nat ->
                               (prob_at l j == prob_at l i)%Q -> (i <= j <= a)%nat).
  { intros j Hj Hji. split.
    - destruct (decide (i <= j)%nat) as [Hle | Hgt]; [exact Hle |].
      assert (Hlt : (prob_at l j < prob_at l i)%Q) by (apply Hfirst; lia).
      rewrite Hji in Hlt. by apply Qlt_irrefl in Hlt.
    - destruct (decide (j = a)) as [-> | Hne]; [lia |].
      destruct (Hlast j Hj Hne) as [Hlt | [_ Hlt]]; [| lia].
      rewrite Hji, <- Heq in Hlt. by apply Qlt_irrefl in Hlt. }
  split; [exact Heq |]. split; [exact Hbetween |].
  split.
  - intros <- j Hj Hne.
    pose proof (Hmax j Hj) as Hle.
    apply Qle_lt_or_eq in Hle as [Hlt | Hji]; [exact Hlt |].
    apply Hbetween in Hji; [lia | exact Hj].
  - intros Huniq. destruct (decide (i = a)) as [-> | Hne]; [done |].
    assert (Hlt : (prob_at l a < prob_at l i)%Q) by (apply Huniq; [done | congruence]).
    rewrite Heq in Hlt. by apply Qlt_irrefl in Hlt.
Qed.

(** ** Columns and cells *)

Lemma lookup_nth_lt (l : list Q) (i : nat) :
  (i < length l)%nat -> l !! i = Some (nth i l 0%Q).
Proof.
  intros H. destruct (lookup_lt_is_Some_2 l i H) as [x Hx].
  rewrite Hx. f_equal. symmetry. by apply nth_lookup_Some.
Qed.

Lemma final_columns_lookup_prob (i : nat) :
  (i < 31)%nat -> final_columns !! (5 + i)%nat = Some ("prob" +:+ Py.format_0d 2 i).
Proof.
  intros Hi. unfold final_columns.
  rewrite lookup_app_r by (simpl; lia).
  replace (5 + i - length ["id"; "top_class_name"; "top_class"; "top_3_classes_names";
                           "top_3_classes"])%nat with i by (simpl; lia).
  rewrite lookup_app_l by (unfold prob_columns, Py.range; rewrite length_map, length_seq; lia).
  unfold prob_columns, Py.range. rewrite list_lookup_fmap, lookup_seq_lt by lia. done.
Qed.

Lemma final_columns_lookup_feat (j : nat) :
  (j < 1536)%nat -> final_columns !! (36 + j)%nat = Some ("feat" +:+ Py.format_0d 4 j).
Proof.
  intros Hj. unfold final_columns.
  rewrite lookup_app_r by (simpl; lia).
  rewrite lookup_app_r by (unfold prob_columns, Py.range; rewrite length_map, length_seq;
                           simpl; lia).
  replace (36 + j - length ["id"; "top_class_name"; "top_class"; "top_3_classes_names";
                            "top_3_classes"] - length prob_columns)%nat with j
    by (unfold prob_columns, Py.range; rewrite length_map, length_seq; simpl; lia).
  unfold feat_columns, Py.range. rewrite list_lookup_fmap, lookup_seq_lt by lia. done.
Qed.

(** X17.  The columns of the table and the cells of a row line up only
    through their positions.  When the model returns 31 probabilities and
    1536 features, probability [i] sits under [prob] followed by [i] in two
    digits and feature [j] under [feat] followed by [j] in four digits.  The
    row is checked for its length only: with 30 probabilities and 1537
    features it is accepted as well, and its first feature sits under
    [prob30]. *)
Theorem cells_line_up_with_columns (id name names : string) (top : nat)
  (max_3 : list nat) (probabilities embedding : list Q) :
  let row := new_row id name top names max_3 probabilities embedding in
  (length probabilities = 31%nat -> length embedding = 1536%nat ->
   length row = length final_columns
   /\ (forall i, (i < 31)%nat ->
         final_columns !! (5 + i)%nat = Some ("prob" +:+ Py.format_0d 2 i)
         /\ row !! (5 + i)%nat = Some (CNum (nth i probabilities 0%Q)))
   /\ (forall j, (j < 1536)%nat ->
         final_columns !! (36 + j)%nat = Some ("feat" +:+ Py.format_0d 4 j)
         /\ row !! (36 + j)%nat = Some (CNum (nth j embedding 0%Q))))
  /\ (length probabilities = 30%nat -> length embedding = 1537%nat ->
      (forall d, columns d = final_columns ->
         df_append (Some d) row
         = Ok (Some {| columns := columns d; rows := rows d ++ [row] |}))
      /\ final_columns !! 35%nat = Some "prob30"
      /\ row !! 35%nat = Some (CNum (nth 0 embedding 0%Q))).
Proof.
  intros row. subst row. unfold new_row. split.
  - intros Hp He. split.
    { rewrite final_columns_length, !length_app, !length_map. simpl. lia. }
    split.
    + intros i Hi. split; [by apply final_columns_lookup_prob |].
      rewrite lookup_app_r by (simpl; lia).
      replace (5 + i - _)%nat with i by (simpl; lia).
      rewrite lookup_app_l by (rewrite length_map; lia).
      rewrite list_lookup_fmap.
      rewrite (lookup_nth_lt probabilities i) by lia. done.
    + intros j Hj. split; [by apply final_columns_lookup_feat |].
      rewrite lookup_app_r by (simpl; lia).
      rewrite lookup_app_r by (rewrite length_map; simpl; lia).
      replace (36 + j - _ - _)%nat with j by (rewrite length_map; simpl; lia).
      rewrite list_lookup_fmap.
      rewrite (lookup_nth_lt embedding j) by lia. done.
  - intros Hp He. split.
    { intros d Hd. unfold df_append. rewrite Hd, final_columns_length.
      rewrite !length_app, !length_map, Hp, He. reflexivity. }
    split; [exact (final_columns_lookup_prob 30 ltac:(lia)) |].
    rewrite lookup_app_r by (simpl; lia).
    rewrite lookup_app_r by (rewrite length_map; simpl; lia).
    replace (35 - _ - _)%nat with 0%nat by (rewrite length_map; simpl; lia).
    rewrite list_lookup_fmap.
    rewrite (lookup_nth_lt embedding 0) by lia. done.
Qed.

(** * The further properties on sample runs *)

Lemma short_row_raises_witness :
  retained Sample3.short_line = true
  /\ (length (Py.split "," Sample3.short_line) < 6)%nat
  /\ exists e evs,
       process_row Sample.env Sample.config tt Sample.table Sample3.short_line
         Sample.after_setup.2
       = (Raise e, extend Sample.after_setup.2 evs)
       /\ Forall dir_or_read_event evs
       /\ ((length (Py.split "," Sample3.short_line) <= 4)%nat ->
           e = "list index out of range" /\ evs = []).
Proof.
  assert (H1 : retained Sample3.short_line = true) by (vm_compute; reflexivity).
  assert (H2 : (length (Py.split "," Sample3.short_line) < 6)%nat) by (vm_compute; lia).
  split; [exact H1 |]. split; [exact H2 |].
  exact (short_row_raises Sample.env Sample.config tt Sample.table Sample3.short_line
           Sample.after_setup.2 H1 H2).
Defined.

Lemma processed_row_effects_witness :
  Sample.config !! "model_channels" = Some (VStr "rb")
  /\ retained Sample3.spaced_line = true
  /\ process_row Sample.env Sample.config tt (Some Sample2.empty_table) Sample3.spaced_line
       Sample2.after_setup.2
     = (Ok Sample3.table_after_spaced_line, Sample3.after_spaced_line.2)
  /\ exists out_dir out_name max_3_names embedding probabilities,
       Py.split "," Sample3.spaced_line !! 4%nat = Some out_dir
       /\ Py.split "," Sample3.spaced_line !! 5%nat = Some out_name
       /\ Sample3.after_spaced_line.2
          = extend Sample2.after_setup.2
              ([EvMakedirs (Py.strip out_dir)]
                 ++ map EvImread (selected_paths "rb" (Py.split "," Sample3.spaced_line))
                 ++ [EvRunModel (Py.path_join out_dir [Py.strip out_name]);
                     EvLog INFO (Text ("- Saved results for " +:+ Py.strip out_name
                                       +:+ ", locations predicted [" +:+ max_3_names
                                       +:+ "]"))])
       /\ files Sample3.after_spaced_line.2 = files Sample2.after_setup.2
       /\ (exists w1 cell_data,
              run_model Sample.env w1 tt cell_data
                (Py.path_join out_dir [Py.strip out_name])
              = Ok (embedding, probabilities))
       /\ (3 <= length probabilities)%nat.
Proof.
  assert (H1 : Sample.config !! "model_channels" = Some (VStr "rb"))
    by (vm_compute; reflexivity).
  assert (H2 : retained Sample3.spaced_line = true) by (vm_compute; reflexivity).
  assert (H3 : process_row Sample.env Sample.config tt (Some Sample2.empty_table)
                 Sample3.spaced_line Sample2.after_setup.2
               = (Ok Sample3.table_after_spaced_line, Sample3.after_spaced_line.2))
    by (vm_compute; reflexivity).
  split; [exact H1 |]. split; [exact H2 |]. split; [exact H3 |].
  exact (processed_row_effects Sample.env Sample.config "rb" H1 tt
           (Some Sample2.empty_table) Sample3.table_after_spaced_line Sample3.spaced_line
           Sample2.after_setup.2 Sample3.after_spaced_line.2 H2 H3).
Defined.

Lemma rows_processed_in_manifest_order_witness :
  Sample.config !! "model_channels" = Some (VStr "rb")
  /\ process_rows Sample.env Sample.config tt Sample2.lines (Some Sample2.empty_table)
       Sample2.after_setup.2
     = (Ok Sample2.table_after_rows, Sample2.after_rows.2)
  /\ exists evs,
       Sample2.after_rows.2 = extend Sample2.after_setup.2 evs
       /\ files Sample2.after_rows.2 = files Sample2.after_setup.2
       /\ dirs_of evs = map row_dir (filter retained Sample2.lines)
       /\ imreads_of evs
          = concat (map (fun l => selected_paths "rb" (Py.split "," l))
                      (filter retained Sample2.lines))
       /\ runs_of evs = map row_stem (filter retained Sample2.lines)
       /\ length (logs_of evs) = length (filter retained Sample2.lines)
       /\ Forall (fun r => r.1 = INFO) (logs_of evs).
Proof.
  assert (H1 : Sample.config !! "model_channels" = Some (VStr "rb"))
    by (vm_compute; reflexivity).
  assert (H2 : process_rows Sample.env Sample.config tt Sample2.lines
                 (Some Sample2.empty_table) Sample2.after_setup.2
               = (Ok Sample2.table_after_rows, Sample2.after_rows.2))
    by (vm_compute; reflexivity).
  split; [exact H1 |]. split; [exact H2 |].
  exact (rows_processed_in_manifest_order Sample.env Sample.config "rb" H1 tt Sample2.lines
           (Some Sample2.empty_table) Sample2.table_after_rows
           Sample2.after_setup.2 Sample2.after_rows.2 H2).
Defined.

Lemma result_written_once_at_end_witness :
  Sample.config !! "create_csv" = Some (VBool true)
  /\ files Sample2.after_setup.2 !! "./path_list.csv" = Some Sample2.manifest
  /\ process_rows Sample.env Sample.config tt (Py.file_lines Sample2.manifest)
       (Some Sample2.empty_table) Sample2.after_setup.2
     = (Ok Sample2.table_after_rows, Sample2.after_rows.2)
  /\ exists d' evs,
       Sample2.table_after_rows = Some d'
       /\ columns d' = final_columns
       /\ length (rows d')
          = (length (rows Sample2.empty_table)
             + length (filter retained (Py.file_lines Sample2.manifest)))%nat
       /\ Sample2.after_rows.2 = extend Sample2.after_setup.2 evs
       /\ written_paths evs = []
       /\ batch Sample.env Sample.config tt (Some Sample2.empty_table) Sample2.after_setup.2
          = (Ok tt, extend Sample2.after_setup.2
                      (evs ++ [EvWrite "result.csv" (to_csv Sample.env d')]))
       /\ files (batch Sample.env Sample.config tt (Some Sample2.empty_table)
                   Sample2.after_setup.2).2 !! "result.csv"
          = Some (to_csv Sample.env d').
Proof.
  assert (H1 : Sample.config !! "create_csv" = Some (VBool true))
    by (vm_compute; reflexivity).
  assert (H2 : files Sample2.after_setup.2 !! "./path_list.csv" = Some Sample2.manifest)
    by (vm_compute; reflexivity).
  assert (H3 : process_rows Sample.env Sample.config tt (Py.file_lines Sample2.manifest)
                 (Some Sample2.empty_table) Sample2.after_setup.2
               = (Ok Sample2.table_after_rows, Sample2.after_rows.2))
    by (vm_compute; reflexivity).
  split; [exact H1 |]. split; [exact H2 |]. split; [exact H3 |].
  exact (result_written_once_at_end Sample.env Sample.config tt (VBool true)
           Sample2.empty_table Sample2.table_after_rows Sample2.manifest
           Sample2.after_setup.2 Sample2.after_rows.2 H1 eq_refl eq_refl H2 H3 eq_refl).
Defined.

Lemma csv_mode_off_no_result_witness :
  prologue Sample.env Sample3.sys_argv_rb Sample3.world_plain
  = (Ok Sample3.config_plain, Sample3.after_prologue_plain.2)
  /\ Sample3.config_plain !! "create_csv" = Some (VBool false)
  /\ (forall w, new_table Sample3.config_plain w = (Ok None, w))
  /\ (forall df w, save_csv Sample.env Sample3.config_plain df w = (Ok tt, w))
  /\ exists evs,
       (main Sample.env Sample3.sys_argv_rb Sample3.world_plain).2
       = extend Sample3.world_plain evs
       /\ Forall (fun e => ~ writes_to "result.csv" e) evs
       /\ ("result.csv" ∉ written_paths evs)
       /\ files (main Sample.env Sample3.sys_argv_rb Sample3.world_plain).2 !! "result.csv"
          = files Sample3.world_plain !! "result.csv".
Proof.
  assert (H1 : prologue Sample.env Sample3.sys_argv_rb Sample3.world_plain
               = (Ok Sample3.config_plain, Sample3.after_prologue_plain.2))
    by (vm_compute; reflexivity).
  assert (H2 : Sample3.config_plain !! "create_csv" = Some (VBool false))
    by (vm_compute; reflexivity).
  split; [exact H1 |]. split; [exact H2 |].
  exact (csv_mode_off_no_result Sample.env Sample3.sys_argv_rb Sample3.config_plain
           (VBool false) Sample3.world_plain Sample3.after_prologue_plain.2 H1 H2 eq_refl).
Defined.

Lemma both_weight_files_fetched_witness :
  download_needed (files Sample2.world_no_encoder)
    (Py.path_join "models" ["rb"; "mae_contrast_supcon_model"; "classifier.pth"])
    (Py.path_join "models" ["rb"; "mae_contrast_supcon_model"; "encoder.pth"])
    (VBool false) = true
  /\ is_Some (files Sample2.world_no_encoder
                !! Py.path_join "models" ["rb"; "mae_contrast_supcon_model"; "classifier.pth"])
  /\ exists evs,
       (provision Sample.env Sample.config Sample2.world_no_encoder).2
       = extend Sample2.world_no_encoder evs
       /\ requests_of evs = [Sample3.classifier_url; Sample3.encoder_url].
Proof.
  assert (H1 : download_needed (files Sample2.world_no_encoder)
                 (Py.path_join "models" ["rb"; "mae_contrast_supcon_model"; "classifier.pth"])
                 (Py.path_join "models" ["rb"; "mae_contrast_supcon_model"; "encoder.pth"])
                 (VBool false) = true) by (vm_compute; reflexivity).
  split; [exact H1 |].
  split; [exists "old classifier weights"; vm_compute; reflexivity |].
  refine (both_weight_files_fetched Sample.env Sample.config "rb"
            "mae_contrast_supcon_model" _ _ _ Sample.url_info (VBool false) "rb: ..."
            Sample3.classifier_url Sample3.encoder_url
            {| status_code := 404; content := "" |} Sample2.world_no_encoder
            _ H1 _ eq_refl eq_refl eq_refl eq_refl _);
    vm_compute; reflexivity.
Defined.

Lemma refused_downloads_pass_silently_witness :
  download_needed (files Sample2.world_no_encoder)
    (Py.path_join "models" ["rb"; "mae_contrast_supcon_model"; "classifier.pth"])
    (Py.path_join "models" ["rb"; "mae_contrast_supcon_model"; "encoder.pth"])
    (VBool false) = true
  /\ provision Sample2.env_404 Sample.config Sample2.world_no_encoder
     = (Ok (Py.path_join "models" ["rb"; "mae_contrast_supcon_model"; "classifier.pth"],
            Py.path_join "models" ["rb"; "mae_contrast_supcon_model"; "encoder.pth"]),
        extend Sample2.world_no_encoder
          [EvLog INFO (Text "- Downloading models...");
           EvGet Sample3.classifier_url;
           EvLog WARNING (Text "  - classifier.pth url not found.");
           EvGet Sample3.encoder_url;
           EvLog WARNING (Text "  - encoder.pth url not found.")])
  /\ files (provision Sample2.env_404 Sample.config Sample2.world_no_encoder).2
     = files Sample2.world_no_encoder.
Proof.
  assert (H1 : download_needed (files Sample2.world_no_encoder)
                 (Py.path_join "models" ["rb"; "mae_contrast_supcon_model"; "classifier.pth"])
                 (Py.path_join "models" ["rb"; "mae_contrast_supcon_model"; "encoder.pth"])
                 (VBool false) = true) by (vm_compute; reflexivity).
  split; [exact H1 |].
  refine (refused_downloads_pass_silently Sample2.env_404 Sample.config "rb"
            "mae_contrast_supcon_model" _ _ _ Sample.url_info (VBool false) "rb: ..."
            Sample3.classifier_url Sample3.encoder_url
            {| status_code := 404; content := "" |} {| status_code := 404; content := "" |}
            Sample2.world_no_encoder
            _ H1 _ eq_refl eq_refl eq_refl eq_refl _ eq_refl _);
    try (vm_compute; reflexivity); discriminate.
Defined.


Lemma missing_url_table_raises_witness :
  download_needed (files Sample2.world_no_urls)
    (Py.path_join "models" ["rb"; "mae_contrast_supcon_model"; "classifier.pth"])
    (Py.path_join "models" ["rb"; "mae_contrast_supcon_model"; "encoder.pth"])
    (VBool false) = true
  /\ files Sample2.world_no_urls !! "models_urls.yaml" = None
  /\ provision Sample.env Sample.config Sample2.world_no_urls
     = (Raise "[Errno 2] No such file or directory: 'models_urls.yaml'",
        extend Sample2.world_no_urls [EvLog INFO (Text "- Downloading models...")]).
Proof.
  assert (H1 : download_needed (files Sample2.world_no_urls)
                 (Py.path_join "models" ["rb"; "mae_contrast_supcon_model"; "classifier.pth"])
                 (Py.path_join "models" ["rb"; "mae_contrast_supcon_model"; "encoder.pth"])
                 (VBool false) = true) by (vm_compute; reflexivity).
  assert (H2 : files Sample2.world_no_urls !! "models_urls.yaml" = None)
    by (vm_compute; reflexivity).
  split; [exact H1 |]. split; [exact H2 |].
  refine (missing_url_table_raises Sample.env Sample.config "rb"
            "mae_contrast_supcon_model" _ _ _ (VBool false) Sample2.world_no_urls _ H1 H2);
    vm_compute; reflexivity.
Defined.

Lemma missing_config_file_aborts_witness :
  files Sample2.world_no_config !! "config.yaml" = None
  /\ exists e,
       main Sample.env Sample.sys_argv Sample2.world_no_config
       = (Raise e, Sample2.world_no_config)
       /\ (e = "[Errno 2] No such file or directory: 'config.yaml'"
           \/ ((1 < length Sample.sys_argv)%nat
               /\ argv_options Sample.env (tail Sample.sys_argv) = Raise e)).
Proof.
  assert (H : files Sample2.world_no_config !! "config.yaml" = None)
    by (vm_compute; reflexivity).
  split; [exact H |].
  exact (missing_config_file_aborts Sample.env Sample.sys_argv Sample2.world_no_config H).
Defined.

Lemma replaced_logger_aborts_witness :
  files Sample.world !! "config.yaml" = Some "create_csv: true
model_channels: rb
"
  /\ exists e,
       main Sample2.env_log_replaced Sample.sys_argv Sample.world = (Raise e, Sample.world)
       /\ (e = "'" +:+ type_name (VStr "log.txt") +:+ "' object has no attribute 'info'"
           \/ ((1 < length Sample.sys_argv)%nat
               /\ argv_options Sample2.env_log_replaced (tail Sample.sys_argv) = Raise e)).
Proof.
  assert (H : files Sample.world !! "config.yaml" = Some "create_csv: true
model_channels: rb
") by (vm_compute; reflexivity).
  split; [exact H |].
  refine (replaced_logger_aborts Sample2.env_log_replaced Sample.sys_argv Sample.world
            _ (<["log" := VStr "log.txt"]> ∅) (VStr "log.txt") H eq_refl _ _);
    [vm_compute; reflexivity | discriminate].
Defined.

Lemma failure_before_loop_witness :
  prologue Sample.env Sample.sys_argv Sample3.world_no_model_config
  = (Ok Sample.config, Sample3.after_prologue_no_model_config.2)
  /\ setup Sample.env Sample.config Sample3.after_prologue_no_model_config.2
     = (Raise Sample3.no_model_config_error, Sample3.after_prologue_no_model_config.2)
  /\ exists finish evs,
       main Sample.env Sample.sys_argv Sample3.world_no_model_config
       = (Ok tt,
          extend Sample3.after_prologue_no_model_config.2
            [EvLog ERROR (Text ("- " +:+ Sample3.no_model_config_error));
             EvLog INFO (Text "----------");
             EvLog INFO (Text ("End: " +:+ finish))])
       /\ Sample3.after_prologue_no_model_config.2
          = extend Sample3.world_no_model_config evs
       /\ dirs_of (evs ++ [EvLog ERROR (Text ("- " +:+ Sample3.no_model_config_error));
                           EvLog INFO (Text "----------");
                           EvLog INFO (Text ("End: " +:+ finish))]) = []
       /\ imreads_of (evs ++ [EvLog ERROR (Text ("- " +:+ Sample3.no_model_config_error));
                              EvLog INFO (Text "----------");
                              EvLog INFO (Text ("End: " +:+ finish))]) = []
       /\ runs_of (evs ++ [EvLog ERROR (Text ("- " +:+ Sample3.no_model_config_error));
                           EvLog INFO (Text "----------");
                           EvLog INFO (Text ("End: " +:+ finish))]) = []
       /\ ("result.csv"
             ∉ written_paths
                 (evs ++ [EvLog ERROR (Text ("- " +:+ Sample3.no_model_config_error));
                          EvLog INFO (Text "----------");
                          EvLog INFO (Text ("End: " +:+ finish))])).
Proof.
  assert (H1 : prologue Sample.env Sample.sys_argv Sample3.world_no_model_config
               = (Ok Sample.config, Sample3.after_prologue_no_model_config.2))
    by (vm_compute; reflexivity).
  assert (H2 : setup Sample.env Sample.config Sample3.after_prologue_no_model_config.2
               = (Raise Sample3.no_model_config_error,
                  Sample3.after_prologue_no_model_config.2))
    by (vm_compute; reflexivity).
  split; [exact H1 |]. split; [exact H2 |].
  exact (proj1 (failure_before_loop Sample.env Sample.sys_argv Sample.config
                  Sample3.no_model_config_error Sample3.world_no_model_config
                  Sample3.after_prologue_no_model_config.2
                  Sample3.after_prologue_no_model_config.2 H1 H2)).
Defined.
